(** * url-downloader-bot: the acquisition chain of [bot.py]

    A shallow embedding of the download helpers of [bot.py]
    ([pick_filename_from_url], [run_yt_dlp], [direct_download], [send_file],
    [process_download], [handle_callback]) and the properties of the
    fallback chain, the bounded streaming fetch, the scratch-directory
    lifecycle and the retry slot.

    Everything outside [bot.py] (the yt-dlp child process, the HTTP peer,
    the Telegram API, [urllib.parse.urlparse], [mimetypes.guess_extension],
    [tempfile]) is an environment [env] of scripted outcomes: each call
    either returns a value or raises a Python exception. *)

From Stdlib Require Import ZArith NArith String Ascii List Bool Lia.
From stdpp Require Import base gmap strings list.

Open Scope string_scope.

(** ** Python strings *)

Module PyStr.

(** [s.split(sep)] for a one-character separator: never the empty list. *)
Fixpoint split (sep : ascii) (s : string) : list string :=
  match s with
  | EmptyString => [EmptyString]
  | String c r =>
      if Ascii.eqb c sep then EmptyString :: split sep r
      else match split sep r with
           | h :: t => String c h :: t
           | [] => [String c EmptyString]
           end
  end.

(** [s.split(sep)[0]] *)
Definition split_first (sep : ascii) (s : string) : string :=
  match split sep s with
  | h :: _ => h
  | [] => EmptyString
  end.

(** [sep in s] for a one-character [sep]. *)
Fixpoint contains (c : ascii) (s : string) : bool :=
  match s with
  | EmptyString => false
  | String a r => Ascii.eqb a c || contains c r
  end.

(** [s.endswith(suf)] *)
Fixpoint endswith (s suf : string) : bool :=
  if String.eqb s suf then true
  else match s with
       | EmptyString => false
       | String _ r => endswith r suf
       end.

(** [s.startswith(pre)], returning the rest of [s]. *)
Fixpoint strip_prefix (pre s : string) : option string :=
  match pre, s with
  | EmptyString, _ => Some s
  | String a pre', String b s' =>
      if Ascii.eqb a b then strip_prefix pre' s' else None
  | String _ _, EmptyString => None
  end.

Definition startswith (s pre : string) : bool :=
  match strip_prefix pre s with Some _ => true | None => false end.

(** A [str] is kept as the bytes of its UTF-8 encoding.  [WHITESPACE]
    lists the encodings of the characters [str.strip()] removes, those
    with [c.isspace()]: U+0009 to U+000D, U+001C to U+0020, U+0085,
    U+00A0, U+1680, U+2000 to U+200A, U+2028, U+2029, U+202F, U+205F and
    U+3000. *)
Definition of_bytes (l : list N) : string :=
  string_of_list_ascii (List.map ascii_of_N l).

Definition WHITESPACE : list string :=
  List.map of_bytes
    ([0x09] :: [0x0A] :: [0x0B] :: [0x0C] :: [0x0D] ::
     [0x1C] :: [0x1D] :: [0x1E] :: [0x1F] :: [0x20] ::
     [0xC2; 0x85] :: [0xC2; 0xA0] :: [0xE1; 0x9A; 0x80] ::
     [0xE2; 0x80; 0x80] :: [0xE2; 0x80; 0x81] :: [0xE2; 0x80; 0x82] ::
     [0xE2; 0x80; 0x83] :: [0xE2; 0x80; 0x84] :: [0xE2; 0x80; 0x85] ::
     [0xE2; 0x80; 0x86] :: [0xE2; 0x80; 0x87] :: [0xE2; 0x80; 0x88] ::
     [0xE2; 0x80; 0x89] :: [0xE2; 0x80; 0x8A] :: [0xE2; 0x80; 0xA8] ::
     [0xE2; 0x80; 0xA9] :: [0xE2; 0x80; 0xAF] :: [0xE2; 0x81; 0x9F] ::
     [0xE3; 0x80; 0x80] :: nil)%N.

(** The length in bytes of the white-space character [s] starts with;
    [0] when it starts with none. *)
Definition space_len (s : string) : nat :=
  match List.find (startswith s) WHITESPACE with
  | Some w => String.length w
  | None => 0
  end.

(** [s.lstrip()]; [skip] counts the bytes still to drop of the
    white-space character being removed. *)
Fixpoint lstrip_from (skip : nat) (s : string) : string :=
  match s with
  | EmptyString => EmptyString
  | String _ r =>
      match skip with
      | S k => lstrip_from k r
      | O =>
          match space_len s with
          | S k => lstrip_from k r
          | O => s
          end
      end
  end.

Definition lstrip (s : string) : string := lstrip_from 0 s.

(** [s.rstrip()]: [s] is cut where only white space follows. *)
Fixpoint rstrip (s : string) : string :=
  match s with
  | EmptyString => EmptyString
  | String c r =>
      match lstrip s with
      | EmptyString => EmptyString
      | _ => String c (rstrip r)
      end
  end.

(** [s.strip()] *)
Definition strip (s : string) : string := rstrip (lstrip s).

Definition is_digit (c : ascii) : bool :=
  let n := N_of_ascii c in ((48 <=? n) && (n <=? 57))%N.

Fixpoint all_digits (s : string) : bool :=
  match s with
  | EmptyString => true
  | String c r => is_digit c && all_digits r
  end.

(** [s.isdigit()] on an ASCII string: at least one character, all of them
    decimal digits. *)
Definition isdigit (s : string) : bool :=
  match s with
  | EmptyString => false
  | _ => all_digits s
  end.

Fixpoint int_acc (acc : N) (s : string) : N :=
  match s with
  | EmptyString => acc
  | String c r => int_acc (10 * acc + (N_of_ascii c - 48))%N r
  end.

(** [int(s)] for a string of decimal digits (Python integers are
    unbounded, so is [N]).  Python 3.11 refuses to convert a string of
    more than [INT_MAX_STR_DIGITS] digits. *)
Definition int (s : string) : N := int_acc 0%N s.

Definition INT_MAX_STR_DIGITS : nat := 4300.

Definition lower_char (c : ascii) : ascii :=
  let n := N_of_ascii c in
  if ((65 <=? n) && (n <=? 90))%N then ascii_of_N (n + 32) else c.

Fixpoint lower (s : string) : string :=
  match s with
  | EmptyString => EmptyString
  | String c r => String (lower_char c) (lower r)
  end.

(** Strings of printable ASCII characters other than the space and
    the semicolon, as the names of media types are. *)
Fixpoint plain (s : string) : bool :=
  match s with
  | EmptyString => true
  | String c r =>
      let n := N_of_ascii c in
      ((33 <=? n) && (n <=? 126) && negb (n =? 59))%N && plain r
  end.

(** [s.isascii()] *)
Fixpoint is_ascii (s : string) : bool :=
  match s with
  | EmptyString => true
  | String c r => (N_of_ascii c <? 128)%N && is_ascii r
  end.

(** Truthiness of a [str]: the empty string is falsy. *)
Definition truthy (s : string) : bool :=
  match s with EmptyString => false | _ => true end.

End PyStr.

(** ** [os.path] and [pathlib] on POSIX path strings *)

Module PyPath.
Import PyStr.

Definition slash : ascii := "/"%char.
Definition dot : ascii := "."%char.

(** [os.path.join(a, b)] *)
Definition join (a b : string) : string :=
  if startswith b "/" then b
  else if negb (truthy a) || endswith a "/" then a ++ b
  else a ++ "/" ++ b.

(** [os.path.basename(p)]: what follows the last slash. *)
Definition basename (p : string) : string :=
  List.last (split slash p) EmptyString.

(** [p] up to and including its last slash. *)
Fixpoint head_with_slash (p : string) : string :=
  match p with
  | EmptyString => EmptyString
  | String c r =>
      if contains slash p then String c (head_with_slash r) else EmptyString
  end.

Fixpoint all_slashes (s : string) : bool :=
  match s with
  | EmptyString => true
  | String c r => Ascii.eqb c slash && all_slashes r
  end.

Fixpoint rstrip_slashes (s : string) : string :=
  match s with
  | EmptyString => EmptyString
  | String c r =>
      match rstrip_slashes r with
      | EmptyString => if Ascii.eqb c slash then EmptyString else String c EmptyString
      | r' => String c r'
      end
  end.

(** [os.path.dirname(p)] *)
Definition dirname (p : string) : string :=
  let head := head_with_slash p in
  if truthy head && negb (all_slashes head) then rstrip_slashes head else head.

(** [pathlib.Path(p).name]: the last component of [p] once empty and [.]
    components are dropped; the empty string when nothing is left. *)
Definition name (p : string) : string :=
  List.last
    (List.filter (fun c => negb (String.eqb c EmptyString || String.eqb c "."))
                 (split slash p))
    EmptyString.

Fixpoint rfind_dot (s : string) : option nat :=
  match s with
  | EmptyString => None
  | String c r =>
      match rfind_dot r with
      | Some i => Some (S i)
      | None => if Ascii.eqb c dot then Some 0 else None
      end
  end.

(** [pathlib.Path(n).suffix] of a file name [n]: from the last dot on,
    unless that dot is the first or the last character. *)
Definition suffix (n : string) : string :=
  match rfind_dot n with
  | Some i =>
      if ((0 <? i) && (i <? String.length n - 1))%nat
      then substring i (String.length n - i)%nat n
      else EmptyString
  | None => EmptyString
  end.

End PyPath.


Open Scope list_scope.

(** ** Exceptions, results and observable events *)

(** The exception classes the code can meet.  [CancelledError] and
    [KeyboardInterrupt] derive from [BaseException] only, the others from
    [Exception]. *)
Inductive exn : Set :=
| FileNotFoundError
| IsADirectoryError
| NotADirectoryError
| OSError
| ValueError
| UnicodeDecodeError
| AttributeError
| HTTPError
| TelegramError
| CancelledError
| KeyboardInterrupt.

(** [isinstance(e, Exception)], the test of [except Exception]. *)
Definition is_Exception (e : exn) : bool :=
  match e with
  | CancelledError | KeyboardInterrupt => false
  | _ => true
  end.

(** [isinstance(e, FileNotFoundError)] *)
Definition is_FileNotFoundError (e : exn) : bool :=
  match e with
  | FileNotFoundError => true
  | _ => false
  end.

(** How a call ends: with a value or with a raised exception. *)
Inductive res (A : Type) : Type :=
| Ret (a : A)
| Raise (e : exn).
Arguments Ret {A} a.
Arguments Raise {A} e.

(** Truthiness of a [str | None] value, as [if not file_path] tests it. *)
Definition falsy (o : option string) : bool :=
  match o with
  | None => true
  | Some s => negb (PyStr.truthy s)
  end.

(** The keys of the [MESSAGES] table. *)
Inductive message : Set :=
| MSG_start | MSG_help | MSG_send_url_prompt | MSG_supported_sites
| MSG_no_url | MSG_downloading | MSG_uploading | MSG_failed
| MSG_missing_token | MSG_message_closed | MSG_no_previous_url
| MSG_about | MSG_goodbye.

(** The keyboards built by [get_help_keyboard], [get_retry_keyboard],
    [get_main_keyboard] and [get_back_keyboard]. *)
Inductive keyboard : Set :=
| help_keyboard | retry_keyboard | main_keyboard | back_keyboard.

(** Calls into the Telegram API. *)
Inductive ui_action : Set :=
| reply_text (m : message) (kb : option keyboard)
| edit_text (m : message) (kb : option keyboard)
| delete_status
| send_chat_action
| reply_video (file_path : string)
| reply_document (file_path : string)
| query_answer
| query_edit_message_text (m : message) (kb : option keyboard)
| query_delete_message.

(** One constructor per [logger] call of the source. *)
Inductive log_record : Set :=
| LogYtDlpFailed (url stderr : string)
| LogYtDlpNotFound
| LogYtDlpUnexpected (e : exn)
| LogHeadFailed (url : string) (e : exn)
| LogFileTooLarge (cl url : string)
| LogHttpStatus (status : Z) (url : string)
| LogExceededLimit (url : string)
| LogDirectFailed (url : string) (e : exn).

Inductive attempt : Set := RunYtDlp | DirectDownload.

(** What a run does to the outside, in order.  [EvEnter] and [EvLeave]
    bracket each call of an attempt function with its arguments and its
    result. *)
Inductive event : Type :=
| EvEnter (a : attempt) (url out_dir : string)
| EvLeave (a : attempt) (r : res (option string))
| EvSpawn (cmd : list string)
| EvHead (url : string)
| EvGet (url : string)
| EvRead (n : N)
| EvOpen (path : string)
| EvWrite (path : string) (n : N)
| EvRemove (path : string)
| EvMkdtemp (path : string)
| EvRmtree (path : string)
| EvLog (l : log_record)
| EvUI (a : ui_action).

(** ** A monad of state, exceptions and emitted events *)

Definition M (S A : Type) : Type := S -> res A * S * list event.

Definition ret {S A} (a : A) : M S A := fun s => (Ret a, s, []).

Definition raise {S A} (e : exn) : M S A := fun s => (Raise e, s, []).

Definition bind {S A B} (m : M S A) (k : A -> M S B) : M S B := fun s =>
  match m s with
  | (Ret a, s1, t1) =>
      match k a s1 with
      | (r, s2, t2) => (r, s2, t1 ++ t2)
      end
  | (Raise e, s1, t1) => (Raise e, s1, t1)
  end.

Notation "'let!' x ':=' c 'in' k" := (bind c (fun x => k))
  (at level 10, x name, c at level 100, k at level 200).
Notation "'let!' ' p ':=' c 'in' k" := (bind c (fun x => match x with p => k end))
  (at level 10, p pattern, c at level 100, k at level 200).
Notation "c '>>' k" := (bind c (fun _ => k))
  (at level 90, right associativity).

Definition emit {S} (e : event) : M S unit := fun s => (Ret tt, s, [e]).

Definition get {S} : M S S := fun s => (Ret s, s, []).

Definition put {S} (s : S) : M S unit := fun _ => (Ret tt, s, []).

(** Lift the outcome of an external call into the monad. *)
Definition of_res {S A} (r : res A) : M S A :=
  match r with
  | Ret a => ret a
  | Raise e => raise e
  end.

(** [try: body / except ...:] — [handler e] is the suite of the first
    [except] clause matching [e], if any.  An exception raised by the
    handler itself propagates. *)
Definition try_except {S A} (body : M S A) (handler : exn -> option (M S A)) : M S A :=
  fun s =>
    match body s with
    | (Ret a, s1, t1) => (Ret a, s1, t1)
    | (Raise e, s1, t1) =>
        match handler e with
        | Some h =>
            match h s1 with
            | (r, s2, t2) => (r, s2, t1 ++ t2)
            end
        | None => (Raise e, s1, t1)
        end
    end.

(** The exit of a [with] block: [cleanup] runs however [body] ends. *)
Definition finally {S A} (body : M S A) (cleanup : M S unit) : M S A :=
  fun s =>
    match body s with
    | (r, s1, t1) =>
        match cleanup s1 with
        | (Ret _, s2, t2) => (r, s2, t1 ++ t2)
        | (Raise e, s2, t2) => (Raise e, s2, t1 ++ t2)
        end
    end.

(** Run a computation on a component of the state. *)
Definition zoom {S T A} (proj : S -> T) (upd : T -> S -> S) (m : M T A) : M S A :=
  fun s =>
    match m (proj s) with
    | (r, t', evs) => (r, upd t' s, evs)
    end.

(** A local variable [l] that the body may assign and its handlers read. *)
Definition with_local {S L A} (init : L) (m : M (S * L) A) : M S A :=
  fun s =>
    match m (s, init) with
    | (r, (s', _), evs) => (r, s', evs)
    end.

Definition on_state {S L A} (m : M S A) : M (S * L) A :=
  zoom fst (fun s' sl => (s', snd sl)) m.

Definition get_local {S L} : M (S * L) L := fun sl => (Ret (snd sl), sl, []).

Definition set_local {S L} (l : L) : M (S * L) unit :=
  fun sl => (Ret tt, (fst sl, l), []).

(** ** The disk *)

(** A regular file is kept as its length in bytes and its modification
    time: the code reads nothing else of it.  The time is the value
    [os.path.getmtime] returns, of which only the order is used. *)
Record file : Set := { f_size : N; f_mtime : Z }.

Inductive node : Set :=
| File (f : file)
| Dir (mtime : Z).

(** The disk maps a path string to what is there.  Paths are compared as
    written, except that [d/.] and [d/..] name a directory whenever [d]
    is one (an empty [d] standing for the current directory). *)
Abbreviation fsys := (gmap string node).

Module Disk.

Definition is_dots (n : string) : bool :=
  String.eqb n "." || String.eqb n "..".

Definition node_at (fs : fsys) (p : string) : option node :=
  if is_dots (PyPath.basename p) then
    let d := PyPath.dirname p in
    match (if PyStr.truthy d then fs !! d else Some (Dir 0)) with
    | Some (Dir m) => Some (Dir m)
    | _ => None
    end
  else fs !! p.

Definition is_dir (fs : fsys) (p : string) : bool :=
  match node_at fs p with
  | Some (Dir _) => true
  | _ => false
  end.

(** [os.path.exists(p)] *)
Definition exists_ (p : string) : M fsys bool :=
  fun fs => (Ret (match node_at fs p with Some _ => true | None => false end), fs, []).

(** [os.remove(p)] *)
Definition remove (p : string) : M fsys unit :=
  fun fs =>
    match node_at fs p with
    | Some (File _) => (Ret tt, delete p fs, [EvRemove p])
    | Some (Dir _) => (Raise IsADirectoryError, fs, [])
    | None => (Raise FileNotFoundError, fs, [])
    end.

(** [open(p, "wb")]: the file is created empty, or truncated.  The
    directory that is to hold it must exist, and [d/.] or [d/..] cannot
    be opened for writing: it is a directory, or [d] is none. *)
Definition open_wb (now : Z) (p : string) : M fsys unit :=
  fun fs =>
    match node_at fs p with
    | Some (Dir _) => (Raise IsADirectoryError, fs, [])
    | _ =>
        if is_dots (PyPath.basename p) then (Raise FileNotFoundError, fs, [])
        else
          let d := PyPath.dirname p in
          match (if PyStr.truthy d then node_at fs d else Some (Dir 0)) with
          | Some (Dir _) =>
              (Ret tt, <[p := File {| f_size := 0; f_mtime := now |}]> fs, [EvOpen p])
          | Some (File _) => (Raise NotADirectoryError, fs, [])
          | None => (Raise FileNotFoundError, fs, [])
          end
    end.

Definition grow (n : N) (x : node) : node :=
  match x with
  | File f => File {| f_size := f_size f + n; f_mtime := f_mtime f |}
  | Dir m => Dir m
  end.

(** [f.write(chunk)] on the file opened at [p], for a chunk of [n] bytes. *)
Definition write (p : string) (n : N) : M fsys unit :=
  fun fs => (Ret tt, alter (grow n) p fs, [EvWrite p n]).

Definition node_mtime (x : node) : Z :=
  match x with
  | File f => f_mtime f
  | Dir m => m
  end.

(** [os.path.getmtime(p)] *)
Definition getmtime (p : string) : M fsys Z :=
  fun fs =>
    match node_at fs p with
    | Some x => (Ret (node_mtime x), fs, [])
    | None => (Raise FileNotFoundError, fs, [])
    end.

(** [os.path.getsize(p)]; what it returns for a directory is never
    looked at, as opening a directory for reading raises. *)
Definition getsize (p : string) : M fsys N :=
  fun fs =>
    match node_at fs p with
    | Some (File f) => (Ret (f_size f), fs, [])
    | Some (Dir _) => (Ret 0%N, fs, [])
    | None => (Raise FileNotFoundError, fs, [])
    end.

(** [open(p, "rb")] *)
Definition open_rb (p : string) : M fsys unit :=
  fun fs =>
    match node_at fs p with
    | Some (File _) => (Ret tt, fs, [])
    | Some (Dir _) => (Raise IsADirectoryError, fs, [])
    | None => (Raise FileNotFoundError, fs, [])
    end.

(** The name under which [p] is an entry of directory [d], if it is one. *)
Definition child_name (d p : string) : option string :=
  match PyStr.strip_prefix (PyPath.join d EmptyString) p with
  | Some n =>
      if PyStr.truthy n && negb (PyStr.contains PyPath.slash n) && negb (is_dots n)
      then Some n else None
  | None => None
  end.

(** The names of the entries of [d], in the order the disk enumerates
    them. *)
Definition entries (d : string) (fs : fsys) : list string :=
  omap (fun kv => child_name d kv.1) (map_to_list fs).

(** [os.listdir(d)] *)
Definition listdir (d : string) : M fsys (list string) :=
  fun fs =>
    match node_at fs d with
    | Some (Dir _) => (Ret (entries d fs), fs, [])
    | Some (File _) => (Raise NotADirectoryError, fs, [])
    | None => (Raise FileNotFoundError, fs, [])
    end.

(** Whether [p] is [d] or lies below it. *)
Definition under (d p : string) : bool :=
  String.eqb p d || PyStr.startswith p (d ++ "/")%string.

(** [shutil.rmtree(d)] *)
Definition rmtree (d : string) : M fsys unit :=
  fun fs =>
    (Ret tt, filter (fun kv => under d kv.1 = false) fs, [EvRmtree d]).

(** [tempfile.mkdtemp()] creating the directory [d]. *)
Definition mkdtemp (now : Z) (d : string) : M fsys string :=
  fun fs => (Ret d, <[d := Dir now]> fs, [EvMkdtemp d]).

End Disk.

(** ** The environment *)

(** The body of an HTTP response as [aiter_bytes] hands it over: chunks,
    each kept as its length (the code looks at [len(chunk)] only), and
    possibly a transport fault in the middle. *)
Inductive body_item : Set :=
| Chunk (n : N)
| Fault (e : exn).

Record response : Type := {
  status_code : Z;
  headers : gmap string string;   (* lower-case header name to value *)
  body : list body_item
}.

(** A started child process: what it does to the disk while it runs, and
    what [communicate()] gives, the return code and the error stream
    decoded ([None] when the bytes do not decode). *)
Record process : Type := {
  p_effect : fsys -> fsys;
  p_result : res (Z * option string)
}.

Record env : Type := {
  urlparse_path : string -> res string;     (* [urlparse(url).path], or the [ValueError] it raises *)
  guess_extension : string -> option string;  (* [mimetypes.guess_extension] *)
  spawn : list string -> res process;       (* [asyncio.create_subprocess_exec] *)
  http_head : string -> res response;       (* [client.head] *)
  http_get : string -> res response;        (* [client.stream("GET", ...)] *)
  telegram : ui_action -> option exn;       (* the fault a Telegram call raises, if any *)
  mkdtemp_name : string;                    (* the directory [tempfile] creates *)
  now : Z                                   (* the time stamp given to new files *)
}.

(** ** Constants of [bot.py] *)

Definition MAX_DIRECT_DOWNLOAD_MB : N := 80.
Definition MAX_DIRECT_DOWNLOAD_BYTES : N := MAX_DIRECT_DOWNLOAD_MB * 1024 * 1024.
Definition CHUNK_SIZE : N := 1024 * 256.
Definition HTTP_TIMEOUT : N := 60.
Definition MAX_RETRIES : N := 2.

(** ** [pick_filename_from_url] *)

Definition pick_filename_from_url (E : env) (url : string) : res string :=
  match urlparse_path E url with
  | Raise e => Raise e
  | Ret path =>
      let name := PyPath.name path in
      let name := if PyStr.truthy name then name else "download" in
      let name := PyStr.split_first "#" (PyStr.split_first "?" name) in
      Ret (if PyStr.truthy name then name else "download")
  end.

(** ** [run_yt_dlp] *)

(** Bracket a call of an attempt function with [EvEnter] and [EvLeave]. *)
Definition traced {S} (a : attempt) (url out_dir : string)
    (body : M S (option string)) : M S (option string) :=
  fun s =>
    match body s with
    | (r, s', evs) => (r, s', EvEnter a url out_dir :: evs ++ [EvLeave a r])
    end.

Definition create_subprocess_exec (E : env) (cmd : list string) : M fsys process :=
  emit (EvSpawn cmd) >> of_res (spawn E cmd).

(** [await proc.communicate()]: the child has run by the time it returns. *)
Definition communicate (proc : process) : M fsys (Z * option string) :=
  fun fs =>
    match p_result proc with
    | Ret v => (Ret v, p_effect proc fs, [])
    | Raise e => (Raise e, p_effect proc fs, [])
    end.

(** [stderr.decode()] *)
Definition decode {S} (b : option string) : M S string :=
  match b with
  | Some s => ret s
  | None => raise UnicodeDecodeError
  end.

(** The keys [sorted] computes, in list order; the first [getmtime] that
    raises ends the call. *)
Fixpoint keyed (paths : list string) : M fsys (list (string * Z)) :=
  match paths with
  | [] => ret []
  | p :: r =>
      let! k := Disk.getmtime p in
      let! rest := keyed r in
      ret ((p, k) :: rest)
  end.

Fixpoint insert_desc (x : string * Z) (l : list (string * Z)) : list (string * Z) :=
  match l with
  | [] => [x]
  | y :: r => if (y.2 <=? x.2)%Z then x :: l else y :: insert_desc x r
  end.

(** [sorted(..., reverse=True)] on keyed items: stable, so items of equal
    key keep their order. *)
Definition sorted_desc (l : list (string * Z)) : list (string * Z) :=
  foldr insert_desc [] l.

(** The command line [cmd] of [run_yt_dlp]. *)
Definition yt_dlp_cmd (url out_dir : string) : list string :=
  let outtmpl := PyPath.join out_dir "%(title).200s.%(ext)s" in
  ["yt-dlp"; "--no-playlist"; "-o"; outtmpl; "-f"; "bv*+ba/best"; url].

Definition run_yt_dlp (E : env) (url out_dir : string) : M fsys (option string) :=
  traced RunYtDlp url out_dir (
    let cmd := yt_dlp_cmd url out_dir in
    try_except
      (let! proc := create_subprocess_exec E cmd in
       let! ' (returncode, stderr) := communicate proc in
       if negb (returncode =? 0)%Z then
         let! text := decode stderr in
         emit (EvLog (LogYtDlpFailed url text)) >>
         ret None
       else
         let! names := Disk.listdir out_dir in
         let! items := keyed (map (PyPath.join out_dir) names) in
         let files := map fst (sorted_desc items) in
         ret (head files))
      (fun e =>
         if is_FileNotFoundError e then
           Some (emit (EvLog LogYtDlpNotFound) >> ret None)
         else if is_Exception e then
           Some (emit (EvLog (LogYtDlpUnexpected e)) >> ret None)
         else None)).

(** ** [direct_download] *)

(** How a block ends: by [return v], or by running off its end. *)
Inductive ctl (A : Type) : Type :=
| Returned (v : A)
| Fallthrough.
Arguments Returned {A} v.
Arguments Fallthrough {A}.

(** The [async for chunk in r.aiter_bytes(...)] loop, with [total] the
    bytes counted so far. *)
Fixpoint receive (url out_path : string) (items : list body_item) (total : N)
    : M fsys (ctl (option string)) :=
  match items with
  | [] => ret Fallthrough
  | Fault e :: _ => raise e
  | Chunk n :: rest =>
      emit (EvRead n) >>
      if (n =? 0)%N then receive url out_path rest total
      else
        let total := (total + n)%N in
        if (MAX_DIRECT_DOWNLOAD_BYTES <? total)%N then
          emit (EvLog (LogExceededLimit url)) >>
          let! ex := Disk.exists_ out_path in
          (if ex then Disk.remove out_path else ret tt) >>
          ret (Returned None)
        else
          Disk.write out_path n >>
          receive url out_path rest total
  end.

(** The declared length that makes the probe refuse the transfer, if any:
    [head] answered below 400 with a [content-length] of decimal digits
    above the ceiling. *)
Definition declared_too_large (head : option response) : option string :=
  match head with
  | Some h =>
      if (status_code h <? 400)%Z then
        match headers h !! "content-length" with
        | Some cl =>
            if PyStr.truthy cl && PyStr.isdigit cl
               && (MAX_DIRECT_DOWNLOAD_BYTES <? PyStr.int cl)%N
            then Some cl else None
        | None => None
        end
      else None
  | None => None
  end.

(** The media type of the [content-type] header: what precedes the first
    [;], stripped; empty when the header is missing. *)
Definition content_type (r : response) : string :=
  PyStr.strip (PyStr.split_first ";" (default EmptyString (headers r !! "content-type"))).

(** The output path once the content type is known: an extension guessed
    from the type is added to a name without a dot. *)
Definition with_extension (E : env) (out_path ct : string) : string :=
  if negb (PyStr.contains PyPath.dot (PyPath.basename out_path)) && PyStr.truthy ct then
    let ext := default EmptyString (guess_extension E ct) in
    if PyStr.truthy ext && negb (PyStr.endswith out_path ext)
    then (out_path ++ ext)%string
    else out_path
  else out_path.

(** The probe: a [HEAD] request whose failure is logged and forgotten. *)
Definition probe {S} (E : env) (url : string) : M S (option response) :=
  try_except
    (emit (EvHead url) >>
     let! h := of_res (http_head E url) in
     ret (Some h))
    (fun e =>
       if is_Exception e then
         Some (emit (EvLog (LogHeadFailed url e)) >> ret None)
       else None).

Definition direct_download (E : env) (url out_dir : string) : M fsys (option string) :=
  traced DirectDownload url out_dir (
    let! filename := of_res (pick_filename_from_url E url) in
    with_local (PyPath.join out_dir filename) (
      try_except
        (let! head := probe E url in
         match declared_too_large head with
         | Some cl =>
             emit (EvLog (LogFileTooLarge cl url)) >>
             ret None
         | None =>
             emit (EvGet url) >>
             let! r := of_res (http_get E url) in
             if (400 <=? status_code r)%Z then
               emit (EvLog (LogHttpStatus (status_code r) url)) >>
               ret None
             else
               let ct := content_type r in
               let! out_path := get_local in
               set_local (with_extension E out_path ct) >>
               let! out_path := get_local in
               on_state (Disk.open_wb (now E) out_path) >>
               let! c := on_state (receive url out_path (body r) 0) in
               match c with
               | Returned v => ret v
               | Fallthrough =>
                   let! out_path := get_local in
                   let! ex := on_state (Disk.exists_ out_path) in
                   ret (if ex then Some out_path else None)
               end
         end)
        (fun e =>
           if is_Exception e then
             Some (emit (EvLog (LogDirectFailed url e)) >>
                   let! out_path := get_local in
                   let! ex := on_state (Disk.exists_ out_path) in
                   (if ex then on_state (Disk.remove out_path) else ret tt) >>
                   ret None)
           else None))).

(** ** [send_file], [process_download] and [handle_callback] *)

(** The session: the disk and the [context.user_data] dictionary. *)
Record world : Type := {
  disk : fsys;
  user_data : gmap string string
}.

Definition on_disk {A} (m : M fsys A) : M world A :=
  zoom disk (fun d w => {| disk := d; user_data := user_data w |}) m.

Definition on_user_data {A} (m : M (gmap string string) A) : M world A :=
  zoom user_data (fun u w => {| disk := disk w; user_data := u |}) m.

(** A call into the Telegram API, which may raise. *)
Definition tg {S} (E : env) (a : ui_action) : M S unit :=
  emit (EvUI a) >>
  match telegram E a with
  | Some e => raise e
  | None => ret tt
  end.

(** The [update] argument: a Telegram update, or the [FakeUpdate] object
    of the retry path, which has a [message] attribute only. *)
Inductive update : Set :=
| TelegramUpdate
| FakeUpdate.

(** [update.effective_chat.id] *)
Definition effective_chat_id {S} (u : update) : M S unit :=
  match u with
  | TelegramUpdate => ret tt
  | FakeUpdate => raise AttributeError
  end.

Definition video_exts : list string := [".mp4"; ".mkv"; ".mov"; ".webm"].

Definition send_file (E : env) (u : update) (file_path : string) : M fsys unit :=
  effective_chat_id u >>
  tg E send_chat_action >>
  let! size := Disk.getsize file_path in
  let file_name := PyPath.basename file_path in
  let ext := PyStr.lower (PyPath.suffix file_name) in
  Disk.open_rb file_path >>
  if existsb (String.eqb ext) video_exts && (size <=? 49 * 1024 * 1024)%N then
    tg E (reply_video file_path)
  else
    tg E (reply_document file_path).

(** [with tempfile.TemporaryDirectory() as tmpdir: body] *)
Definition with_TemporaryDirectory {A} (E : env) (body : string -> M world A) : M world A :=
  let! tmpdir := on_disk (Disk.mkdtemp (now E) (mkdtemp_name E)) in
  finally (body tmpdir) (on_disk (Disk.rmtree tmpdir)).

(** The retry slot: [context.user_data["last_url"] = url],
    [context.user_data.get("last_url")] and [context.user_data.clear()]. *)
Definition record (url : string) (ud : gmap string string) : gmap string string :=
  <["last_url" := url]> ud.

Definition last (ud : gmap string string) : option string :=
  ud !! "last_url".

Definition clear (ud : gmap string string) : gmap string string := ∅.

Definition process_download (E : env) (u : update) (url : string)
    (status_msg : option unit) : M world unit :=
  (match status_msg with
   | None => tg E (reply_text MSG_downloading None)
   | Some _ => ret tt
   end) >>
  on_user_data (let! ud := get in put (record url ud)) >>
  with_TemporaryDirectory E (fun tmpdir =>
    let! file_path := on_disk (run_yt_dlp E url tmpdir) in
    let! file_path :=
      (if falsy file_path then on_disk (direct_download E url tmpdir)
       else ret file_path) in
    if falsy file_path then
      tg E (edit_text MSG_failed (Some retry_keyboard))
    else
      tg E (edit_text MSG_uploading None) >>
      on_disk (send_file E u (default EmptyString file_path)) >>
      tg E delete_status).

Definition handle_callback (E : env) (data : string) : M world unit :=
  tg E query_answer >>
  if String.eqb data "send_url" then
    tg E (query_edit_message_text MSG_send_url_prompt (Some back_keyboard))
  else if String.eqb data "sites" then
    tg E (query_edit_message_text MSG_supported_sites (Some back_keyboard))
  else if String.eqb data "close" then
    tg E (query_edit_message_text MSG_goodbye None) >>
    on_user_data (let! ud := get in put (clear ud))
  else if String.eqb data "back_to_help" then
    tg E (query_edit_message_text MSG_help (Some help_keyboard))
  else if String.eqb data "help" then
    tg E (query_edit_message_text MSG_help (Some help_keyboard))
  else if String.eqb data "retry" then
    let! last_url := on_user_data (let! ud := get in ret (last ud)) in
    if falsy last_url then
      tg E (query_edit_message_text MSG_no_previous_url (Some help_keyboard))
    else
      tg E query_delete_message >>
      tg E (reply_text MSG_downloading None) >>
      process_download E FakeUpdate (default EmptyString last_url) (Some tt)
  else ret tt.

(** ** What the events tell *)

(** Appending to the last item of a list of strings. *)
Fixpoint app_last (l : list string) (b : string) : list string :=
  match l with
  | [] => []
  | [x] => [(x ++ b)%string]
  | x :: r => x :: app_last r b
  end.


(** Bytes written and chunks read, as the events tell. *)
Fixpoint written (evs : list event) : N :=
  match evs with
  | [] => 0
  | EvWrite _ n :: r => n + written r
  | _ :: r => written r
  end.

Fixpoint reads (evs : list event) : list N :=
  match evs with
  | [] => []
  | EvRead n :: r => n :: reads r
  | _ :: r => reads r
  end.

Fixpoint sum_N (l : list N) : N :=
  match l with
  | [] => 0
  | n :: r => n + sum_N r
  end.


(** The events of the loop: reads, writes to the output file, at most one
    log line and one removal. *)
Definition receive_event (p : string) (ev : event) : Prop :=
  match ev with
  | EvRead _ | EvLog (LogExceededLimit _) => True
  | EvWrite q _ | EvRemove q => q = p
  | _ => False
  end.


Fixpoint opened (evs : list event) : list string :=
  match evs with
  | [] => []
  | EvOpen p :: r => p :: opened r
  | _ :: r => opened r
  end.

(** The events an attempt function emits between entering and leaving. *)
Definition inner_event (ev : event) : Prop :=
  match ev with
  | EvSpawn _ | EvHead _ | EvGet _ | EvRead _ | EvOpen _ | EvWrite _ _
  | EvRemove _ | EvLog _ => True
  | _ => False
  end.


(** The key [getmtime] gives for a path that exists. *)
Definition mtime_at (fs : fsys) (p : string) : Z :=
  match Disk.node_at fs p with
  | Some x => Disk.node_mtime x
  | None => 0
  end.


(** Selecting events: the calls of the attempt functions, the Telegram
    calls, the creation and removal of scratch directories. *)
Definition is_call (ev : event) : bool :=
  match ev with
  | EvEnter _ _ _ | EvLeave _ _ => true
  | _ => false
  end.

Definition is_ui (ev : event) : bool :=
  match ev with
  | EvUI _ => true
  | _ => false
  end.

Definition is_scratch (ev : event) : bool :=
  match ev with
  | EvMkdtemp _ | EvRmtree _ => true
  | _ => false
  end.

Definition calls (evs : list event) : list event := List.filter is_call evs.
Definition ui (evs : list event) : list event := List.filter is_ui evs.
Definition scratch (evs : list event) : list event := List.filter is_scratch evs.

(** An attempt that returned a falsy value. *)
Definition failed (r : res (option string)) : bool :=
  match r with
  | Ret o => falsy o
  | Raise _ => false
  end.


(** The events of receiving chunks of the given lengths while they fit
    the ceiling: each chunk is read, and written unless it is empty. *)
Fixpoint received (p : string) (sizes : list N) : list event :=
  match sizes with
  | [] => []
  | n :: r => EvRead n :: (if (n =? 0)%N then [] else [EvWrite p n]) ++ received p r
  end.

(** White space around a header value: any run of the characters that
    [str.strip] removes. *)
Definition padding (ws : list string) : string :=
  fold_right String.append EmptyString ws.

Definition blank (ws : list string) : Prop :=
  Forall (fun w => In w PyStr.WHITESPACE) ws.

(** The probe lets the transfer start: it raised an exception of class
    [Exception], or its answer does not make [direct_download] give up.
    The [content-length] is taken to be ASCII and of a length [int]
    converts, which is as far as [PyStr.isdigit] and [PyStr.int] follow
    [str.isdigit] and [int]. *)
Definition probe_passes (E : env) (url : string) : Prop :=
  match http_head E url with
  | Raise e => is_Exception e = true
  | Ret h =>
      declared_too_large (Some h) = None /\
      match headers h !! "content-length" with
      | Some cl =>
          PyStr.is_ascii cl = true /\
          (String.length cl <= PyStr.INT_MAX_STR_DIGITS)%nat
      | None => True
      end
  end.

(** What the probe logs when it passes. *)
Definition head_log (E : env) (url : string) : list event :=
  match http_head E url with
  | Raise e => [EvLog (LogHeadFailed url e)]
  | Ret _ => []
  end.

(** How a call of [run_yt_dlp] is expected to end when exception [e] is
    raised inside its [try], on disk [fs] and after the events [t]: an
    exception of class [Exception] is logged and turned into [None], any
    other leaves the call. *)
Definition yt_dlp_fault_outcome (url out_dir : string) (e : exn) (fs : fsys)
    (t : list event) : res (option string) * fsys * list event :=
  if is_Exception e then
    (Ret None, fs,
     EvEnter RunYtDlp url out_dir :: t ++
     [EvLog (if is_FileNotFoundError e then LogYtDlpNotFound else LogYtDlpUnexpected e);
      EvLeave RunYtDlp (Ret None)])
  else
    (Raise e, fs, EvEnter RunYtDlp url out_dir :: t ++ [EvLeave RunYtDlp (Raise e)]).

(** The same for [direct_download], with [p] the output path at the time:
    an exception of class [Exception] is logged, what is at [p] is
    removed, and the call returns [None]; the removal itself raises when
    [p] is a directory. *)
Definition direct_fault_outcome (url out_dir p : string) (e : exn) (fs : fsys)
    (t : list event) : res (option string) * fsys * list event :=
  if is_Exception e then
    match Disk.node_at fs p with
    | Some (File _) =>
        (Ret None, delete p fs,
         EvEnter DirectDownload url out_dir :: t ++
         [EvLog (LogDirectFailed url e); EvRemove p; EvLeave DirectDownload (Ret None)])
    | Some (Dir _) =>
        (Raise IsADirectoryError, fs,
         EvEnter DirectDownload url out_dir :: t ++
         [EvLog (LogDirectFailed url e); EvLeave DirectDownload (Raise IsADirectoryError)])
    | None =>
        (Ret None, fs,
         EvEnter DirectDownload url out_dir :: t ++
         [EvLog (LogDirectFailed url e); EvLeave DirectDownload (Ret None)])
    end
  else
    (Raise e, fs,
     EvEnter DirectDownload url out_dir :: t ++ [EvLeave DirectDownload (Raise e)]).




(** ** Failure reasons *)

(** The failure reasons of the specification.  The code has no such
    type: an attempt that fails returns [None], and what went wrong is
    told by the line it logs, which [logged_reason] reads back. *)
Inductive reason : Set :=
| ToolUnavailable
| ToolNonZeroExit
| NoOutputProduced
| RemoteTooLarge
| RemoteErrorStatus
| TransferExceededLimit
| TransferError.

Definition logged_reason (l : log_record) : option reason :=
  match l with
  | LogYtDlpFailed _ _ => Some ToolNonZeroExit
  | LogYtDlpNotFound => Some ToolUnavailable
  | LogYtDlpUnexpected _ => None
  | LogHeadFailed _ _ => None
  | LogFileTooLarge _ _ => Some RemoteTooLarge
  | LogHttpStatus _ _ => Some RemoteErrorStatus
  | LogExceededLimit _ => Some TransferExceededLimit
  | LogDirectFailed _ _ => Some TransferError
  end.

(** The reasons logged during a run, in order. *)
Fixpoint reasons (evs : list event) : list reason :=
  match evs with
  | [] => []
  | EvLog l :: r =>
      match logged_reason l with
      | Some x => x :: reasons r
      | None => reasons r
      end
  | _ :: r => reasons r
  end.

(** What a call of [process_download] lets its caller and the requester
    see: how it ended, and the Telegram calls it made. *)
Definition surface (run : res unit * world * list event) : res unit * list event :=
  (run.1.1, ui run.2).

(** The reason a failure would carry when, as the specification puts it,
    the reason of the fallback takes precedence: the one logged last. *)
Definition final_reason (evs : list event) : option reason :=
  List.last (map Some (reasons evs)) None.

(** [carried] reads the reason of a failed call off what the call lets
    its caller and the requester see. *)
Definition carries_reason (carried : res unit * list event -> option reason) : Prop :=
  forall E u url st w,
    let run := process_download E u url st w in
    In (EvLeave DirectDownload (Ret None)) run.2 ->
    carried (surface run) = final_reason run.2.

(** ** Sample environments *)

Definition sample_url : string := "https://example.org/clip".
Definition sample_dir : string := "/tmp/tmpx1".

Definition sample_disk : fsys :=
  <[sample_dir := Dir 0]> (<["/tmp" := Dir 0]> ∅).

Definition sample_world : world :=
  {| disk := <["/tmp" := Dir 0]> ∅; user_data := ∅ |}.

Definition sample_response (status : Z) (hs : list (string * string))
    (b : list body_item) : response :=
  {| status_code := status; headers := list_to_map hs; body := b |}.

(** yt-dlp is not installed and the host does not answer. *)
Definition E_offline : env := {|
  urlparse_path := fun _ => Ret "/clip";
  guess_extension := fun ct => if String.eqb ct "video/mp4" then Some ".mp4" else None;
  spawn := fun _ => Raise FileNotFoundError;
  http_head := fun _ => Raise HTTPError;
  http_get := fun _ => Raise HTTPError;
  telegram := fun _ => None;
  mkdtemp_name := sample_dir;
  now := 1000
|}.

Definition with_http (E : env) (h g : res response) : env := {|
  urlparse_path := urlparse_path E;
  guess_extension := guess_extension E;
  spawn := spawn E;
  http_head := fun _ => h;
  http_get := fun _ => g;
  telegram := telegram E;
  mkdtemp_name := mkdtemp_name E;
  now := now E
|}.

Definition with_spawn (E : env) (p : res process) : env := {|
  urlparse_path := urlparse_path E;
  guess_extension := guess_extension E;
  spawn := fun _ => p;
  http_head := http_head E;
  http_get := http_get E;
  telegram := telegram E;
  mkdtemp_name := mkdtemp_name E;
  now := now E
|}.

(** The host serves fifteen bytes of [video/mp4] at [/clip]. *)
Definition E_clip : env :=
  with_http E_offline
    (Ret (sample_response 200 [("content-type", "video/mp4")] []))
    (Ret (sample_response 200 [("content-type", "video/mp4")] [Chunk 10; Chunk 0; Chunk 5])).

(** The probe fails and the host serves the same fifteen bytes. *)
Definition E_head_fails : env :=
  with_http E_offline
    (Raise HTTPError)
    (Ret (sample_response 200 [("content-type", "video/mp4")] [Chunk 10; Chunk 0; Chunk 5])).

(** The media type comes with a no-break space after it, and with a
    parameter. *)
Definition E_clip_padded : env :=
  with_http E_offline
    (Ret (sample_response 200 [] []))
    (Ret (sample_response 200
            [("content-type",
              (" video/mp4" ++ PyStr.of_bytes [0xC2; 0xA0]%N ++ "; codecs=avc1")%string)]
            [Chunk 10; Chunk 0; Chunk 5])).

(** The connection breaks after ten bytes. *)
Definition E_stream_fault : env :=
  with_http E_offline
    (Ret (sample_response 200 [] []))
    (Ret (sample_response 200 [] [Chunk 10; Fault HTTPError; Chunk 5])).

(** The probe declares 200 MiB. *)
Definition E_too_large : env :=
  with_http E_offline
    (Ret (sample_response 200 [("content-length", "209715200")] []))
    (Ret (sample_response 200 [] [])).

(** The host answers 404. *)
Definition E_not_found : env :=
  with_http E_offline
    (Ret (sample_response 404 [] []))
    (Ret (sample_response 404 [] [])).

(** The host declares no length and streams 90 MiB in chunks of 256 KiB. *)
Definition E_stream90 : env :=
  with_http E_offline
    (Ret (sample_response 200 [] []))
    (Ret (sample_response 200 [] (repeat (Chunk CHUNK_SIZE) 360))).

(** yt-dlp exits with 0 and leaves two files, or none. *)
Definition two_files (fs : fsys) : fsys :=
  <[(sample_dir ++ "/clip.mp4")%string := File {| f_size := 700; f_mtime := 5 |}]>
    (<[(sample_dir ++ "/clip.part")%string := File {| f_size := 300; f_mtime := 3 |}]> fs).

Definition E_tool : env :=
  with_spawn E_offline (Ret {| p_effect := two_files; p_result := Ret (0%Z, Some EmptyString) |}).

Definition E_tool_silent : env :=
  with_spawn E_offline (Ret {| p_effect := fun fs => fs; p_result := Ret (0%Z, Some EmptyString) |}).

Definition E_tool_error : env :=
  with_spawn E_offline
    (Ret {| p_effect := fun fs => fs; p_result := Ret (1%Z, Some "ERROR: Unsupported URL") |}).

(** The request is cancelled while the child process runs, or while the
    body is received. *)
Definition E_cancelled : env :=
  with_http
    (with_spawn E_offline
       (Ret {| p_effect := fun fs => fs; p_result := Raise CancelledError |}))
    (Ret (sample_response 200 [] []))
    (Ret (sample_response 200 [] [Chunk 10; Fault CancelledError])).

(** [urlparse] rejects the URL. *)
Definition E_bad_url : env := {|
  urlparse_path := fun _ => Raise ValueError;
  guess_extension := guess_extension E_offline;
  spawn := spawn E_offline;
  http_head := http_head E_offline;
  http_get := http_get E_offline;
  telegram := telegram E_offline;
  mkdtemp_name := mkdtemp_name E_offline;
  now := now E_offline
|}.

(** ** Message texts *)

(** The text of a message is any Unicode text, and [handle_message]
    looks at its characters: it is kept as the list of its code points.
    What is taken from it as a URL is handed on as a string, in UTF-8. *)
Module PyText.

Definition text : Set := list N.

(** [c.isspace()], which is also what [\s] matches in a [str] pattern and
    what [str.strip()] removes. *)
Definition isspace (c : N) : bool :=
  ((0x09 <=? c) && (c <=? 0x0D) || (0x1C <=? c) && (c <=? 0x20)
   || (c =? 0x85) || (c =? 0xA0) || (c =? 0x1680)
   || (0x2000 <=? c) && (c <=? 0x200A)
   || (c =? 0x2028) || (c =? 0x2029) || (c =? 0x202F) || (c =? 0x205F)
   || (c =? 0x3000))%N.

Fixpoint lstrip (s : text) : text :=
  match s with
  | [] => []
  | c :: r => if isspace c then lstrip r else s
  end.

(** [s] without the characters at its end that [drop] selects. *)
Fixpoint rstrip_with (drop : N -> bool) (s : text) : text :=
  match s with
  | [] => []
  | c :: r =>
      match rstrip_with drop r with
      | [] => if drop c then [] else [c]
      | r' => c :: r'
      end
  end.

(** [s.strip()] *)
Definition strip (s : text) : text := rstrip_with isspace (lstrip s).

(** [c in chars] *)
Definition among (chars : text) (c : N) : bool := existsb (N.eqb c) chars.

(** [s.rstrip(chars)] *)
Definition rstrip (chars s : text) : text := rstrip_with (among chars) s.

(** The code points of an ASCII literal. *)
Definition of_ascii (s : string) : text :=
  map N_of_ascii (list_ascii_of_string s).

(** The UTF-8 encoding of a code point, and of a text. *)
Definition utf8 (c : N) : list N :=
  (if c <? 0x80 then [c]
   else if c <? 0x800 then [0xC0 + c / 64; 0x80 + c mod 64]
   else if c <? 0x10000 then
     [0xE0 + c / 4096; 0x80 + (c / 64) mod 64; 0x80 + c mod 64]
   else
     [0xF0 + c / 262144; 0x80 + (c / 4096) mod 64; 0x80 + (c / 64) mod 64;
      0x80 + c mod 64])%N.

Definition encode (s : text) : string :=
  string_of_list_ascii (map ascii_of_N (concat (map utf8 s))).

End PyText.

(** ** [URL_RE] *)

(** The characters that match a letter of the pattern under
    [re.IGNORECASE]: its two cases, and for [s] the long s, U+017F. *)
Definition ci_h : list N := [0x68; 0x48]%N.
Definition ci_t : list N := [0x74; 0x54]%N.
Definition ci_p : list N := [0x70; 0x50]%N.
Definition ci_s : list N := [0x73; 0x53; 0x17F]%N.

(** Matching one character of a set, or a literal, at the head of [s]:
    what is left of [s]. *)
Definition one_of (set : list N) (s : PyText.text) : option PyText.text :=
  match s with
  | c :: r => if PyText.among set c then Some r else None
  | [] => None
  end.

Fixpoint literal (p s : PyText.text) : option PyText.text :=
  match p, s with
  | [], _ => Some s
  | a :: p', b :: s' => if (a =? b)%N then literal p' s' else None
  | _ :: _, [] => None
  end.

(** [https?://] at the head of [s]: the optional [s] is tried first. *)
Definition scheme (s : PyText.text) : option PyText.text :=
  match one_of ci_h s with
  | Some r1 =>
      match one_of ci_t r1 with
      | Some r2 =>
          match one_of ci_t r2 with
          | Some r3 =>
              match one_of ci_p r3 with
              | Some r4 =>
                  match
                    match one_of ci_s r4 with
                    | Some r5 => literal (PyText.of_ascii "://") r5
                    | None => None
                    end
                  with
                  | Some rest => Some rest
                  | None => literal (PyText.of_ascii "://") r4
                  end
              | None => None
              end
          | None => None
          end
      | None => None
      end
  | None => None
  end.

(** [s] has one character of each set of [sets], in order, and no more. *)
Fixpoint in_sets (sets : list (list N)) (s : PyText.text) : bool :=
  match sets, s with
  | [], [] => true
  | set :: sets', c :: s' => PyText.among set c && in_sets sets' s'
  | _, _ => false
  end.

(** The texts that [https?://] matches, read off the pattern. *)
Definition is_scheme (s : PyText.text) : bool :=
  in_sets [ci_h; ci_t; ci_t; ci_p; [0x3A]; [0x2F]; [0x2F]]%N s
  || in_sets [ci_h; ci_t; ci_t; ci_p; ci_s; [0x3A]; [0x2F]; [0x2F]]%N s.

(** The longest run of [[^\s]] at the head of [s]. *)
Fixpoint nonspace (s : PyText.text) : PyText.text :=
  match s with
  | [] => []
  | c :: r => if PyText.isspace c then [] else c :: nonspace r
  end.

(** The pattern [(https?://[^\s]+)] at the head of [s]: the text matched. *)
Definition URL_RE_match (s : PyText.text) : option PyText.text :=
  match scheme s with
  | Some rest =>
      match nonspace rest with
      | [] => None
      | run => Some (take (length s - length rest) s ++ run)
      end
  | None => None
  end.

(** [URL_RE.search(s)]: the match that starts first; [m.group(1)] is
    all of it. *)
Fixpoint URL_RE_search (s : PyText.text) : option PyText.text :=
  match URL_RE_match s with
  | Some g => Some g
  | None =>
      match s with
      | [] => None
      | _ :: r => URL_RE_search r
      end
  end.

(** ** Paths touched *)

(** The paths a run opens for writing, writes to or removes, in order. *)
Fixpoint touched (evs : list event) : list string :=
  match evs with
  | [] => []
  | EvOpen p :: r | EvWrite p _ :: r | EvRemove p :: r => p :: touched r
  | _ :: r => touched r
  end.

(** The child processes a run starts. *)
Fixpoint spawned (evs : list event) : list (list string) :=
  match evs with
  | [] => []
  | EvSpawn cmd :: r => cmd :: spawned r
  | _ :: r => spawned r
  end.

(** The Telegram calls that hand a file to the chat. *)
Definition is_delivery (ev : event) : bool :=
  match ev with
  | EvUI (reply_video _) | EvUI (reply_document _) => true
  | _ => false
  end.

(** ** Keyboards *)

Inductive button : Set :=
| InlineCallback (label : PyText.text) (callback_data : string)
| InlineUrl (label : PyText.text) (url : string)
| KeyboardButton (label : PyText.text).

Definition get_help_keyboard : list (list button) :=
  [[InlineCallback (0x1F517 :: PyText.of_ascii " Send URL")%N "send_url";
    InlineUrl (0x1F4D6 :: PyText.of_ascii " Documentation")%N "https://github.com"];
   [InlineCallback (0x2728 :: PyText.of_ascii " Supported Sites")%N "sites";
    InlineCallback (0x274C :: PyText.of_ascii " Close")%N "close"]].

Definition get_retry_keyboard : list (list button) :=
  [[InlineCallback (0x1F504 :: PyText.of_ascii " Try Again")%N "retry";
    InlineCallback (0x1F4D6 :: PyText.of_ascii " Help")%N "help"]].

Definition get_main_keyboard : list (list button) :=
  [[KeyboardButton (0x1F4DA :: PyText.of_ascii " Help")%N;
    KeyboardButton (0x2139 :: 0xFE0F :: PyText.of_ascii " About")%N]].

Definition get_back_keyboard : list (list button) :=
  [[InlineCallback (0x2B05 :: 0xFE0F :: PyText.of_ascii " Back")%N "back_to_help"]].

(** The buttons of a keyboard sent with a message. *)
Definition markup (k : keyboard) : list (list button) :=
  match k with
  | help_keyboard => get_help_keyboard
  | retry_keyboard => get_retry_keyboard
  | main_keyboard => get_main_keyboard
  | back_keyboard => get_back_keyboard
  end.

(** The [callback_data] a press on a button of [k] sends. *)
Definition callback_data_of (k : keyboard) : list string :=
  omap (fun b => match b with InlineCallback _ d => Some d | _ => None end)
       (concat (markup k)).

(** ** [start], [help_command], [about_command] and [handle_message] *)

Definition start (E : env) : M world unit :=
  tg E (reply_text MSG_start (Some help_keyboard)).

Definition help_command (E : env) : M world unit :=
  tg E (reply_text MSG_help (Some help_keyboard)).

Definition about_command (E : env) : M world unit :=
  tg E (reply_text MSG_about (Some help_keyboard)).

(** The two texts [handle_message] compares the message with. *)
Definition TEXT_help : PyText.text := (0x1F4DA :: PyText.of_ascii " Help")%N.
Definition TEXT_about : PyText.text := (0x2139 :: 0xFE0F :: PyText.of_ascii " About")%N.

(** [text] is [update.message.text], [None] for a message without text. *)
Definition handle_message (E : env) (text : option PyText.text) : M world unit :=
  let msg := PyText.strip (default [] text) in
  if bool_decide (msg = TEXT_help) then help_command E
  else if bool_decide (msg = TEXT_about) then about_command E
  else
    match URL_RE_search msg with
    | None => tg E (reply_text MSG_no_url (Some help_keyboard))
    | Some g =>
        let url := PyText.rstrip (PyText.of_ascii ").,]}") g in
        process_download E TelegramUpdate (PyText.encode url) None
    end.

(** ** More sample data *)

(** A file that an earlier attempt left at the output path. *)
Definition leftover_disk : fsys :=
  <["/tmp/tmpx1/clip" := File {| f_size := 300; f_mtime := 3 |}]> sample_disk.

(** A video in the working directory. *)
Definition video_disk : fsys :=
  <["/tmp/tmpx1/CLIP.MP4" := File {| f_size := 700; f_mtime := 5 |}]> sample_disk.

(** yt-dlp exits with 0 and its working directory is gone; yt-dlp fails
    and its error stream does not decode. *)
Definition E_tool_gone : env :=
  with_spawn E_offline
    (Ret {| p_effect := fun fs => delete sample_dir fs;
            p_result := Ret (0%Z, Some EmptyString) |}).

Definition E_tool_garbled : env :=
  with_spawn E_offline (Ret {| p_effect := fun fs => fs; p_result := Ret (1%Z, None) |}).

(** A session whose retry slot holds [sample_url]. *)
Definition recorded_world : world :=
  {| disk := disk sample_world; user_data := record sample_url ∅ |}.

(** A message with a URL in it. *)
Definition sample_text : PyText.text :=
  PyText.of_ascii "  see (https://example.org/clip). now".

(** ** The model at work *)

Example split_query : PyStr.split "?" "a?b?c" = ["a"; "b"; "c"].
Proof. reflexivity. Qed.

Example strip_media_type :
  PyStr.strip (PyStr.split_first ";" " video/mp4 ; codecs=avc1") = "video/mp4".
Proof. reflexivity. Qed.

(** [str.strip] removes the white space of Unicode, here U+3000, U+0085,
    U+00A0 and U+2028 in UTF-8, and leaves U+200B, which is none. *)
Example strip_unicode_space :
  PyStr.strip (PyStr.of_bytes [0xE3; 0x80; 0x80; 0xC2; 0x85]%N ++ " video/mp4" ++
               PyStr.of_bytes [0xC2; 0xA0; 0xE2; 0x80; 0xA8]%N) = "video/mp4" /\
  PyStr.strip (PyStr.of_bytes [0xE2; 0x80; 0x8B]%N ++ " video/mp4 " ++
               PyStr.of_bytes [0xE2; 0x80; 0x8B]%N) =
    (PyStr.of_bytes [0xE2; 0x80; 0x8B]%N ++ " video/mp4 " ++
     PyStr.of_bytes [0xE2; 0x80; 0x8B]%N)%string.
Proof. split; vm_compute; reflexivity. Qed.

Example join_paths :
  map (fun d => PyPath.join d "clip") ["/tmp/x"; "/tmp/x/"; EmptyString]
  = ["/tmp/x/clip"; "/tmp/x/clip"; "clip"].
Proof. reflexivity. Qed.

Example path_names :
  map PyPath.name ["/clip"; "/.."; "/a/."; "/"; EmptyString; "/a/b/"; "//"; "/a//b//"]
  = ["clip"; ".."; "a"; EmptyString; EmptyString; "b"; EmptyString; "b"].
Proof. reflexivity. Qed.

Example basenames :
  map PyPath.basename ["/tmp/x/.."; "/tmp/x/clip"; "clip"; "/tmp/"]
  = [".."; "clip"; "clip"; EmptyString].
Proof. reflexivity. Qed.

Example dirnames :
  map PyPath.dirname ["/tmp/x/.."; "/tmp/x/clip"; "clip"; "/tmp//x"; "/a"; "//a"]
  = ["/tmp/x"; "/tmp/x"; EmptyString; "/tmp"; "/"; "//"].
Proof. reflexivity. Qed.

Example suffixes :
  map PyPath.suffix ["a.mp4"; ".bashrc"; "a."; "a.tar.gz"; "clip"]
  = [".mp4"; EmptyString; EmptyString; ".gz"; EmptyString].
Proof. reflexivity. Qed.

Example digits :
  PyStr.int "0123" = 123%N /\ PyStr.isdigit "0123" = true /\
  PyStr.isdigit EmptyString = false /\ PyStr.isdigit "12a" = false.
Proof. repeat split; reflexivity. Qed.

Example endings :
  PyStr.endswith "clip.mp4" ".mp4" = true /\ PyStr.endswith "mp4" ".mp4" = false /\
  PyStr.endswith "x" EmptyString = true.
Proof. repeat split; reflexivity. Qed.

Example sorted_stable :
  map fst (sorted_desc [("a", 1%Z); ("b", 2%Z); ("c", 2%Z); ("d", 1%Z)]) = ["b"; "c"; "a"; "d"].
Proof. reflexivity. Qed.

Example ceiling_value : MAX_DIRECT_DOWNLOAD_BYTES = 83886080%N.
Proof. reflexivity. Qed.

(** A download that falls back to the stream fetch and is delivered. *)
Example run_clip :
  (process_download E_clip TelegramUpdate sample_url None sample_world).2 =
  [EvUI (reply_text MSG_downloading None);
   EvMkdtemp "/tmp/tmpx1";
   EvEnter RunYtDlp sample_url "/tmp/tmpx1";
   EvSpawn ["yt-dlp"; "--no-playlist"; "-o"; "/tmp/tmpx1/%(title).200s.%(ext)s";
            "-f"; "bv*+ba/best"; sample_url];
   EvLog LogYtDlpNotFound;
   EvLeave RunYtDlp (Ret None);
   EvEnter DirectDownload sample_url "/tmp/tmpx1";
   EvHead sample_url;
   EvGet sample_url;
   EvOpen "/tmp/tmpx1/clip.mp4";
   EvRead 10; EvWrite "/tmp/tmpx1/clip.mp4" 10;
   EvRead 0;
   EvRead 5; EvWrite "/tmp/tmpx1/clip.mp4" 5;
   EvLeave DirectDownload (Ret (Some "/tmp/tmpx1/clip.mp4"));
   EvUI (edit_text MSG_uploading None);
   EvUI send_chat_action;
   EvUI (reply_video "/tmp/tmpx1/clip.mp4");
   EvUI delete_status;
   EvRmtree "/tmp/tmpx1"].
Proof. vm_compute. reflexivity. Qed.

(** The same download replayed through the retry button: [send_file]
    reads [update.effective_chat] of the [FakeUpdate] object and raises. *)
Example run_clip_retry :
  surface (process_download E_clip FakeUpdate sample_url (Some tt) sample_world) =
  (Raise AttributeError, [EvUI (edit_text MSG_uploading None)]).
Proof. vm_compute. reflexivity. Qed.

(** A name [..] taken from the URL makes the output path a directory:
    [open] raises, and [os.remove] in the handler raises again. *)
Example run_dotdot :
  (direct_download
     {| urlparse_path := fun _ => Ret "/..";
        guess_extension := guess_extension E_clip;
        spawn := spawn E_clip;
        http_head := http_head E_clip;
        http_get := http_get E_clip;
        telegram := telegram E_clip;
        mkdtemp_name := mkdtemp_name E_clip;
        now := now E_clip |}
     "https://example.org/..?x" sample_dir sample_disk).1.1 = Raise IsADirectoryError.
Proof. vm_compute. reflexivity. Qed.

(** ** Facts about strings and paths *)

Section StringFacts.
Import PyStr PyPath.

Lemma string_app_nil (b : string) : (EmptyString ++ b = b)%string.
Proof. reflexivity. Qed.

Lemma string_app_cons c (a b : string) : (String c a ++ b = String c (a ++ b))%string.
Proof. reflexivity. Qed.

Ltac str_simpl := rewrite ?string_app_cons, ?string_app_nil; simpl.

Lemma string_app_assoc (a b c : string) : ((a ++ b) ++ c = a ++ (b ++ c))%string.
Proof. induction a as [|x a IH]; str_simpl; [reflexivity | now rewrite IH]. Qed.

Lemma string_app_empty_r (a : string) : (a ++ EmptyString = a)%string.
Proof. induction a as [|x a IH]; str_simpl; [reflexivity | now rewrite IH]. Qed.

Lemma split_nonempty sep s : split sep s <> [].
Proof.
  destruct s as [|c r]; simpl; [discriminate|].
  destruct (Ascii.eqb c sep); [discriminate|].
  destruct (split sep r); discriminate.
Qed.

Lemma split_no_sep sep s : contains sep s = false -> split sep s = [s].
Proof.
  induction s as [|c r IH]; simpl; [reflexivity|].
  destruct (Ascii.eqb c sep) eqn:Hc; simpl; [discriminate|].
  intros H. now rewrite (IH H).
Qed.

Lemma contains_app c a b : contains c (a ++ b)%string = contains c a || contains c b.
Proof.
  induction a as [|x a IH]; str_simpl; [reflexivity|].
  rewrite IH. now rewrite orb_assoc.
Qed.

Lemma app_last_cons x l b : l <> [] -> app_last (x :: l) b = x :: app_last l b.
Proof. destruct l; [congruence | reflexivity]. Qed.

Lemma last_app_last l b d : l <> [] -> List.last (app_last l b) d = (List.last l d ++ b)%string.
Proof.
  induction l as [|x l IH]; [congruence|]. intros _.
  destruct l as [|y l]; [reflexivity|].
  rewrite app_last_cons by discriminate.
  change (List.last (x :: y :: l) d) with (List.last (y :: l) d).
  rewrite <- IH by discriminate.
  destruct (app_last (y :: l) b) eqn:Hal; [|reflexivity].
  destruct l; discriminate.
Qed.

Lemma split_app_no_sep sep a b :
  contains sep b = false -> split sep (a ++ b)%string = app_last (split sep a) b.
Proof.
  intros Hb. induction a as [|c a IH]; str_simpl.
  - now apply split_no_sep.
  - destruct (Ascii.eqb c sep).
    + rewrite IH, app_last_cons; [reflexivity | apply split_nonempty].
    + rewrite IH. destruct (split sep a) as [|h t] eqn:Hs.
      * now apply split_nonempty in Hs.
      * destruct t; reflexivity.
Qed.

Lemma basename_app a b :
  contains slash b = false -> basename (a ++ b)%string = (basename a ++ b)%string.
Proof.
  intros Hb. unfold basename. rewrite split_app_no_sep by assumption.
  apply last_app_last, split_nonempty.
Qed.

Lemma basename_slash_end a : basename (a ++ "/")%string = EmptyString.
Proof.
  unfold basename. induction a as [|c a IH]; str_simpl; [reflexivity|].
  destruct (Ascii.eqb c slash).
  - destruct (split slash (a ++ "/")) eqn:Hs; [now apply split_nonempty in Hs | exact IH].
  - destruct (split slash (a ++ "/")) as [|h t] eqn:Hs; [now apply split_nonempty in Hs|].
    destruct t; [|exact IH]. simpl in IH. subst h.
    (* a single item cannot be all of a string that holds the separator *)
    exfalso. clear -Hs.
    assert (Hlen : forall s, contains slash s = true -> 2 <= length (split slash s)).
    { clear. induction s as [|x s IH]; simpl; [discriminate|].
      destruct (Ascii.eqb x slash) eqn:Hx; simpl.
      - intros _. pose proof (split_nonempty slash s). destruct (split slash s); simpl; [congruence | lia].
      - intros H. specialize (IH H). destruct (split slash s); simpl in *; lia. }
    specialize (Hlen (a ++ "/")%string). rewrite Hs in Hlen. simpl in Hlen.
    assert (contains slash (a ++ "/")%string = true) by (rewrite contains_app; simpl; apply orb_true_r).
    specialize (Hlen H). lia.
Qed.

Lemma endswith_unfold s suf :
  endswith s suf =
  if String.eqb s suf then true
  else match s with
       | EmptyString => false
       | String _ r => endswith r suf
       end.
Proof. destruct s; reflexivity. Qed.

Lemma endswith_app s suf : endswith s suf = true -> exists pre, s = (pre ++ suf)%string.
Proof.
  induction s as [|c s IH]; rewrite endswith_unfold.
  - destruct (String.eqb_spec EmptyString suf) as [<-|]; [exists EmptyString; reflexivity | discriminate].
  - destruct (String.eqb_spec (String c s) suf) as [<-|].
    + now exists EmptyString.
    + intros H. destruct (IH H) as [pre ->]. now exists (String c pre).
Qed.

Lemma strip_prefix_Some pre s n : strip_prefix pre s = Some n -> s = (pre ++ n)%string.
Proof.
  revert s. induction pre as [|a pre IH]; intros s; simpl.
  - now intros [= ->].
  - destruct s as [|b s]; [discriminate|].
    destruct (Ascii.eqb a b) eqn:Hab; [|discriminate].
    apply Ascii.eqb_eq in Hab. subst b. intros H. now rewrite (IH _ H).
Qed.

Lemma startswith_slash n : contains slash n = false -> startswith n "/" = false.
Proof.
  destruct n as [|c n]; [reflexivity|]. intros H. simpl in H.
  apply orb_false_elim in H as [H _]. unfold startswith.
  change (strip_prefix "/" (String c n))
    with (if Ascii.eqb slash c then strip_prefix EmptyString n else None).
  rewrite Ascii.eqb_sym. now rewrite H.
Qed.

Lemma join_prefix d n : contains slash n = false -> join d n = (join d EmptyString ++ n)%string.
Proof.
  intros Hn. unfold join. rewrite (startswith_slash n Hn).
  change (startswith EmptyString "/") with false. cbv iota.
  destruct (negb (truthy d) || endswith d "/").
  - now rewrite string_app_empty_r.
  - now rewrite !string_app_assoc.
Qed.

Lemma basename_join_empty d : basename (join d EmptyString) = EmptyString.
Proof.
  unfold join. change (startswith EmptyString "/") with false. cbv iota.
  destruct d as [|c d]; [reflexivity|].
  simpl negb. rewrite orb_false_l.
  destruct (endswith (String c d) "/") eqn:He.
  - rewrite string_app_empty_r. apply endswith_app in He as [pre ->].
    apply basename_slash_end.
  - change (String c d ++ "/" ++ EmptyString)%string with (String c d ++ "/")%string.
    apply basename_slash_end.
Qed.

Lemma basename_join d n : contains slash n = false -> basename (join d n) = n.
Proof.
  intros Hn. rewrite join_prefix by assumption.
  rewrite basename_app by assumption. now rewrite basename_join_empty.
Qed.

(** A name without a dot does not end in an extension. *)
Lemma endswith_extension p e :
  contains dot (basename p) = false -> contains slash (String dot e) = false ->
  endswith p (String dot e) = false.
Proof.
  intros Hp He. destruct (endswith p (String dot e)) eqn:H; [|reflexivity].
  apply endswith_app in H as [pre ->].
  rewrite basename_app, contains_app in Hp by assumption.
  simpl in Hp. rewrite orb_true_r in Hp. discriminate.
Qed.

Lemma split_items_no_char c sep s x :
  contains c s = false -> In x (split sep s) -> contains c x = false.
Proof.
  revert x. induction s as [|a s IH]; simpl; intros x Hs Hx.
  - destruct Hx as [<-|[]]. reflexivity.
  - apply orb_false_elim in Hs as [Ha Hs].
    destruct (Ascii.eqb a sep).
    + destruct Hx as [<-|Hx]; [reflexivity | now apply IH].
    + destruct (split sep s) as [|h t] eqn:Hsp.
      * destruct Hx as [<-|[]]. simpl. now rewrite Ha.
      * destruct Hx as [<-|Hx].
        -- simpl. rewrite Ha. apply IH; [assumption | now left].
        -- apply IH; [assumption | now right].
Qed.

Lemma split_items_no_sep sep s x : In x (split sep s) -> contains sep x = false.
Proof.
  revert x. induction s as [|a s IH]; simpl; intros x Hx.
  - destruct Hx as [<-|[]]. reflexivity.
  - destruct (Ascii.eqb a sep) eqn:Ha.
    + destruct Hx as [<-|Hx]; [reflexivity | now apply IH].
    + destruct (split sep s) as [|h t] eqn:Hsp.
      * destruct Hx as [<-|[]]. simpl. now rewrite Ha.
      * destruct Hx as [<-|Hx].
        -- simpl. rewrite Ha. apply IH. now left.
        -- apply IH. now right.
Qed.

Lemma split_first_no_char c sep s :
  contains c s = false -> contains c (split_first sep s) = false.
Proof.
  intros Hs. unfold split_first.
  destruct (split sep s) as [|h t] eqn:Hsp; [reflexivity|].
  apply (split_items_no_char c sep s); [assumption|]. rewrite Hsp. now left.
Qed.

Lemma last_In_or_default {A} (l : list A) d : List.last l d = d \/ In (List.last l d) l.
Proof.
  induction l as [|x l IH]; [now left|].
  destruct l as [|y l]; [right; now left|].
  destruct IH as [IH|IH]; [left; exact IH | right; right; exact IH].
Qed.

Lemma name_no_slash p : contains slash (name p) = false.
Proof.
  unfold name.
  destruct (last_In_or_default
              (List.filter (fun c => negb (String.eqb c EmptyString || String.eqb c ".")) (split slash p)) EmptyString)
    as [->|H]; [reflexivity|].
  apply List.filter_In in H as [H _]. now apply split_items_no_sep in H.
Qed.

End StringFacts.

Lemma pick_filename_no_slash E url filename :
  pick_filename_from_url E url = Ret filename -> PyStr.contains PyPath.slash filename = false.
Proof.
  unfold pick_filename_from_url. destruct (urlparse_path E url) as [path|]; [|discriminate].
  intros [= <-].
  assert (Hn : PyStr.contains PyPath.slash
                 (if PyStr.truthy (PyPath.name path) then PyPath.name path else "download") = false).
  { destruct (PyStr.truthy (PyPath.name path)); [apply name_no_slash | reflexivity]. }
  revert Hn. generalize (if PyStr.truthy (PyPath.name path) then PyPath.name path else "download").
  intros n Hn.
  destruct (PyStr.truthy (PyStr.split_first "#" (PyStr.split_first "?" n))); [|reflexivity].
  now do 2 apply split_first_no_char.
Qed.

(** ** Stripping white space *)

Section StripFacts.
Import PyStr.

Lemma lstrip_space w s : In w WHITESPACE -> lstrip (w ++ s)%string = lstrip s.
Proof.
  intros Hin. unfold WHITESPACE in Hin. simpl in Hin.
  repeat (destruct Hin as [<-|Hin]; [reflexivity|]). destruct Hin.
Qed.

Lemma lstrip_spaces ws s :
  Forall (fun w => In w WHITESPACE) ws ->
  lstrip (fold_right String.append EmptyString ws ++ s)%string = lstrip s.
Proof.
  induction 1 as [|w ws Hw _ IH]; [reflexivity|].
  simpl fold_right. rewrite string_app_assoc, lstrip_space by assumption. exact IH.
Qed.

Lemma space_len_plain c s : plain (String c EmptyString) = true -> space_len (String c s) = 0.
Proof.
  destruct c as [[] [] [] [] [] [] [] []]; intros H; try discriminate H; reflexivity.
Qed.

Lemma lstrip_plain c s : plain (String c EmptyString) = true -> lstrip (String c s) = String c s.
Proof.
  intros H. unfold lstrip. cbn [lstrip_from]. now rewrite (space_len_plain c s H).
Qed.

Lemma plain_cons c s : plain (String c s) = plain (String c EmptyString) && plain s.
Proof. simpl. now rewrite andb_true_r. Qed.

Lemma rstrip_unfold s :
  rstrip s =
  match s with
  | EmptyString => EmptyString
  | String c r =>
      match lstrip s with
      | EmptyString => EmptyString
      | _ => String c (rstrip r)
      end
  end.
Proof. destruct s; reflexivity. Qed.

Lemma rstrip_blank s : lstrip s = EmptyString -> rstrip s = EmptyString.
Proof. intros H. rewrite rstrip_unfold. destruct s; [reflexivity | now rewrite H]. Qed.

Lemma rstrip_plain mt tail :
  plain mt = true -> lstrip tail = EmptyString -> rstrip (mt ++ tail)%string = mt.
Proof.
  intros Hm Ht. induction mt as [|c mt IH].
  - now apply rstrip_blank.
  - rewrite plain_cons in Hm. apply andb_prop in Hm as [Hc Hm].
    rewrite string_app_cons, rstrip_unfold, (lstrip_plain _ _ Hc). now rewrite (IH Hm).
Qed.

(** White space around a media type is stripped off. *)
Lemma strip_padded_plain ws1 mt ws2 :
  Forall (fun w => In w WHITESPACE) ws1 ->
  Forall (fun w => In w WHITESPACE) ws2 ->
  plain mt = true ->
  strip (fold_right String.append EmptyString ws1 ++ mt ++
         fold_right String.append EmptyString ws2)%string = mt.
Proof.
  intros H1 H2 Hm. unfold strip. rewrite (lstrip_spaces _ _ H1).
  assert (Hblank : lstrip (fold_right String.append EmptyString ws2) = EmptyString).
  { rewrite <- (string_app_empty_r (fold_right String.append EmptyString ws2)).
    now rewrite (lstrip_spaces _ _ H2). }
  destruct mt as [|c mt].
  - rewrite string_app_nil, Hblank. reflexivity.
  - rewrite plain_cons in Hm. apply andb_prop in Hm as [Hc Hm].
    rewrite string_app_cons, (lstrip_plain _ _ Hc), <- string_app_cons.
    apply rstrip_plain; [|exact Hblank]. rewrite plain_cons. now rewrite Hc, Hm.
Qed.

Lemma split_app_sep sep a b :
  split sep (a ++ String sep b)%string = split sep a ++ split sep b.
Proof.
  induction a as [|c a IH]; rewrite ?string_app_cons, ?string_app_nil.
  - simpl. now rewrite Ascii.eqb_refl.
  - simpl. rewrite IH. destruct (Ascii.eqb c sep); [reflexivity|].
    destruct (split sep a) as [|h t] eqn:Hs; [now apply split_nonempty in Hs|].
    reflexivity.
Qed.

Lemma split_first_no_sep sep s : contains sep s = false -> split_first sep s = s.
Proof. intros H. unfold split_first. now rewrite (split_no_sep _ _ H). Qed.

Lemma split_first_sep sep a b :
  contains sep a = false -> split_first sep (a ++ String sep b)%string = a.
Proof.
  intros H. unfold split_first. now rewrite split_app_sep, (split_no_sep _ _ H).
Qed.

Lemma plain_no_semicolon s : plain s = true -> contains ";" s = false.
Proof.
  induction s as [|c s IH]; [reflexivity|]. rewrite plain_cons.
  intros H. apply andb_prop in H as [Hc Hs]. simpl. rewrite (IH Hs), orb_false_r.
  destruct c as [[] [] [] [] [] [] [] []]; try reflexivity; discriminate Hc.
Qed.

Lemma spaces_no_semicolon ws :
  Forall (fun w => In w WHITESPACE) ws ->
  contains ";" (fold_right String.append EmptyString ws) = false.
Proof.
  induction 1 as [|w ws Hw _ IH]; [reflexivity|].
  simpl fold_right. rewrite contains_app, IH, orb_false_r.
  unfold WHITESPACE in Hw. simpl in Hw.
  repeat (destruct Hw as [<-|Hw]; [reflexivity|]). destruct Hw.
Qed.

End StripFacts.

(** The media type [content_type] reads off a header: what precedes the
    first semicolon, without the white space around it. *)
Lemma content_type_header (r : response) ws1 mt ws2 params :
  headers r !! "content-type" =
    Some (fold_right String.append EmptyString ws1 ++ mt ++
          fold_right String.append EmptyString ws2 ++ params)%string ->
  Forall (fun w => In w PyStr.WHITESPACE) ws1 ->
  Forall (fun w => In w PyStr.WHITESPACE) ws2 ->
  PyStr.plain mt = true ->
  params = EmptyString \/ (exists rest, params = String ";" rest) ->
  content_type r = mt.
Proof.
  intros Hh H1 H2 Hm Hp. unfold content_type. rewrite Hh. cbn [default from_option id].
  set (p1 := fold_right String.append EmptyString ws1) in *.
  set (p2 := fold_right String.append EmptyString ws2) in *.
  assert (Hfree : PyStr.contains ";" (p1 ++ mt ++ p2)%string = false).
  { unfold p1, p2.
    rewrite !contains_app, (spaces_no_semicolon _ H1), (spaces_no_semicolon _ H2),
      (plain_no_semicolon _ Hm). reflexivity. }
  assert (Hs : PyStr.split_first ";" (p1 ++ mt ++ p2 ++ params)%string = (p1 ++ mt ++ p2)%string).
  { destruct Hp as [->|[rest ->]].
    - rewrite string_app_empty_r. now apply split_first_no_sep.
    - replace (p1 ++ mt ++ p2 ++ String ";" rest)%string
        with ((p1 ++ mt ++ p2) ++ String ";" rest)%string
        by (now rewrite !string_app_assoc).
      now apply split_first_sep. }
  rewrite Hs. now apply strip_padded_plain.
Qed.

Lemma content_type_missing (r : response) :
  headers r !! "content-type" = None -> content_type r = EmptyString.
Proof. intros Hh. unfold content_type. now rewrite Hh. Qed.

(** ** Facts about the disk *)

Section DiskFacts.
Import Disk.

Lemma node_at_plain fs p : is_dots (PyPath.basename p) = false -> node_at fs p = fs !! p.
Proof. unfold node_at. now intros ->. Qed.

Lemma exists_inv p fs r fs' evs :
  exists_ p fs = (r, fs', evs) ->
  r = Ret (match node_at fs p with Some _ => true | None => false end) /\ fs' = fs /\ evs = [].
Proof. now intros [= <- <- <-]. Qed.

Lemma remove_inv p fs r fs' evs :
  remove p fs = (r, fs', evs) ->
  (exists f, node_at fs p = Some (File f) /\ r = Ret tt /\ fs' = delete p fs /\ evs = [EvRemove p]) \/
  (is_dir fs p = true /\ r = Raise IsADirectoryError /\ fs' = fs /\ evs = []) \/
  (node_at fs p = None /\ r = Raise FileNotFoundError /\ fs' = fs /\ evs = []).
Proof.
  unfold remove, is_dir. destruct (node_at fs p) as [[f|m]|]; intros [= <- <- <-].
  - left. now exists f.
  - right. left. auto.
  - right. right. auto.
Qed.

Lemma open_wb_inv now p fs r fs' evs :
  open_wb now p fs = (r, fs', evs) ->
  (r = Ret tt /\ is_dots (PyPath.basename p) = false /\ is_dir fs p = false /\
   fs' = <[p := File {| f_size := 0; f_mtime := now |}]> fs /\ evs = [EvOpen p]) \/
  (exists e, r = Raise e /\ is_Exception e = true /\ fs' = fs /\ evs = []).
Proof.
  unfold open_wb, is_dir.
  assert (Hrest :
    (if is_dots (PyPath.basename p) then (Raise FileNotFoundError, fs, [])
     else match (if PyStr.truthy (PyPath.dirname p) then node_at fs (PyPath.dirname p)
                 else Some (Dir 0)) with
          | Some (Dir _) =>
              (Ret tt, <[p := File {| f_size := 0; f_mtime := now |}]> fs, [EvOpen p])
          | Some (File _) => (Raise NotADirectoryError, fs, [])
          | None => (Raise FileNotFoundError, fs, [])
          end) = (r, fs', evs) ->
    (r = Ret tt /\ is_dots (PyPath.basename p) = false /\
     fs' = <[p := File {| f_size := 0; f_mtime := now |}]> fs /\ evs = [EvOpen p]) \/
    (exists e, r = Raise e /\ is_Exception e = true /\ fs' = fs /\ evs = [])).
  { destruct (is_dots (PyPath.basename p)).
    - intros [= <- <- <-]. right. now exists FileNotFoundError.
    - destruct (if PyStr.truthy (PyPath.dirname p) then node_at fs (PyPath.dirname p)
                else Some (Dir 0)) as [[f'|m']|]; intros [= <- <- <-].
      + right. now exists NotADirectoryError.
      + left. auto.
      + right. now exists FileNotFoundError. }
  destruct (node_at fs p) as [[f|m]|] eqn:Hn.
  - intros H. destruct (Hrest H) as [(? & ? & ? & ?)|?]; [left | right]; auto.
  - intros [= <- <- <-]. right. now exists IsADirectoryError.
  - intros H. destruct (Hrest H) as [(? & ? & ? & ?)|?]; [left | right]; auto.
Qed.

End DiskFacts.

(** ** The receiving loop *)

Lemma written_app a b : written (a ++ b) = (written a + written b)%N.
Proof.
  induction a as [|x a IH]; simpl; [reflexivity|].
  destruct x; rewrite ?IH; lia.
Qed.

Lemma reads_app a b : reads (a ++ b) = reads a ++ reads b.
Proof.
  induction a as [|x a IH]; simpl; [reflexivity|].
  destruct x; rewrite ?IH; reflexivity.
Qed.

Lemma receive_unfold url p items total :
  receive url p items total =
  match items with
  | [] => ret Fallthrough
  | Fault e :: _ => raise e
  | Chunk n :: rest =>
      emit (EvRead n) >>
      if (n =? 0)%N then receive url p rest total
      else
        let total := (total + n)%N in
        if (MAX_DIRECT_DOWNLOAD_BYTES <? total)%N then
          emit (EvLog (LogExceededLimit url)) >>
          let! ex := Disk.exists_ p in
          (if ex then Disk.remove p else ret tt) >>
          ret (Returned None)
        else
          Disk.write p n >>
          receive url p rest total
  end.
Proof. destruct items; reflexivity. Qed.

Lemma receive_inv url p items :
  Disk.is_dots (PyPath.basename p) = false ->
  forall total fs r fs' evs f,
    receive url p items total fs = (r, fs', evs) ->
    fs !! p = Some (File f) -> (f_size f <= total)%N ->
    (total <= MAX_DIRECT_DOWNLOAD_BYTES)%N ->
    (written evs + total <= MAX_DIRECT_DOWNLOAD_BYTES)%N /\
    Forall (receive_event p) evs /\
    match r with
    | Ret Fallthrough =>
        exists f', fs' !! p = Some (File f') /\ (f_size f' <= MAX_DIRECT_DOWNLOAD_BYTES)%N
    | Ret (Returned v) => v = None /\ fs' !! p = None
    | Raise e => exists f', fs' !! p = Some (File f')
    end.
Proof.
  intros Hp. induction items as [|[n|e] items IH]; intros total fs r fs' evs f Hrun Hf Hsz Htot;
    rewrite receive_unfold in Hrun.
  - injection Hrun as <- <- <-. simpl. repeat split; eauto. exists f. split; [assumption|lia].
  - unfold bind, emit in Hrun.
    destruct (n =? 0)%N eqn:Hn0.
    + destruct (receive url p items total fs) as [[r1 fs1] t1] eqn:Hrec.
      injection Hrun as <- <- <-.
      destruct (IH _ _ _ _ _ _ Hrec Hf Hsz Htot) as (Hw & Hev & Hr).
      simpl. repeat split; try assumption. constructor; [exact I | assumption].
    + destruct (MAX_DIRECT_DOWNLOAD_BYTES <? total + n)%N eqn:Hlim.
      * unfold Disk.exists_, Disk.remove, ret in Hrun.
        rewrite (node_at_plain _ _ Hp), Hf in Hrun. cbv beta iota in Hrun.
        rewrite (node_at_plain _ _ Hp), Hf in Hrun.
        injection Hrun as <- <- <-. simpl. repeat split.
        -- lia.
        -- repeat constructor.
        -- apply lookup_delete_eq.
      * apply N.ltb_ge in Hlim.
        unfold Disk.write in Hrun.
        destruct (receive url p items (total + n) (alter (Disk.grow n) p fs)) as [[r1 fs1] t1] eqn:Hrec.
        injection Hrun as <- <- <-.
        assert (Hf' : alter (Disk.grow n) p fs !! p =
                      Some (File {| f_size := f_size f + n; f_mtime := f_mtime f |})).
        { rewrite lookup_alter_eq, Hf. reflexivity. }
        destruct (IH _ _ _ _ _ _ Hrec Hf' ltac:(simpl; lia) Hlim) as (Hw & Hev & Hr).
        simpl. repeat split.
        -- lia.
        -- constructor; [exact I|]. constructor; [reflexivity | assumption].
        -- assumption.
  - injection Hrun as <- <- <-. simpl. repeat split; eauto; lia.
Qed.

(** Crossing the ceiling: the chunks of [pre] fit, [n] does not. *)
Lemma receive_exceeds url p :
  Disk.is_dots (PyPath.basename p) = false ->
  forall pre total fs f n rest,
    fs !! p = Some (File f) ->
    (total + sum_N pre <= MAX_DIRECT_DOWNLOAD_BYTES)%N ->
    (MAX_DIRECT_DOWNLOAD_BYTES < total + sum_N pre + n)%N ->
    exists evs,
      receive url p (map Chunk pre ++ Chunk n :: rest) total fs =
        (Ret (Returned None), delete p fs, evs) /\
      reads evs = pre ++ [n] /\ written evs = sum_N pre /\ In (EvRemove p) evs.
Proof.
  intros Hp. induction pre as [|a pre IH]; intros total fs f n rest Hf Hfit Hover;
    simpl map; simpl app; rewrite receive_unfold; simpl in Hfit, Hover.
  - assert (Hn0 : (n =? 0)%N = false) by (apply N.eqb_neq; lia).
    assert (Hlim : (MAX_DIRECT_DOWNLOAD_BYTES <? total + n)%N = true) by (apply N.ltb_lt; lia).
    unfold bind, emit, Disk.exists_, Disk.remove, ret. rewrite Hn0, Hlim.
    rewrite (node_at_plain _ _ Hp), Hf. cbv beta iota.
    rewrite (node_at_plain _ _ Hp), Hf. eexists. split; [reflexivity|].
    simpl. auto 10.
  - unfold bind, emit. destruct (a =? 0)%N eqn:Ha0.
    + apply N.eqb_eq in Ha0. subst a.
      destruct (IH total fs f n rest Hf ltac:(lia) ltac:(lia)) as (evs & -> & Hr & Hw & Hin).
      eexists. split; [reflexivity|]. simpl. rewrite Hr, Hw. auto.
    + assert (Hlim : (MAX_DIRECT_DOWNLOAD_BYTES <? total + a)%N = false) by (apply N.ltb_ge; lia).
      rewrite Hlim. unfold Disk.write.
      assert (Hf' : alter (Disk.grow a) p fs !! p =
                    Some (File {| f_size := f_size f + a; f_mtime := f_mtime f |})).
      { rewrite lookup_alter_eq, Hf. reflexivity. }
      destruct (IH (total + a)%N _ _ n rest Hf' ltac:(lia) ltac:(lia)) as (evs & -> & Hr & Hw & Hin).
      eexists. split.
      * f_equal. f_equal. apply map_eq. intros k.
        destruct (decide (p = k)) as [->|Hne].
        -- now rewrite !lookup_delete_eq.
        -- now rewrite !lookup_delete_ne, lookup_alter_ne.
      * simpl. rewrite Hr, Hw. auto.
Qed.

(** ** Inversion of runs *)

Section Inversion.
Context {S : Type}.

Lemma bind_inv {A B} (m : M S A) (k : A -> M S B) s r s' evs :
  bind m k s = (r, s', evs) ->
  (exists e, m s = (Raise e, s', evs) /\ r = Raise e) \/
  (exists a s1 t1 t2, m s = (Ret a, s1, t1) /\ k a s1 = (r, s', t2) /\ evs = t1 ++ t2).
Proof.
  unfold bind. destruct (m s) as [[[a|e] s1] t1].
  - destruct (k a s1) as [[r2 s2] t2] eqn:Hk. intros [= <- <- <-].
    right. now exists a, s1, t1, t2.
  - intros [= <- <- <-]. left. now exists e.
Qed.

Lemma try_except_inv {A} (body : M S A) handler s r s' evs :
  try_except body handler s = (r, s', evs) ->
  (exists a, body s = (Ret a, s', evs) /\ r = Ret a) \/
  (exists e, body s = (Raise e, s', evs) /\ handler e = None /\ r = Raise e) \/
  (exists e h s1 t1 t2, body s = (Raise e, s1, t1) /\ handler e = Some h /\
                        h s1 = (r, s', t2) /\ evs = t1 ++ t2).
Proof.
  unfold try_except. destruct (body s) as [[[a|e] s1] t1].
  - intros [= <- <- <-]. left. now exists a.
  - destruct (handler e) as [h|] eqn:Hh.
    + destruct (h s1) as [[r2 s2] t2] eqn:Hr. intros [= <- <- <-].
      right. right. now exists e, h, s1, t1, t2.
    + intros [= <- <- <-]. right. left. now exists e.
Qed.

Lemma finally_inv {A} (body : M S A) cleanup s r s' evs :
  finally body cleanup s = (r, s', evs) ->
  exists r0 s1 t1 rc t2, body s = (r0, s1, t1) /\ cleanup s1 = (rc, s', t2) /\
    evs = t1 ++ t2 /\ r = match rc with Ret _ => r0 | Raise e => Raise e end.
Proof.
  unfold finally. destruct (body s) as [[r0 s1] t1].
  destruct (cleanup s1) as [[[u|e] s2] t2] eqn:Hc; intros [= <- <- <-];
    exists r0, s1, t1; eexists; exists t2; eauto.
Qed.

Lemma traced_inv a url d (body : M S (option string)) s r s' evs :
  traced a url d body s = (r, s', evs) ->
  exists inner, body s = (r, s', inner) /\ evs = EvEnter a url d :: inner ++ [EvLeave a r].
Proof.
  unfold traced. destruct (body s) as [[r0 s1] t1]. intros [= <- <- <-]. now exists t1.
Qed.

Lemma with_local_inv {L A} (init : L) (m : M (S * L) A) s r s' evs :
  with_local init m s = (r, s', evs) -> exists l, m (s, init) = (r, (s', l), evs).
Proof.
  unfold with_local. destruct (m (s, init)) as [[r0 [s1 l]] t1]. intros [= <- <- <-]. now exists l.
Qed.

Lemma on_state_inv {L A} (m : M S A) (sl : S * L) r sl' evs :
  on_state m sl = (r, sl', evs) -> m sl.1 = (r, sl'.1, evs) /\ sl'.2 = sl.2.
Proof.
  unfold on_state, zoom. destruct (m sl.1) as [[r0 s1] t1]. now intros [= <- <- <-].
Qed.

Lemma of_res_inv {A} (x : res A) (s : S) r s' evs :
  of_res x s = (r, s', evs) -> r = x /\ s' = s /\ evs = @nil event.
Proof. destruct x; intros [= <- <- <-]; auto. Qed.

Lemma ret_inv {A} (a : A) (s : S) r s' evs :
  ret a s = (r, s', evs) -> r = Ret a /\ s' = s /\ evs = [].
Proof. intros [= <- <- <-]; auto. Qed.

Lemma raise_inv {A} e (s : S) (r : res A) s' evs :
  raise e s = (r, s', evs) -> r = Raise e /\ s' = s /\ evs = [].
Proof. intros [= <- <- <-]; auto. Qed.

Lemma emit_inv ev (s : S) r s' evs :
  emit ev s = (r, s', evs) -> r = Ret tt /\ s' = s /\ evs = [ev].
Proof. intros [= <- <- <-]; auto. Qed.

(** The events of a run, front first. *)

Lemma traced_events a url d (body : M S (option string)) s :
  (traced a url d body s).2 =
  EvEnter a url d :: (body s).2 ++ [EvLeave a (body s).1.1].
Proof. unfold traced. now destruct (body s) as [[r s'] evs]. Qed.

Lemma with_local_events {L A} (init : L) (m : M (S * L) A) s :
  (with_local init m s).2 = (m (s, init)).2.
Proof. unfold with_local. now destruct (m (s, init)) as [[r [s' l]] evs]. Qed.

Lemma try_except_events {A} (body : M S A) handler s :
  exists rest, (try_except body handler s).2 = (body s).2 ++ rest.
Proof.
  unfold try_except. destruct (body s) as [[[a|e] s1] t1]; simpl.
  - exists []. now rewrite app_nil_r.
  - destruct (handler e) as [h|]; [|exists []; now rewrite app_nil_r].
    destruct (h s1) as [[r s2] t2]. now exists t2.
Qed.

Lemma bind_events {A B} (m : M S A) (k : A -> M S B) s a s1 t1 :
  m s = (Ret a, s1, t1) -> (bind m k s).2 = t1 ++ (k a s1).2.
Proof. unfold bind. intros ->. now destruct (k a s1) as [[r s2] t2]. Qed.

End Inversion.

Lemma get_local_inv {S L} (sl : S * L) r sl' evs :
  get_local sl = (r, sl', evs) -> r = Ret sl.2 /\ sl' = sl /\ evs = [].
Proof. intros [= <- <- <-]; auto. Qed.

Lemma set_local_inv {S L} (l : L) (sl : S * L) r sl' evs :
  set_local l sl = (r, sl', evs) -> r = Ret tt /\ sl' = (sl.1, l) /\ evs = [].
Proof. intros [= <- <- <-]; auto. Qed.

(** Take a run apart, one construct at a time. *)
Ltac run_inv H :=
  lazymatch type of H with
  | bind _ _ _ = _ =>
      let H1 := fresh "Hm" in let H2 := fresh "Hk" in let He := fresh "Hevs" in
      let Hr := fresh "Hres" in
      apply bind_inv in H as [(? & H1 & Hr)|(? & ? & ? & ? & H1 & H2 & He)];
      [run_inv H1; simplify_eq | run_inv H1; cbv beta in H2; run_inv H2; simplify_eq]
  | ret _ _ = _ => apply ret_inv in H as (? & ? & ?); simplify_eq
  | raise _ _ = _ => apply raise_inv in H as (? & ? & ?); simplify_eq
  | emit _ _ = _ => apply emit_inv in H as (? & ? & ?); simplify_eq
  | of_res _ _ = _ => apply of_res_inv in H as (? & ? & ?); simplify_eq
  | get_local _ = _ => apply get_local_inv in H as (? & ? & ?); simplify_eq
  | set_local _ _ = _ => apply set_local_inv in H as (? & ? & ?); simplify_eq
  | on_state _ ?sl = (_, ?sl', _) =>
      apply on_state_inv in H as (H & ?);
      try (is_var sl; destruct sl); try (is_var sl'; destruct sl');
      cbn [fst snd] in *; simplify_eq; run_inv H
  | with_local _ _ _ = _ => apply with_local_inv in H as (? & H); run_inv H
  | traced _ _ _ _ _ = _ =>
      let He := fresh "Hevs" in
      apply traced_inv in H as (? & H & He); run_inv H; simplify_eq
  | try_except _ _ _ = _ =>
      let Hb := fresh "Hbody" in let Hh := fresh "Hhandler" in let Hr := fresh "Hrun" in
      let He := fresh "Hevs" in let Hres := fresh "Hres" in
      apply try_except_inv in H as
        [(? & Hb & Hres)|[(? & Hb & Hh & Hres)|(? & ? & ? & ? & ? & Hb & Hh & Hr & He)]];
      [run_inv Hb; simplify_eq
      |run_inv Hb; simplify_eq;
       repeat match type of Hh with
              | (if ?c then _ else _) = _ => destruct c eqn:?; simplify_eq
              end
      |run_inv Hb; simplify_eq;
       repeat match type of Hh with
              | (if ?c then _ else _) = _ => destruct c eqn:?; simplify_eq
              end;
       run_inv Hr; simplify_eq]
  | probe _ _ _ = _ => unfold probe in H; run_inv H
  | Disk.exists_ _ _ = _ => apply exists_inv in H as (? & ? & ?); simplify_eq
  | Disk.remove _ _ = _ =>
      apply remove_inv in H as
        [(? & ? & ? & ? & ?)|[(? & ? & ? & ?)|(? & ? & ? & ?)]]; simplify_eq
  | Disk.open_wb _ _ _ = _ =>
      apply open_wb_inv in H as [(? & ? & ? & ? & ?)|(? & ? & ? & ? & ?)]; simplify_eq
  | (match ?x with _ => _ end) _ = _ =>
      let Hx := fresh "Hcase" in destruct x eqn:Hx; run_inv H
  | _ => idtac
  end.

Lemma opened_app a b : opened (a ++ b) = opened a ++ opened b.
Proof.
  induction a as [|x a IH]; simpl; [reflexivity|].
  destruct x; rewrite ?IH; reflexivity.
Qed.

Lemma opened_In q evs : In (EvOpen q) evs <-> In q (opened evs).
Proof.
  induction evs as [|x evs IH]; simpl; [tauto|].
  destruct x; simpl; rewrite <- IH; try (intuition congruence).
Qed.

Lemma receive_event_opened p evs : Forall (receive_event p) evs -> opened evs = [].
Proof.
  induction 1 as [|x evs Hx _ IH]; [reflexivity|].
  destruct x; simpl in *; try assumption. contradiction.
Qed.

Lemma receive_event_caught p evs url e :
  Forall (receive_event p) evs -> ~ In (EvLog (LogDirectFailed url e)) evs.
Proof.
  intros H Hin. apply list_elem_of_In in Hin.
  rewrite Forall_forall in H. apply (H _ Hin).
Qed.

Lemma receive_event_inner p evs : Forall (receive_event p) evs -> Forall inner_event evs.
Proof. intros H. eapply Forall_impl; [exact H|]. intros []; simpl; tauto. Qed.

Lemma direct_download_inv E url d fs r fs' evs :
  direct_download E url d fs = (r, fs', evs) ->
  exists inner,
    evs = EvEnter DirectDownload url d :: inner ++ [EvLeave DirectDownload r] /\
    Forall inner_event inner /\
    (written inner <= MAX_DIRECT_DOWNLOAD_BYTES)%N /\
    (forall e', In (EvLog (LogDirectFailed url e')) inner ->
                is_Exception e' = true /\
                (r = Ret None \/ exists e, r = Raise e /\ is_Exception e = true)) /\
    ((opened inner = [] /\
      (r = Ret None \/
       exists e, r = Raise e /\
         (is_Exception e = false \/ pick_filename_from_url E url = Raise e \/
          exists filename, pick_filename_from_url E url = Ret filename /\
            (Disk.is_dir fs (PyPath.join d filename) = true \/
             exists resp, http_get E url = Ret resp /\
               Disk.is_dir fs (with_extension E (PyPath.join d filename) (content_type resp))
               = true))))
     \/
     (exists filename resp p,
        pick_filename_from_url E url = Ret filename /\
        http_get E url = Ret resp /\
        p = with_extension E (PyPath.join d filename) (content_type resp) /\
        Disk.is_dir fs p = false /\
        opened inner = [p] /\
        ((r = Ret (Some p) /\
          exists f, fs' !! p = Some (File f) /\ (f_size f <= MAX_DIRECT_DOWNLOAD_BYTES)%N) \/
         (r = Ret None /\ fs' !! p = None) \/
         (exists e, r = Raise e /\ is_Exception e = false)))).
Proof.
  intros H. unfold direct_download in H. run_inv H.
  all: eexists; split; [reflexivity|].
  all: try match goal with
       | Hr : receive _ ?p _ 0 (<[?p := File ?f]> ?fs) = _, Hd : Disk.is_dots _ = false |- _ =>
           let Hw := fresh "Hw" in let Hev := fresh "Hev" in
           let Hres := fresh "Hres" in
           destruct (receive_inv _ _ _ Hd _ _ _ _ _ f Hr (lookup_insert_eq _ _ _)
                       ltac:(simpl; lia) ltac:(unfold MAX_DIRECT_DOWNLOAD_BYTES; simpl; lia))
             as (Hw & Hev & Hres);
           pose proof (receive_event_opened _ _ Hev);
           pose proof (receive_event_inner _ _ Hev)
       end.
  all: split; [repeat first [apply Forall_app_2 | apply Forall_cons_2 | apply Forall_nil_2
                               | assumption | exact I]|].
  all: split; [rewrite ?written_app; simpl; lia|].
  all: split;
    [intros e' Hin; rewrite ?in_app_iff in Hin; simpl in Hin; rewrite ?in_app_iff in Hin;
     repeat match goal with
            | H : _ \/ _ |- _ => destruct H
            | H : False |- _ => destruct H
            | H : In (EvLog (LogDirectFailed _ _)) ?l, H' : Forall (receive_event _) ?l |- _ =>
                destruct (receive_event_caught _ _ _ _ H' H)
            end; simplify_eq;
     try (split; [assumption | first [left; reflexivity | right; eexists; split; reflexivity]])|].
  all: repeat match goal with
       | H : Ret _ = _ |- _ => symmetry in H
       | H : Raise _ = _ |- _ => symmetry in H
       end.
  all: try (left; split; [rewrite ?opened_app; simpl; congruence|]; 
            first [left; reflexivity
                  |right; eexists; split; [reflexivity|];
                   first [left; assumption | right; left; assumption]]; fail).
  all: repeat match goal with
       | H : _ /\ _ |- _ => destruct H
       | H : exists _, _ |- _ => destruct H
       | H : context [Disk.node_at _ ?p], Hd : Disk.is_dots (PyPath.basename ?p) = false |- _ =>
           rewrite (node_at_plain _ _ Hd) in H
       | Hd : Disk.is_dots (PyPath.basename ?p) = false |- context [Disk.node_at _ ?p] =>
           rewrite (node_at_plain _ _ Hd)
       | H : ?m !! ?p = _ |- context [?m !! ?p] => rewrite H
       | H : ?m !! ?p = _, H' : context [?m !! ?p] |- _ => rewrite H in H'
       | H : Disk.node_at ?m ?p = _, H' : context [match Disk.node_at ?m ?p with _ => _ end] |- _ =>
           rewrite H in H'
       end; simplify_eq.
  all: try (right; do 3 eexists; split; [eassumption|]; split; [eassumption|];
            split; [reflexivity|]; split; [assumption|];
            split; [rewrite ?opened_app; simpl;
                    repeat match goal with H : opened _ = [] |- _ => rewrite H end;
                    reflexivity|];
            first [left; split; [reflexivity | eauto]
                  |right; left; split; [reflexivity|];
                   first [assumption | apply lookup_delete_eq
                         | match goal with
                           | H : match ?x with Some _ => true | None => false end = false |- _ =>
                               destruct x; [discriminate | reflexivity]
                           end]
                  |right; right; eexists; split; [reflexivity | assumption]]; fail).
  all: try (left; split; [rewrite ?opened_app; simpl; congruence|];
            right; eexists; split; [reflexivity|]; right; right;
            eexists; split; [eassumption|];
            first [left; assumption
                  |right; eexists; split; [eassumption | assumption]]; fail).
  all: exfalso;
    match goal with
    | H : Disk.is_dir ?g ?p = true, Hd : Disk.is_dots (PyPath.basename ?p) = false,
      Hf : ?g !! ?p = Some (File _) |- _ =>
        unfold Disk.is_dir in H; rewrite (node_at_plain _ _ Hd), Hf in H; discriminate
    end.
Qed.

(** ** [run_yt_dlp] *)

Lemma keyed_pure paths : forall fs r fs' evs,
  keyed paths fs = (r, fs', evs) -> fs' = fs /\ evs = [].
Proof.
  induction paths as [|p paths IH]; intros fs r fs' evs; simpl.
  - now intros [= <- <- <-].
  - unfold bind, Disk.getmtime.
    destruct (Disk.node_at fs p); [|now intros [= <- <- <-]].
    destruct (keyed paths fs) as [[[l|e] fs1] t1] eqn:Hk;
      destruct (IH _ _ _ _ Hk) as [-> ->]; now intros [= <- <- <-].
Qed.

Lemma keyed_present paths fs :
  (forall p, In p paths -> Disk.node_at fs p <> None) ->
  keyed paths fs = (Ret (map (fun p => (p, mtime_at fs p)) paths), fs, []).
Proof.
  induction paths as [|p paths IH]; intros Hall; [reflexivity|].
  simpl. unfold bind, Disk.getmtime, mtime_at.
  destruct (Disk.node_at fs p) as [x|] eqn:Hp.
  - rewrite IH by (intros q Hq; apply Hall; now right). reflexivity.
  - exfalso. now apply (Hall p); [left|].
Qed.

Lemma entries_present d fs n :
  In n (Disk.entries d fs) -> Disk.node_at fs (PyPath.join d n) <> None.
Proof.
  unfold Disk.entries. intros Hn. apply list_elem_of_In, list_elem_of_omap in Hn.
  destruct Hn as ([p x] & Hpx & Hc). apply elem_of_map_to_list in Hpx.
  unfold Disk.child_name in Hc. simpl in Hc.
  destruct (PyStr.strip_prefix (PyPath.join d EmptyString) p) as [n'|] eqn:Hs; [|discriminate].
  destruct (PyStr.truthy n' && negb (PyStr.contains PyPath.slash n') && negb (Disk.is_dots n'))
    eqn:Hok; [|discriminate].
  injection Hc as ->.
  apply andb_prop in Hok as [Hok Hdots]. apply andb_prop in Hok as [_ Hslash].
  apply negb_true_iff in Hdots, Hslash.
  apply strip_prefix_Some in Hs. rewrite <- join_prefix in Hs by assumption. subst p.
  rewrite node_at_plain by (now rewrite basename_join). now rewrite Hpx.
Qed.

Lemma insert_desc_In x l y : In y (insert_desc x l) <-> y = x \/ In y l.
Proof.
  induction l as [|z l IH]; simpl; [intuition|].
  destruct (z.2 <=? x.2)%Z; simpl; [intuition|]. rewrite IH. intuition.
Qed.

(** The first item of the sorted list has the greatest key. *)
Lemma sorted_desc_head l :
  match sorted_desc l with
  | [] => l = []
  | h :: _ => In h l /\ forall y, In y l -> (y.2 <= h.2)%Z
  end.
Proof.
  induction l as [|x l IH]; [reflexivity|]. simpl.
  destruct (sorted_desc l) as [|h t] eqn:Hs; simpl.
  - subst l. split; [now left|]. intros y [<-|[]]. lia.
  - destruct IH as [Hh Hmax]. destruct (h.2 <=? x.2)%Z eqn:Hle.
    + apply Z.leb_le in Hle. split; [now left|].
      intros y [<-|Hy]; [lia|]. specialize (Hmax y Hy). lia.
    + apply Z.leb_gt in Hle. split; [now right|].
      intros y [<-|Hy]; [lia | now apply Hmax].
Qed.

Lemma communicate_inv proc fs r fs' evs :
  communicate proc fs = (r, fs', evs) ->
  r = p_result proc /\ fs' = p_effect proc fs /\ evs = [].
Proof. unfold communicate. destruct (p_result proc); now intros [= <- <- <-]. Qed.

Lemma decode_inv {S} b (s : S) r s' evs :
  decode b s = (r, s', evs) -> s' = s /\ evs = [].
Proof. destruct b; now intros [= <- <- <-]. Qed.

Lemma listdir_inv d fs r fs' evs :
  Disk.listdir d fs = (r, fs', evs) -> fs' = fs /\ evs = [].
Proof.
  unfold Disk.listdir. destruct (Disk.node_at fs d) as [[f|m]|]; now intros [= <- <- <-].
Qed.

Ltac pure_inv :=
  repeat match goal with
    | H : communicate _ _ = _ |- _ => apply communicate_inv in H as (? & ? & ?)
    | H : decode _ _ = _ |- _ => apply decode_inv in H as (? & ?)
    | H : Disk.listdir _ _ = _ |- _ => apply listdir_inv in H as (? & ?)
    | H : keyed _ _ = _ |- _ => apply keyed_pure in H as (? & ?)
    end; simplify_eq.

Ltac solve_inner :=
  repeat first [apply Forall_app_2 | apply Forall_cons_2 | apply Forall_nil_2
               | assumption | exact I].

Lemma run_yt_dlp_inv E url d fs r fs' evs :
  run_yt_dlp E url d fs = (r, fs', evs) ->
  exists inner,
    evs = EvEnter RunYtDlp url d :: inner ++ [EvLeave RunYtDlp r] /\
    Forall inner_event inner /\
    (forall e, r = Raise e -> is_Exception e = false) /\
    (forall l, In (EvLog l) inner -> r = Ret None).
Proof.
  intros H. unfold run_yt_dlp, create_subprocess_exec in H. run_inv H.
  all: pure_inv; eexists; split; [reflexivity|].
  all: split; [solve_inner|].
  all: split; [intros ? [= <-]; assumption || discriminate|].
  all: intros l Hin; rewrite ?in_app_iff in Hin; simpl in Hin; rewrite ?in_app_iff in Hin;
       simpl in Hin; intuition congruence.
Qed.

Lemma inner_event_filter sel evs :
  (forall ev, inner_event ev -> sel ev = false) ->
  Forall inner_event evs -> List.filter sel evs = [].
Proof.
  intros Hsel. induction 1 as [|x evs Hx _ IH]; [reflexivity|].
  simpl. now rewrite (Hsel x Hx).
Qed.

Lemma inner_event_calls evs : Forall inner_event evs -> List.filter is_call evs = [].
Proof. apply inner_event_filter. intros []; simpl; tauto. Qed.

Lemma inner_event_ui evs : Forall inner_event evs -> List.filter is_ui evs = [].
Proof. apply inner_event_filter. intros []; simpl; tauto. Qed.

Lemma inner_event_scratch evs : Forall inner_event evs -> List.filter is_scratch evs = [].
Proof. apply inner_event_filter. intros []; simpl; tauto. Qed.

Lemma calls_map_ui acts : List.filter is_call (map EvUI acts) = [].
Proof. induction acts; simpl; auto. Qed.

Lemma ui_map_ui acts : List.filter is_ui (map EvUI acts) = map EvUI acts.
Proof. induction acts as [|a acts IH]; simpl; [reflexivity | now rewrite IH]. Qed.

Lemma scratch_map_ui acts : List.filter is_scratch (map EvUI acts) = [].
Proof. induction acts; simpl; auto. Qed.


Section MoreInversion.
Context {S : Type}.

Lemma zoom_inv {T A} (proj : S -> T) upd (m : M T A) s r s' evs :
  zoom proj upd m s = (r, s', evs) ->
  exists t', m (proj s) = (r, t', evs) /\ s' = upd t' s.
Proof.
  unfold zoom. destruct (m (proj s)) as [[r0 t'] t1]. intros [= <- <- <-]. now exists t'.
Qed.

Lemma get_inv (s : S) r s' evs : get s = (r, s', evs) -> r = Ret s /\ s' = s /\ evs = [].
Proof. now intros [= <- <- <-]. Qed.

Lemma put_inv (x s : S) r s' evs : put x s = (r, s', evs) -> r = Ret tt /\ s' = x /\ evs = [].
Proof. now intros [= <- <- <-]. Qed.

Lemma tg_inv E a (s : S) r s' evs :
  tg E a s = (r, s', evs) ->
  s' = s /\ evs = [EvUI a] /\
  r = match telegram E a with Some e => Raise e | None => Ret tt end.
Proof.
  unfold tg, bind, emit, raise, ret. destruct (telegram E a); simpl; now intros [= <- <- <-].
Qed.

End MoreInversion.

Ltac run_inv_w H :=
  lazymatch type of H with
  | bind _ _ _ = _ =>
      let H1 := fresh "Hm" in let H2 := fresh "Hk" in let He := fresh "Hevs" in
      let Hr := fresh "Hres" in
      apply bind_inv in H as [(? & H1 & Hr)|(? & ? & ? & ? & H1 & H2 & He)];
      [run_inv_w H1; simplify_eq | run_inv_w H1; cbv beta in H2; run_inv_w H2; simplify_eq]
  | ret _ _ = _ => apply ret_inv in H as (? & ? & ?); simplify_eq
  | raise _ _ = _ => apply raise_inv in H as (? & ? & ?); simplify_eq
  | get _ = _ => apply get_inv in H as (? & ? & ?); simplify_eq
  | put _ _ = _ => apply put_inv in H as (? & ? & ?); simplify_eq
  | tg ?E ?a _ = _ =>
      apply tg_inv in H as (? & ? & ?); destruct (telegram E a) eqn:?; simplify_eq
  | on_disk _ _ = _ => unfold on_disk in H; run_inv_w H
  | on_user_data _ _ = _ => unfold on_user_data in H; run_inv_w H
  | with_TemporaryDirectory _ _ _ = _ => unfold with_TemporaryDirectory in H; run_inv_w H
  | zoom _ _ _ _ = _ =>
      apply zoom_inv in H as (? & H & ?); cbn [disk user_data] in *; simplify_eq; run_inv_w H
  | finally _ _ _ = _ =>
      let Hb := fresh "Hbody" in let Hc := fresh "Hclean" in
      apply finally_inv in H as (? & ? & ? & ? & ? & Hb & Hc & ? & ?);
      run_inv_w Hc; run_inv_w Hb; simplify_eq
  | Disk.getsize _ _ = _ => unfold Disk.getsize in H; run_inv_w H
  | Disk.open_rb _ _ = _ => unfold Disk.open_rb in H; run_inv_w H
  | effective_chat_id _ _ = _ => unfold effective_chat_id in H; run_inv_w H
  | Disk.mkdtemp _ _ _ = _ => unfold Disk.mkdtemp in H; simplify_eq
  | Disk.rmtree _ _ = _ => unfold Disk.rmtree in H; simplify_eq
  | (match ?x with _ => _ end) _ = _ =>
      let Hx := fresh "Hcase" in destruct x eqn:Hx; run_inv_w H
  | match ?x with _ => _ end = _ =>
      let Hx := fresh "Hcase" in destruct x eqn:Hx; run_inv_w H
  | (_, _, _) = (_, _, _) => simplify_eq
  | _ => idtac
  end.

Lemma send_file_inv E u p fs r fs' evs :
  send_file E u p fs = (r, fs', evs) ->
  fs' = fs /\
  exists acts, evs = map EvUI acts /\
    (acts = [] \/ acts = [send_chat_action] \/
     acts = [send_chat_action; reply_video p] \/
     acts = [send_chat_action; reply_document p]) /\
    (r = Ret tt ->
     acts = [send_chat_action; reply_video p] \/
     acts = [send_chat_action; reply_document p]) /\
    (u = FakeUpdate -> r = Raise AttributeError /\ acts = []).
Proof.
  intros H. unfold send_file in H. run_inv_w H.
  all: split; [reflexivity|].
  all: first [exists []; split; [reflexivity|]
             |exists [send_chat_action]; split; [reflexivity|]
             |exists [send_chat_action; reply_video p]; split; [reflexivity|]
             |exists [send_chat_action; reply_document p]; split; [reflexivity|]].
  all: repeat split; auto 6; try discriminate; congruence.
Qed.

(** What the attempt functions contribute to the selections. *)
Ltac attempts_inv :=
  repeat match goal with
    | H : run_yt_dlp _ _ _ _ = _ |- _ =>
        apply run_yt_dlp_inv in H as (? & ? & ? & ? & ?)
    | H : direct_download _ _ _ _ = _ |- _ =>
        apply direct_download_inv in H as (? & ? & ? & _ & _ & _)
    | H : send_file _ _ _ _ = _ |- _ =>
        apply send_file_inv in H as (? & ? & ? & ? & ? & ?)
    end; simplify_eq.

Ltac select_step :=
  match goal with
  | |- context [List.filter _ (_ ++ _)] => rewrite List.filter_app
  | H : Forall inner_event ?l |- context [List.filter is_call ?l] =>
      rewrite (inner_event_calls l H)
  | H : Forall inner_event ?l |- context [List.filter is_ui ?l] =>
      rewrite (inner_event_ui l H)
  | H : Forall inner_event ?l |- context [List.filter is_scratch ?l] =>
      rewrite (inner_event_scratch l H)
  | |- context [List.filter is_call (map EvUI ?l)] => rewrite (calls_map_ui l)
  | |- context [List.filter is_ui (map EvUI ?l)] => rewrite (ui_map_ui l)
  | |- context [List.filter is_scratch (map EvUI ?l)] => rewrite (scratch_map_ui l)
  end.

Ltac select_simpl :=
  unfold calls, ui, scratch; simpl;
  repeat (select_step; simpl); rewrite ?app_nil_r.

Lemma fallback_calls E u url st w :
  let '(r, w', evs) := process_download E u url st w in
  let d := mkdtemp_name E in
  (calls evs = [] /\ st = None /\ telegram E (reply_text MSG_downloading None) <> None) \/
  (exists r1 r2,
     calls evs =
       EvEnter RunYtDlp url d :: EvLeave RunYtDlp r1 ::
       (if failed r1 then [EvEnter DirectDownload url d; EvLeave DirectDownload r2] else [])).
Proof.
  destruct (process_download E u url st w) as [[r w'] evs] eqn:H.
  unfold process_download in H. run_inv_w H.
  all: attempts_inv.
  all: try (left; split; [reflexivity|]; split; [reflexivity|]; congruence).
  all: right; select_simpl.
  all: match goal with
       | |- exists r1 r2, ?l = _ =>
           match l with
           | context [EvLeave RunYtDlp ?a] =>
               exists a;
               match l with
               | context [EvLeave DirectDownload ?b] => exists b
               | _ => exists (Ret None)
               end
           end
       end.
  all: simpl failed;
       try match goal with H : falsy ?o = _ |- context [falsy ?o] => rewrite H end;
       reflexivity.
Qed.


Lemma In_calls ev evs : In ev evs -> is_call ev = true -> In ev (calls evs).
Proof. intros. now apply List.filter_In. Qed.



(** C5, amended: when the stream fetch returns a falsy value (so the
    extraction failed before it), [process_download] shows the one fixed
    failure message with the retry keyboard and nothing else, whatever
    the two reasons were. *)
Theorem C5_unified_failure E u url st w o :
  let '(r, w', evs) := process_download E u url st w in
  let greeting :=
    match st with
    | None => [EvUI (reply_text MSG_downloading None)]
    | Some _ => []
    end in
  In (EvLeave DirectDownload (Ret o)) evs ->
  falsy o = true ->
  ui evs = greeting ++ [EvUI (edit_text MSG_failed (Some retry_keyboard))] /\
  r = match telegram E (edit_text MSG_failed (Some retry_keyboard)) with
      | Some e => Raise e
      | None => Ret tt
      end.
Proof.
  destruct (process_download E u url st w) as [[r w'] evs] eqn:H.
  unfold process_download in H. run_inv_w H.
  all: attempts_inv.
  all: cbv zeta; intros Hin Ho; apply In_calls in Hin; [|reflexivity]; revert Hin; select_simpl.
  all: simpl; intros Hin;
       repeat match goal with
         | H : _ \/ _ |- _ => destruct H as [H|H]
         | H : False |- _ => destruct H
         end; simplify_eq.
  all: try congruence.
  all: match goal with
       | H : telegram _ _ = _ |- _ => rewrite ?H
       end; split; [select_simpl; reflexivity | reflexivity].
Qed.


Arguments declared_too_large : simpl never.
Arguments with_extension : simpl never.
Arguments content_type : simpl never.
Arguments receive : simpl never.
Arguments keyed : simpl never.
Arguments sorted_desc : simpl never.
Arguments yt_dlp_cmd : simpl never.
Arguments PyPath.join : simpl never.
Arguments Disk.entries : simpl never.
Arguments Disk.node_at : simpl never.
Arguments MAX_DIRECT_DOWNLOAD_BYTES : simpl never.

(** ** The receiving loop, forward *)

Lemma received_reads p sizes : reads (received p sizes) = sizes.
Proof.
  induction sizes as [|n sizes IH]; [reflexivity|].
  simpl. destruct (n =? 0)%N; simpl; now rewrite IH.
Qed.

Lemma received_written p sizes : written (received p sizes) = sum_N sizes.
Proof.
  induction sizes as [|n sizes IH]; [reflexivity|].
  simpl. destruct (n =? 0)%N eqn:Hn; simpl; rewrite IH; [|reflexivity].
  apply N.eqb_eq in Hn. now subst.
Qed.

Lemma received_opened p sizes : opened (received p sizes) = [].
Proof.
  induction sizes as [|n sizes IH]; [reflexivity|].
  simpl. destruct (n =? 0)%N; simpl; exact IH.
Qed.

(** Chunks that fit the ceiling are written out, and the loop goes on
    with what is left of the body. *)
Lemma receive_chunks url p :
  forall pre tail total fs f,
    fs !! p = Some (File f) ->
    (total + sum_N pre <= MAX_DIRECT_DOWNLOAD_BYTES)%N ->
    receive url p (map Chunk pre ++ tail) total fs =
      let '(r, fs', evs) :=
        receive url p tail (total + sum_N pre)
          (<[p := File {| f_size := f_size f + sum_N pre; f_mtime := f_mtime f |}]> fs) in
      (r, fs', received p pre ++ evs).
Proof.
  induction pre as [|n pre IH]; intros tail total fs f Hf Hfit; simpl in Hfit.
  - simpl map. simpl app. simpl sum_N. rewrite !N.add_0_r.
    assert (Hsame : <[p := File {| f_size := f_size f; f_mtime := f_mtime f |}]> fs = fs).
    { apply map_eq. intros k. destruct (decide (p = k)) as [<-|Hne].
      - rewrite lookup_insert_eq, Hf. now destruct f.
      - now rewrite lookup_insert_ne. }
    rewrite Hsame. now destruct (receive url p tail total fs) as [[r fs'] evs].
  - simpl map. simpl app. rewrite receive_unfold. unfold bind, emit.
    destruct (n =? 0)%N eqn:Hn0.
    + apply N.eqb_eq in Hn0. subst n.
      rewrite (IH tail total fs f Hf ltac:(lia)). simpl sum_N. rewrite N.add_0_l.
      cbn [received]. change (0 =? 0)%N with true. cbv iota.
      now destruct (receive url p tail _ _) as [[r fs'] evs].
    + assert (Hlim : (MAX_DIRECT_DOWNLOAD_BYTES <? total + n)%N = false)
        by (apply N.ltb_ge; lia).
      rewrite Hlim. unfold Disk.write.
      assert (Hf' : alter (Disk.grow n) p fs !! p =
                    Some (File {| f_size := f_size f + n; f_mtime := f_mtime f |})).
      { rewrite lookup_alter_eq, Hf. reflexivity. }
      rewrite (IH tail (total + n)%N _ _ Hf' ltac:(lia)).
      cbn [f_size f_mtime]. simpl sum_N. cbn [received]. rewrite ?Hn0.
      assert (Hdisk :
        <[p := File {| f_size := f_size f + n + sum_N pre; f_mtime := f_mtime f |}]>
          (alter (Disk.grow n) p fs) =
        <[p := File {| f_size := f_size f + (n + sum_N pre); f_mtime := f_mtime f |}]> fs).
      { apply map_eq. intros k. destruct (decide (p = k)) as [<-|Hne].
        - rewrite !lookup_insert_eq. now rewrite N.add_assoc.
        - now rewrite !lookup_insert_ne, lookup_alter_ne. }
      rewrite Hdisk, !N.add_assoc.
      now destruct (receive url p tail _ _) as [[r fs'] evs].
Qed.

(** ** [direct_download], forward *)

(** Once the file is open, the call is the receiving loop and what is
    made of the way it ends. *)
Lemma direct_download_receive E url out_dir fs filename resp fs1 t :
  pick_filename_from_url E url = Ret filename ->
  match http_head E url with
  | Ret h => declared_too_large (Some h) = None
  | Raise e => is_Exception e = true
  end ->
  http_get E url = Ret resp ->
  (status_code resp < 400)%Z ->
  let p := with_extension E (PyPath.join out_dir filename) (content_type resp) in
  Disk.open_wb (now E) p fs = (Ret tt, fs1, t) ->
  direct_download E url out_dir fs =
    let start := EvEnter DirectDownload url out_dir :: EvHead url ::
                 head_log E url ++ [EvGet url; EvOpen p] in
    match receive url p (body resp) 0 fs1 with
    | (Ret (Returned v), fs2, t2) =>
        (Ret v, fs2, start ++ t2 ++ [EvLeave DirectDownload (Ret v)])
    | (Ret Fallthrough, fs2, t2) =>
        let v := match Disk.node_at fs2 p with Some _ => Some p | None => None end in
        (Ret v, fs2, start ++ t2 ++ [EvLeave DirectDownload (Ret v)])
    | (Raise e, fs2, t2) =>
        if is_Exception e then
          match Disk.node_at fs2 p with
          | Some (File _) =>
              (Ret None, delete p fs2,
               start ++ t2 ++ [EvLog (LogDirectFailed url e); EvRemove p;
                               EvLeave DirectDownload (Ret None)])
          | Some (Dir _) =>
              (Raise IsADirectoryError, fs2,
               start ++ t2 ++ [EvLog (LogDirectFailed url e);
                               EvLeave DirectDownload (Raise IsADirectoryError)])
          | None =>
              (Ret None, fs2,
               start ++ t2 ++ [EvLog (LogDirectFailed url e);
                               EvLeave DirectDownload (Ret None)])
          end
        else (Raise e, fs2, start ++ t2 ++ [EvLeave DirectDownload (Raise e)])
    end.
Proof.
  intros Hp Hh Hg Hs p Ho.
  destruct (open_wb_inv _ _ _ _ _ _ Ho) as [(_ & Hdots & _ & Hfs1 & ->)|(e & [=] & _)].
  assert (Hst : (400 <=? status_code resp)%Z = false) by (apply Z.leb_gt; lia).
  unfold direct_download, probe, traced, with_local, try_except, bind, of_res, emit, ret,
    raise, get_local, set_local, on_state, zoom, Disk.exists_, Disk.remove, head_log.
  rewrite Hp. simpl.
  destruct (http_head E url) as [h|e0]; simpl; rewrite Hh; simpl; rewrite Hg; simpl;
    rewrite Hst; simpl; fold p; rewrite Ho; simpl;
    destruct (receive url p (body resp) 0 fs1) as [[[[v|]|e] fs2] t2]; simpl;
    try (destruct (is_Exception e) eqn:He; simpl);
    try (destruct (Disk.node_at fs2 p) as [[f|m]|] eqn:Hn; simpl;
         rewrite ?Hn; simpl; rewrite ?Hn; simpl);
    rewrite <- ?app_assoc; simpl; reflexivity.
Qed.

Lemma probe_passes_plain E url :
  probe_passes E url ->
  match http_head E url with
  | Ret h => declared_too_large (Some h) = None
  | Raise e => is_Exception e = true
  end.
Proof. unfold probe_passes. destruct (http_head E url); tauto. Qed.

(** A body within the ceiling is received whole. *)
Lemma direct_download_transfer E url out_dir fs filename resp sizes fs1 t :
  pick_filename_from_url E url = Ret filename ->
  match http_head E url with
  | Ret h => declared_too_large (Some h) = None
  | Raise e => is_Exception e = true
  end ->
  http_get E url = Ret resp ->
  (status_code resp < 400)%Z ->
  body resp = map Chunk sizes ->
  (sum_N sizes <= MAX_DIRECT_DOWNLOAD_BYTES)%N ->
  let p := with_extension E (PyPath.join out_dir filename) (content_type resp) in
  Disk.open_wb (now E) p fs = (Ret tt, fs1, t) ->
  direct_download E url out_dir fs =
    (Ret (Some p), <[p := File {| f_size := sum_N sizes; f_mtime := now E |}]> fs,
     EvEnter DirectDownload url out_dir :: EvHead url ::
     head_log E url ++ [EvGet url; EvOpen p] ++ received p sizes ++
     [EvLeave DirectDownload (Ret (Some p))]).
Proof.
  intros Hp Hh Hg Hs Hb Hfit p Ho.
  rewrite (direct_download_receive E url out_dir fs filename resp fs1 t Hp Hh Hg Hs Ho).
  fold p. cbv zeta.
  destruct (open_wb_inv _ _ _ _ _ _ Ho) as [(_ & Hdots & _ & -> & ->)|(e & [=] & _)].
  rewrite Hb, <- (app_nil_r (map Chunk sizes)).
  rewrite (receive_chunks url p sizes [] 0%N _ {| f_size := 0; f_mtime := now E |}
             (lookup_insert_eq _ _ _) ltac:(lia)).
  rewrite receive_unfold. unfold ret. cbn [f_size f_mtime]. rewrite N.add_0_l.
  rewrite (node_at_plain _ _ Hdots), lookup_insert_eq.
  f_equal; [f_equal|].
  - apply map_eq. intros k. destruct (decide (p = k)) as [<-|Hne].
    + now rewrite !lookup_insert_eq.
    + now rewrite !lookup_insert_ne.
  - rewrite app_nil_r. simpl. rewrite <- ?app_assoc. reflexivity.
Qed.

Lemma reasons_app a b : reasons (a ++ b) = reasons a ++ reasons b.
Proof.
  induction a as [|x a IH]; simpl; [reflexivity|].
  destruct x; rewrite ?IH; try reflexivity.
  destruct (logged_reason l); now rewrite ?IH.
Qed.

Lemma received_reasons p sizes : reasons (received p sizes) = [].
Proof.
  induction sizes as [|n sizes IH]; [reflexivity|].
  simpl. destruct (n =? 0)%N; simpl; exact IH.
Qed.

Lemma head_log_plain E url :
  reasons (head_log E url) = [] /\ opened (head_log E url) = [] /\
  reads (head_log E url) = [] /\ written (head_log E url) = 0%N.
Proof. unfold head_log. destruct (http_head E url); repeat split. Qed.

(** What [run_yt_dlp] returns once the tool has exited with code 0 and
    the working directory can be listed. *)
Lemma run_yt_dlp_exit0 E url out_dir fs proc stderr :
  spawn E (yt_dlp_cmd url out_dir) = Ret proc ->
  p_result proc = Ret (0%Z, stderr) ->
  Disk.is_dir (p_effect proc fs) out_dir = true ->
  let fs1 := p_effect proc fs in
  (run_yt_dlp E url out_dir fs).1 =
    (Ret (head (map fst (sorted_desc
       (map (fun p => (p, mtime_at fs1 p))
            (map (PyPath.join out_dir) (Disk.entries out_dir fs1)))))), fs1).
Proof.
  intros Hs Hr Hd fs1.
  unfold run_yt_dlp, traced, try_except, bind, create_subprocess_exec, emit, of_res,
    communicate, ret, Disk.listdir.
  rewrite Hs. simpl. rewrite Hr. simpl.
  unfold Disk.is_dir in Hd. fold fs1 in Hd |- *.
  destruct (Disk.node_at fs1 out_dir) as [[f|m]|]; try discriminate.
  rewrite keyed_present; [reflexivity|].
  intros p Hp. apply in_map_iff in Hp as (n & <- & Hn). now apply entries_present.
Qed.

(** The three ways the extraction fails. *)
Lemma run_yt_dlp_failures E url out_dir fs :
  (spawn E (yt_dlp_cmd url out_dir) = Raise FileNotFoundError ->
   (run_yt_dlp E url out_dir fs).1.1 = Ret None) /\
  (forall proc rc err,
     spawn E (yt_dlp_cmd url out_dir) = Ret proc ->
     p_result proc = Ret (rc, err) -> rc <> 0%Z ->
     (run_yt_dlp E url out_dir fs).1.1 = Ret None) /\
  (forall proc err,
     spawn E (yt_dlp_cmd url out_dir) = Ret proc ->
     p_result proc = Ret (0%Z, err) ->
     Disk.is_dir (p_effect proc fs) out_dir = true ->
     Disk.entries out_dir (p_effect proc fs) = [] ->
     (run_yt_dlp E url out_dir fs).1.1 = Ret None).
Proof.
  split; [|split].
  - intros Hs.
    unfold run_yt_dlp, traced, try_except, bind, create_subprocess_exec, emit, of_res, ret.
    rewrite Hs. reflexivity.
  - intros proc rc err Hs Hr Hrc.
    unfold run_yt_dlp, traced, try_except, bind, create_subprocess_exec, emit, of_res,
      communicate, ret, decode.
    rewrite Hs. simpl. rewrite Hr. simpl.
    apply Z.eqb_neq in Hrc. rewrite Hrc. simpl.
    destruct err; reflexivity.
  - intros proc err Hs Hr Hd Hn.
    rewrite (run_yt_dlp_exit0 E url out_dir fs proc err Hs Hr Hd). simpl. now rewrite Hn.
Qed.

(** C7: when the tool exits with code 0, [run_yt_dlp] returns [None] if
    the working directory is empty, and otherwise the path of an entry of
    the working directory whose modification time is the latest. *)
Theorem C7_latest_output E url out_dir fs proc stderr :
  spawn E (yt_dlp_cmd url out_dir) = Ret proc ->
  p_result proc = Ret (0%Z, stderr) ->
  Disk.is_dir (p_effect proc fs) out_dir = true ->
  let fs1 := p_effect proc fs in
  let names := Disk.entries out_dir fs1 in
  (names = [] -> (run_yt_dlp E url out_dir fs).1 = (Ret None, fs1)) /\
  (names <> [] ->
   exists n, In n names /\
     (run_yt_dlp E url out_dir fs).1 = (Ret (Some (PyPath.join out_dir n)), fs1) /\
     forall n', In n' names ->
       (mtime_at fs1 (PyPath.join out_dir n') <= mtime_at fs1 (PyPath.join out_dir n))%Z).
Proof.
  intros Hs Hr Hd fs1 names.
  rewrite (run_yt_dlp_exit0 E url out_dir fs proc stderr Hs Hr Hd). fold fs1 names. split.
  - intros ->. reflexivity.
  - intros Hne.
    pose proof (sorted_desc_head
      (map (fun p => (p, mtime_at fs1 p)) (map (PyPath.join out_dir) names))) as Hh.
    destruct (sorted_desc _) as [|[p k] t].
    + destruct names; [congruence | discriminate].
    + destruct Hh as [Hin Hmax].
      apply in_map_iff in Hin as (p' & [= <- <-] & Hp').
      apply in_map_iff in Hp' as (n & <- & Hn).
      exists n. split; [assumption|]. split; [reflexivity|].
      intros n' Hn'.
      apply (Hmax (PyPath.join out_dir n', mtime_at fs1 (PyPath.join out_dir n'))).
      apply in_map_iff. eexists. split; [reflexivity|]. now apply in_map.
Qed.

(** C4: when the [HEAD] probe answers below 400 with a [content-length]
    of decimal digits (no more of them than [int] converts) above the
    ceiling, [direct_download] returns [None]
    after the probe and a log line, with no [GET] and no body read.  A
    probe that fails is not fatal: when it raises an exception of class
    [Exception] the failure is logged and the [GET] transfer starts, and
    when it answers with a status of 400 or more its headers are ignored
    and the [GET] transfer starts; and the transfer then runs to its end:
    a body within the ceiling is received whole, written to the output
    file, and the path of the file is returned. *)
Theorem C4_probe E url out_dir fs filename :
  pick_filename_from_url E url = Ret filename ->
  (forall h cl,
     http_head E url = Ret h -> (status_code h < 400)%Z ->
     headers h !! "content-length" = Some cl -> PyStr.isdigit cl = true ->
     (String.length cl <= PyStr.INT_MAX_STR_DIGITS)%nat ->
     (MAX_DIRECT_DOWNLOAD_BYTES < PyStr.int cl)%N ->
     direct_download E url out_dir fs =
       (Ret None, fs,
        [EvEnter DirectDownload url out_dir; EvHead url;
         EvLog (LogFileTooLarge cl url); EvLeave DirectDownload (Ret None)])) /\
  (forall e,
     http_head E url = Raise e -> is_Exception e = true ->
     exists rest,
       (direct_download E url out_dir fs).2 =
         EvEnter DirectDownload url out_dir :: EvHead url ::
         EvLog (LogHeadFailed url e) :: EvGet url :: rest) /\
  (forall h,
     http_head E url = Ret h -> (400 <= status_code h)%Z ->
     exists rest,
       (direct_download E url out_dir fs).2 =
         EvEnter DirectDownload url out_dir :: EvHead url :: EvGet url :: rest) /\
  (forall resp sizes fs1 t,
     match http_head E url with
     | Raise e => is_Exception e = true
     | Ret h => (400 <= status_code h)%Z
     end ->
     http_get E url = Ret resp ->
     (status_code resp < 400)%Z ->
     body resp = map Chunk sizes ->
     (sum_N sizes <= MAX_DIRECT_DOWNLOAD_BYTES)%N ->
     let p := with_extension E (PyPath.join out_dir filename) (content_type resp) in
     Disk.open_wb (now E) p fs = (Ret tt, fs1, t) ->
     direct_download E url out_dir fs =
       (Ret (Some p), <[p := File {| f_size := sum_N sizes; f_mtime := now E |}]> fs,
        EvEnter DirectDownload url out_dir :: EvHead url ::
        head_log E url ++ [EvGet url; EvOpen p] ++ received p sizes ++
        [EvLeave DirectDownload (Ret (Some p))])).
Proof.
  intros Hp. split; [|split; [|split]].
  - intros h cl Hh Hs Hcl Hd _ Hm.
    assert (Hdt : declared_too_large (Some h) = Some cl).
    { unfold declared_too_large. rewrite (proj2 (Z.ltb_lt _ _) Hs), Hcl, Hd.
      rewrite (proj2 (N.ltb_lt _ _) Hm). destruct cl; [discriminate|reflexivity]. }
    unfold direct_download, probe, traced, with_local, try_except, bind, of_res, emit, ret.
    rewrite Hp. simpl. rewrite Hh. simpl. rewrite Hdt. reflexivity.
  - intros e Hh He.
    assert (Hprobe : forall sl : fsys * string,
              @probe (fsys * string) E url sl =
              (Ret None, sl, [EvHead url; EvLog (LogHeadFailed url e)])).
    { intros sl. unfold probe, try_except, bind, emit, of_res, raise, ret.
      rewrite Hh. simpl. now rewrite He. }
    unfold direct_download. rewrite traced_events.
    rewrite (bind_events _ _ fs filename fs []) by now rewrite Hp.
    rewrite with_local_events.
    match goal with
    | |- context [try_except ?b ?h ?s] =>
        destruct (try_except_events b h s) as [rest ->]
    end.
    rewrite (bind_events _ _ _ _ _ _ (Hprobe _)).
    change (declared_too_large None) with (@None string). cbv iota.
    rewrite (bind_events _ _ _ tt _ [EvGet url]) by reflexivity.
    simpl. rewrite <- !app_assoc. simpl. eauto.
  - intros h Hh Hs.
    assert (Hdt : declared_too_large (Some h) = None).
    { unfold declared_too_large. now rewrite (proj2 (Z.ltb_ge _ _) Hs). }
    assert (Hprobe : forall sl : fsys * string,
              @probe (fsys * string) E url sl = (Ret (Some h), sl, [EvHead url])).
    { intros sl. unfold probe, try_except, bind, emit, of_res, raise, ret.
      now rewrite Hh. }
    unfold direct_download. rewrite traced_events.
    rewrite (bind_events _ _ fs filename fs []) by now rewrite Hp.
    rewrite with_local_events.
    match goal with
    | |- context [try_except ?b ?h ?s] =>
        destruct (try_except_events b h s) as [rest ->]
    end.
    rewrite (bind_events _ _ _ _ _ _ (Hprobe _)).
    rewrite Hdt.
    rewrite (bind_events _ _ _ tt _ [EvGet url]) by reflexivity.
    simpl. rewrite <- !app_assoc. simpl. eauto.
  - intros resp sizes fs1 t Hh Hg Hs Hb Hfit p Ho.
    apply (direct_download_transfer E url out_dir fs filename resp sizes fs1 t);
      try assumption.
    destruct (http_head E url) as [h|e]; [|exact Hh].
    unfold declared_too_large. now rewrite (proj2 (Z.ltb_ge _ _) Hh).
Qed.

(** C3: when the body received so far fits the ceiling and the next
    chunk takes the running total above it, [direct_download] stops at
    once: it logs that the limit was exceeded (the line that stands for
    the TransferExceededLimit failure), removes the output file and
    returns [None], reading no further chunk; the file is not on disk
    afterwards and no other path has changed.  The bytes counted are
    those received, whatever the probe declared. *)
Theorem C3_ceiling E url out_dir fs filename resp pre n rest fs1 t :
  pick_filename_from_url E url = Ret filename ->
  probe_passes E url ->
  http_get E url = Ret resp ->
  (status_code resp < 400)%Z ->
  body resp = map Chunk pre ++ Chunk n :: rest ->
  (sum_N pre <= MAX_DIRECT_DOWNLOAD_BYTES)%N ->
  (MAX_DIRECT_DOWNLOAD_BYTES < sum_N pre + n)%N ->
  let p := with_extension E (PyPath.join out_dir filename) (content_type resp) in
  Disk.open_wb (now E) p fs = (Ret tt, fs1, t) ->
  exists fs' evs,
    direct_download E url out_dir fs = (Ret None, fs', evs) /\
    evs = EvEnter DirectDownload url out_dir :: EvHead url ::
          head_log E url ++ [EvGet url; EvOpen p] ++ received p pre ++
          [EvRead n; EvLog (LogExceededLimit url); EvRemove p;
           EvLeave DirectDownload (Ret None)] /\
    reasons evs = [TransferExceededLimit] /\
    fs' !! p = None /\
    (forall q, q <> p -> fs' !! q = fs !! q) /\
    opened evs = [p] /\
    reads evs = pre ++ [n] /\
    written evs = sum_N pre /\
    In (EvRemove p) evs.
Proof.
  intros Hp Hh Hg Hs Hb Hfit Hover p Ho.
  apply probe_passes_plain in Hh.
  rewrite (direct_download_receive E url out_dir fs filename resp fs1 t Hp Hh Hg Hs Ho).
  fold p. cbv zeta.
  destruct (open_wb_inv _ _ _ _ _ _ Ho) as [(_ & Hdots & _ & -> & ->)|(e & [=] & _)].
  rewrite Hb.
  rewrite (receive_chunks url p pre (Chunk n :: rest) 0%N _
             {| f_size := 0; f_mtime := now E |} (lookup_insert_eq _ _ _) ltac:(lia)).
  rewrite receive_unfold. cbn [f_size f_mtime]. rewrite !N.add_0_l.
  assert (Hn0 : (n =? 0)%N = false) by (apply N.eqb_neq; lia).
  assert (Hlim : (MAX_DIRECT_DOWNLOAD_BYTES <? sum_N pre + n)%N = true)
    by (apply N.ltb_lt; lia).
  unfold bind, emit, Disk.exists_, Disk.remove, ret. rewrite Hn0, Hlim.
  rewrite (node_at_plain _ _ Hdots), lookup_insert_eq. cbv beta iota.
  rewrite (node_at_plain _ _ Hdots), lookup_insert_eq.
  destruct (head_log_plain E url) as (Hr1 & Ho1 & Hd1 & Hw1).
  eexists. eexists. split; [reflexivity|].
  split; [simpl; now rewrite <- !app_assoc|].
  simpl. rewrite ?reasons_app, ?opened_app, ?reads_app, ?written_app.
  rewrite Hr1, Ho1, Hd1, Hw1. simpl.
  rewrite ?reasons_app, ?opened_app, ?reads_app, ?written_app.
  rewrite ?received_reasons, ?received_opened, ?received_reads, ?received_written. simpl.
  split; [reflexivity|]. split; [apply lookup_delete_eq|]. split.
  { intros q Hq. now rewrite lookup_delete_ne, !lookup_insert_ne by congruence. }
  split; [reflexivity|]. split; [now rewrite ?app_nil_r|]. split; [lia|].
  do 2 right. rewrite ?in_app_iff. right. simpl. rewrite ?in_app_iff. simpl. tauto.
Qed.

Lemma written_prefix pre suf : (written pre <= written (pre ++ suf))%N.
Proof. rewrite written_app. lia. Qed.

(** C9: all through a call of [direct_download] the bytes written stay
    within [MAX_DIRECT_DOWNLOAD_BYTES], and a path it returns names a
    file of at most that size. *)
Theorem C9_bounded_writes E url out_dir fs :
  let '(r, fs', evs) := direct_download E url out_dir fs in
  (forall pre suf, evs = pre ++ suf -> (written pre <= MAX_DIRECT_DOWNLOAD_BYTES)%N) /\
  (forall p, r = Ret (Some p) ->
     exists f, fs' !! p = Some (File f) /\ (f_size f <= MAX_DIRECT_DOWNLOAD_BYTES)%N).
Proof.
  destruct (direct_download E url out_dir fs) as [[r fs'] evs] eqn:Hrun.
  destruct (direct_download_inv _ _ _ _ _ _ _ Hrun) as (inner & -> & _ & Hw & _ & Hcases).
  split.
  - intros pre suf Heq. pose proof (written_prefix pre suf) as Hle.
    rewrite <- Heq in Hle. simpl in Hle. rewrite written_app in Hle. simpl in Hle. lia.
  - intros p ->.
    destruct Hcases as [(_ & [[=]|(e & [=] & _)])|(fn & resp & q & _ & _ & _ & _ & _ & Hres)].
    destruct Hres as [([= ->] & Hf)|[([=] & _)|(e & [=] & _)]]. exact Hf.
Qed.

Lemma with_extension_guess E p ct e :
  PyStr.contains PyPath.dot (PyPath.basename p) = false ->
  PyStr.truthy ct = true ->
  guess_extension E ct = Some (String PyPath.dot e) ->
  PyStr.contains PyPath.slash e = false ->
  with_extension E p ct = (p ++ String PyPath.dot e)%string.
Proof.
  intros Hp Hct Hg He. unfold with_extension. rewrite Hp, Hct, Hg. simpl.
  rewrite endswith_extension; [reflexivity | assumption | exact He].
Qed.

Lemma with_extension_none E p ct :
  guess_extension E ct = None -> with_extension E p ct = p.
Proof.
  intros Hg. unfold with_extension. rewrite Hg.
  destruct (negb _ && _); reflexivity.
Qed.

Lemma with_extension_untyped E p : with_extension E p EmptyString = p.
Proof. unfold with_extension. now rewrite andb_false_r. Qed.

(** The one path a call opens or returns. *)
Lemma direct_download_path E url out_dir fs filename resp :
  pick_filename_from_url E url = Ret filename ->
  http_get E url = Ret resp ->
  let '(r, fs', evs) := direct_download E url out_dir fs in
  forall q, In (EvOpen q) evs \/ r = Ret (Some q) ->
    q = with_extension E (PyPath.join out_dir filename) (content_type resp).
Proof.
  intros Hp Hg.
  destruct (direct_download E url out_dir fs) as [[r fs'] evs] eqn:Hrun.
  destruct (direct_download_inv _ _ _ _ _ _ _ Hrun) as (inner & -> & _ & _ & _ & Hcases).
  intros q Hq.
  destruct Hcases as [(Ho & Hr)|(fn & resp' & p & Hp' & Hg' & -> & _ & Ho & Hres)].
  - destruct Hq as [Hq| ->].
    + apply opened_In in Hq. simpl in Hq. rewrite opened_app, Ho in Hq. destruct Hq.
    + destruct Hr as [[=]|(e & [=] & _)].
  - rewrite Hp in Hp'. rewrite Hg in Hg'. simplify_eq.
    destruct Hq as [Hq| ->].
    + apply opened_In in Hq. simpl in Hq. rewrite opened_app, Ho in Hq.
      destruct Hq as [<-|[]]. reflexivity.
    + destruct Hres as [([= ->] & _)|[([=] & _)|(e & [=] & _)]]. reflexivity.
Qed.

(** The output file is opened once the probe has let the transfer start
    and the response is not an error. *)
Lemma direct_download_opens E url out_dir fs filename resp fs1 t :
  pick_filename_from_url E url = Ret filename ->
  probe_passes E url ->
  http_get E url = Ret resp ->
  (status_code resp < 400)%Z ->
  let p := with_extension E (PyPath.join out_dir filename) (content_type resp) in
  Disk.open_wb (now E) p fs = (Ret tt, fs1, t) ->
  In (EvOpen p) (direct_download E url out_dir fs).2.
Proof.
  intros Hp Hh Hg Hs p Ho. apply probe_passes_plain in Hh.
  rewrite (direct_download_receive E url out_dir fs filename resp fs1 t Hp Hh Hg Hs Ho).
  fold p. cbv zeta.
  assert (Hin : forall tl, In (EvOpen p)
            ((EvEnter DirectDownload url out_dir :: EvHead url ::
              head_log E url ++ [EvGet url; EvOpen p]) ++ tl)).
  { intros tl. apply in_or_app. left. do 2 right. apply in_or_app. right. simpl. tauto. }
  destruct (receive url p (body resp) 0 fs1) as [[[[v|]|e] fs2] t2]; simpl snd;
    try apply Hin.
  destruct (is_Exception e); [destruct (Disk.node_at fs2 p) as [[f|m]|]|]; apply Hin.
Qed.

(** C6: [direct_download] takes the media type from the [content-type]
    header of the response: the text before the first semicolon, with
    the white space around it removed.  When the file name picked from
    the URL has no dot and the media type is not empty, the extension
    [mimetypes] guesses for it (a dot followed by characters other than a
    slash) is appended to the output path; when no extension is guessed,
    or the media type is empty or the header missing, the path is left as
    it is.  The path so formed is the only one the call opens or returns,
    and it is opened whenever the probe lets the transfer start, the
    response is not an error and the file can be created. *)
Theorem C6_guessed_extension E url out_dir fs filename resp :
  pick_filename_from_url E url = Ret filename ->
  PyStr.contains PyPath.dot filename = false ->
  http_get E url = Ret resp ->
  let out_path := PyPath.join out_dir filename in
  let '(r, fs', evs) := direct_download E url out_dir fs in
  let output p :=
    (forall q, In (EvOpen q) evs \/ r = Ret (Some q) -> q = p) /\
    (forall fs1 t,
       probe_passes E url -> (status_code resp < 400)%Z ->
       Disk.open_wb (now E) p fs = (Ret tt, fs1, t) -> In (EvOpen p) evs) in
  (forall ws1 mt ws2 params,
     headers resp !! "content-type" =
       Some (padding ws1 ++ mt ++ padding ws2 ++ params)%string ->
     blank ws1 -> blank ws2 -> PyStr.plain mt = true ->
     params = EmptyString \/ (exists rest, params = String ";" rest) ->
     (forall e,
        mt <> EmptyString ->
        guess_extension E mt = Some (String PyPath.dot e) ->
        PyStr.contains PyPath.slash e = false ->
        output (out_path ++ String PyPath.dot e)%string) /\
     (mt = EmptyString \/ guess_extension E mt = None -> output out_path)) /\
  (headers resp !! "content-type" = None -> output out_path).
Proof.
  intros Hp Hdot Hg out_path.
  pose proof (direct_download_path E url out_dir fs filename resp Hp Hg) as Hq.
  pose proof (direct_download_opens E url out_dir fs filename resp) as Hopen.
  destruct (direct_download E url out_dir fs) as [[r fs'] evs].
  cbv zeta. simpl snd in Hopen. fold out_path in Hq, Hopen.
  assert (Hbase : PyStr.contains PyPath.dot (PyPath.basename out_path) = false).
  { unfold out_path. rewrite basename_join; [assumption|].
    eapply pick_filename_no_slash, Hp. }
  assert (Hout : forall p,
            with_extension E out_path (content_type resp) = p ->
            (forall q, In (EvOpen q) evs \/ r = Ret (Some q) -> q = p) /\
            (forall fs1 t,
               probe_passes E url -> (status_code resp < 400)%Z ->
               Disk.open_wb (now E) p fs = (Ret tt, fs1, t) -> In (EvOpen p) evs)).
  { intros p <-. split; [exact Hq|]. intros fs1 t Hh Hs Ho.
    exact (Hopen fs1 t Hp Hh Hg Hs Ho). }
  split.
  - intros ws1 mt ws2 params Hhdr Hw1 Hw2 Hmt Hpar.
    rewrite <- (content_type_header resp ws1 mt ws2 params Hhdr Hw1 Hw2 Hmt Hpar).
    split.
    + intros e Hne Hge He. apply Hout. apply with_extension_guess; try assumption.
      destruct (content_type resp); [now destruct Hne|reflexivity].
    + intros [Hmt0|Hgn]; apply Hout.
      * rewrite Hmt0. apply with_extension_untyped.
      * now apply with_extension_none.
  - intros Hnone. apply Hout. rewrite (content_type_missing resp Hnone).
    apply with_extension_untyped.
Qed.

(** ** Faults inside the two attempts *)

Lemma run_yt_dlp_spawn_fault E url out_dir fs e :
  spawn E (yt_dlp_cmd url out_dir) = Raise e ->
  run_yt_dlp E url out_dir fs =
    yt_dlp_fault_outcome url out_dir e fs [EvSpawn (yt_dlp_cmd url out_dir)].
Proof.
  intros Hs.
  unfold run_yt_dlp, yt_dlp_fault_outcome, traced, try_except, bind,
    create_subprocess_exec, emit, of_res, ret.
  rewrite Hs. simpl. destruct e; reflexivity.
Qed.

Lemma run_yt_dlp_communicate_fault E url out_dir fs proc e :
  spawn E (yt_dlp_cmd url out_dir) = Ret proc ->
  p_result proc = Raise e ->
  run_yt_dlp E url out_dir fs =
    yt_dlp_fault_outcome url out_dir e (p_effect proc fs)
      [EvSpawn (yt_dlp_cmd url out_dir)].
Proof.
  intros Hs Hr.
  unfold run_yt_dlp, yt_dlp_fault_outcome, traced, try_except, bind,
    create_subprocess_exec, emit, of_res, communicate, ret.
  rewrite Hs. simpl. rewrite Hr. simpl. destruct e; reflexivity.
Qed.

Lemma run_yt_dlp_decode_fault E url out_dir fs proc rc :
  spawn E (yt_dlp_cmd url out_dir) = Ret proc ->
  p_result proc = Ret (rc, None) -> rc <> 0%Z ->
  run_yt_dlp E url out_dir fs =
    yt_dlp_fault_outcome url out_dir UnicodeDecodeError (p_effect proc fs)
      [EvSpawn (yt_dlp_cmd url out_dir)].
Proof.
  intros Hs Hr Hrc.
  unfold run_yt_dlp, yt_dlp_fault_outcome, traced, try_except, bind,
    create_subprocess_exec, emit, of_res, communicate, ret, decode, raise.
  rewrite Hs. simpl. rewrite Hr. simpl.
  apply Z.eqb_neq in Hrc. rewrite Hrc. reflexivity.
Qed.

Lemma run_yt_dlp_listdir_fault E url out_dir fs proc err :
  spawn E (yt_dlp_cmd url out_dir) = Ret proc ->
  p_result proc = Ret (0%Z, err) ->
  Disk.is_dir (p_effect proc fs) out_dir = false ->
  run_yt_dlp E url out_dir fs =
    yt_dlp_fault_outcome url out_dir
      (match Disk.node_at (p_effect proc fs) out_dir with
       | None => FileNotFoundError
       | Some _ => NotADirectoryError
       end)
      (p_effect proc fs) [EvSpawn (yt_dlp_cmd url out_dir)].
Proof.
  intros Hs Hr Hd.
  unfold run_yt_dlp, yt_dlp_fault_outcome, traced, try_except, bind,
    create_subprocess_exec, emit, of_res, communicate, ret, Disk.listdir.
  rewrite Hs. simpl. rewrite Hr. simpl.
  unfold Disk.is_dir in Hd.
  destruct (Disk.node_at (p_effect proc fs) out_dir) as [[f|m]|]; try discriminate;
    reflexivity.
Qed.

Lemma direct_download_head_fault E url out_dir fs filename e :
  pick_filename_from_url E url = Ret filename ->
  http_head E url = Raise e -> is_Exception e = false ->
  direct_download E url out_dir fs =
    (Raise e, fs,
     [EvEnter DirectDownload url out_dir; EvHead url; EvLeave DirectDownload (Raise e)]).
Proof.
  intros Hp Hh He.
  unfold direct_download, probe, traced, with_local, try_except, bind, of_res, emit, ret,
    raise, get_local, set_local, on_state, zoom.
  rewrite Hp. simpl. rewrite Hh. simpl. rewrite He. simpl. rewrite He. reflexivity.
Qed.

Lemma direct_download_get_fault E url out_dir fs filename e :
  pick_filename_from_url E url = Ret filename ->
  probe_passes E url ->
  http_get E url = Raise e ->
  direct_download E url out_dir fs =
    direct_fault_outcome url out_dir (PyPath.join out_dir filename) e fs
      (EvHead url :: head_log E url ++ [EvGet url]).
Proof.
  intros Hp Hh Hg. apply probe_passes_plain in Hh.
  unfold direct_download, direct_fault_outcome, probe, traced, with_local, try_except,
    bind, of_res, emit, ret, raise, get_local, set_local, on_state, zoom, Disk.exists_,
    Disk.remove, head_log.
  rewrite Hp. simpl.
  destruct (http_head E url) as [h|e0]; simpl; rewrite Hh; simpl; rewrite Hg; simpl;
    destruct (is_Exception e) eqn:He; simpl; try reflexivity;
    destruct (Disk.node_at fs (PyPath.join out_dir filename)) as [[f|m]|] eqn:Hn; simpl;
    rewrite ?Hn; simpl; rewrite ?Hn; reflexivity.
Qed.

Lemma direct_download_open_fault E url out_dir fs filename resp e fs1 t :
  pick_filename_from_url E url = Ret filename ->
  probe_passes E url ->
  http_get E url = Ret resp ->
  (status_code resp < 400)%Z ->
  let p := with_extension E (PyPath.join out_dir filename) (content_type resp) in
  Disk.open_wb (now E) p fs = (Raise e, fs1, t) ->
  is_Exception e = true /\
  direct_download E url out_dir fs =
    direct_fault_outcome url out_dir p e fs (EvHead url :: head_log E url ++ [EvGet url]).
Proof.
  intros Hp Hh Hg Hs p Ho. apply probe_passes_plain in Hh.
  destruct (open_wb_inv _ _ _ _ _ _ Ho) as [([=] & _)|(e' & [= <-] & He & -> & ->)].
  split; [exact He|].
  assert (Hst : (400 <=? status_code resp)%Z = false) by (apply Z.leb_gt; lia).
  unfold direct_download, direct_fault_outcome, probe, traced, with_local, try_except,
    bind, of_res, emit, ret, raise, get_local, set_local, on_state, zoom, Disk.exists_,
    Disk.remove, head_log.
  rewrite Hp. simpl.
  destruct (http_head E url) as [h|e0]; simpl; rewrite Hh; simpl; rewrite Hg; simpl;
    rewrite Hst; simpl; fold p; rewrite Ho; simpl; rewrite He; simpl;
    destruct (Disk.node_at fs p) as [[f|m]|] eqn:Hn; simpl;
    rewrite ?Hn; simpl; rewrite ?Hn; reflexivity.
Qed.

Lemma direct_download_body_fault E url out_dir fs filename resp pre e rest fs1 t :
  pick_filename_from_url E url = Ret filename ->
  probe_passes E url ->
  http_get E url = Ret resp ->
  (status_code resp < 400)%Z ->
  body resp = map Chunk pre ++ Fault e :: rest ->
  (sum_N pre <= MAX_DIRECT_DOWNLOAD_BYTES)%N ->
  let p := with_extension E (PyPath.join out_dir filename) (content_type resp) in
  Disk.open_wb (now E) p fs = (Ret tt, fs1, t) ->
  direct_download E url out_dir fs =
    if is_Exception e then
      (Ret None, delete p fs,
       EvEnter DirectDownload url out_dir :: EvHead url ::
       head_log E url ++ [EvGet url; EvOpen p] ++ received p pre ++
       [EvLog (LogDirectFailed url e); EvRemove p; EvLeave DirectDownload (Ret None)])
    else
      (Raise e, <[p := File {| f_size := sum_N pre; f_mtime := now E |}]> fs,
       EvEnter DirectDownload url out_dir :: EvHead url ::
       head_log E url ++ [EvGet url; EvOpen p] ++ received p pre ++
       [EvLeave DirectDownload (Raise e)]).
Proof.
  intros Hp Hh Hg Hs Hb Hfit p Ho. apply probe_passes_plain in Hh.
  rewrite (direct_download_receive E url out_dir fs filename resp fs1 t Hp Hh Hg Hs Ho).
  fold p. cbv zeta.
  destruct (open_wb_inv _ _ _ _ _ _ Ho) as [(_ & Hdots & _ & -> & ->)|(e' & [=] & _)].
  rewrite Hb.
  rewrite (receive_chunks url p pre (Fault e :: rest) 0%N _
             {| f_size := 0; f_mtime := now E |} (lookup_insert_eq _ _ _) ltac:(lia)).
  rewrite receive_unfold. unfold raise. cbn [f_size f_mtime]. rewrite !N.add_0_l.
  assert (Hdisk :
    <[p := File {| f_size := sum_N pre; f_mtime := now E |}]>
      (<[p := File {| f_size := 0; f_mtime := now E |}]> fs) =
    <[p := File {| f_size := sum_N pre; f_mtime := now E |}]> fs).
  { apply map_eq. intros k. destruct (decide (p = k)) as [<-|Hne].
    - now rewrite !lookup_insert_eq.
    - now rewrite !lookup_insert_ne. }
  rewrite Hdisk.
  destruct (is_Exception e).
  - rewrite (node_at_plain _ _ Hdots), lookup_insert_eq.
    f_equal; [f_equal|].
    + apply map_eq. intros k. destruct (decide (p = k)) as [<-|Hne].
      * now rewrite !lookup_delete_eq.
      * now rewrite !lookup_delete_ne, lookup_insert_ne.
    + simpl. now rewrite <- ?app_assoc.
  - f_equal. simpl. now rewrite <- ?app_assoc.
Qed.

(** C10, amended: an exception of class [Exception] raised inside the
    [try] of an attempt is caught there, logged, and turned into the
    [None] result; an exception of any other class ([CancelledError],
    [KeyboardInterrupt]) leaves the call.  For [run_yt_dlp] the faults
    are those of starting the tool, of waiting for it, of decoding its
    error output and of listing the working directory.  For
    [direct_download], once the file name is picked, they are those of
    the probe, of the [GET] request, of opening the output file and of
    the body stream; the handler also removes what is at the output
    path, so that a file opened and partly written is gone when [None]
    is returned (a directory at the output path makes the removal itself
    raise).  In all, [run_yt_dlp] lets no exception of class [Exception]
    reach its caller and returns [None] whenever it logged one; so does
    [direct_download] when no directory sits where the output file goes;
    and whenever [direct_download] returns [None], no file it opened is
    left on disk. *)
Theorem C10_caught_Exception E url out_dir fs :
  let cmd := yt_dlp_cmd url out_dir in
  (* run_yt_dlp *)
  ((forall e,
      spawn E cmd = Raise e ->
      run_yt_dlp E url out_dir fs = yt_dlp_fault_outcome url out_dir e fs [EvSpawn cmd]) /\
   (forall proc e,
      spawn E cmd = Ret proc -> p_result proc = Raise e ->
      run_yt_dlp E url out_dir fs =
        yt_dlp_fault_outcome url out_dir e (p_effect proc fs) [EvSpawn cmd]) /\
   (forall proc rc,
      spawn E cmd = Ret proc -> p_result proc = Ret (rc, None) -> rc <> 0%Z ->
      run_yt_dlp E url out_dir fs =
        yt_dlp_fault_outcome url out_dir UnicodeDecodeError (p_effect proc fs)
          [EvSpawn cmd]) /\
   (forall proc err,
      spawn E cmd = Ret proc -> p_result proc = Ret (0%Z, err) ->
      Disk.is_dir (p_effect proc fs) out_dir = false ->
      run_yt_dlp E url out_dir fs =
        yt_dlp_fault_outcome url out_dir
          (match Disk.node_at (p_effect proc fs) out_dir with
           | None => FileNotFoundError
           | Some _ => NotADirectoryError
           end)
          (p_effect proc fs) [EvSpawn cmd]) /\
   (let '(r, fs', evs) := run_yt_dlp E url out_dir fs in
    (forall e, r = Raise e -> is_Exception e = false) /\
    (forall l, In (EvLog l) evs -> r = Ret None))) /\
  (* direct_download *)
  (forall filename,
     pick_filename_from_url E url = Ret filename ->
     let out_path := PyPath.join out_dir filename in
     (forall e,
        http_head E url = Raise e -> is_Exception e = false ->
        direct_download E url out_dir fs =
          (Raise e, fs,
           [EvEnter DirectDownload url out_dir; EvHead url;
            EvLeave DirectDownload (Raise e)])) /\
     (forall e,
        probe_passes E url -> http_get E url = Raise e ->
        direct_download E url out_dir fs =
          direct_fault_outcome url out_dir out_path e fs
            (EvHead url :: head_log E url ++ [EvGet url])) /\
     (forall resp,
        probe_passes E url -> http_get E url = Ret resp -> (status_code resp < 400)%Z ->
        let p := with_extension E out_path (content_type resp) in
        (forall e fs1 t,
           Disk.open_wb (now E) p fs = (Raise e, fs1, t) ->
           is_Exception e = true /\
           direct_download E url out_dir fs =
             direct_fault_outcome url out_dir p e fs
               (EvHead url :: head_log E url ++ [EvGet url])) /\
        (forall pre e rest fs1 t,
           body resp = map Chunk pre ++ Fault e :: rest ->
           (sum_N pre <= MAX_DIRECT_DOWNLOAD_BYTES)%N ->
           Disk.open_wb (now E) p fs = (Ret tt, fs1, t) ->
           direct_download E url out_dir fs =
             if is_Exception e then
               (Ret None, delete p fs,
                EvEnter DirectDownload url out_dir :: EvHead url ::
                head_log E url ++ [EvGet url; EvOpen p] ++ received p pre ++
                [EvLog (LogDirectFailed url e); EvRemove p;
                 EvLeave DirectDownload (Ret None)])
             else
               (Raise e, <[p := File {| f_size := sum_N pre; f_mtime := now E |}]> fs,
                EvEnter DirectDownload url out_dir :: EvHead url ::
                head_log E url ++ [EvGet url; EvOpen p] ++ received p pre ++
                [EvLeave DirectDownload (Raise e)]))) /\
     (Disk.is_dir fs out_path = false ->
      (forall resp, http_get E url = Ret resp ->
         Disk.is_dir fs (with_extension E out_path (content_type resp)) = false) ->
      let '(r, fs', evs) := direct_download E url out_dir fs in
      (forall e, r = Raise e -> is_Exception e = false) /\
      (forall e, In (EvLog (LogDirectFailed url e)) evs ->
         is_Exception e = true /\ r = Ret None) /\
      (r = Ret None -> forall q, In (EvOpen q) evs -> fs' !! q = None))).
Proof.
  intros cmd. split.
  - split; [exact (run_yt_dlp_spawn_fault E url out_dir fs)|].
    split; [exact (run_yt_dlp_communicate_fault E url out_dir fs)|].
    split; [exact (run_yt_dlp_decode_fault E url out_dir fs)|].
    split; [exact (run_yt_dlp_listdir_fault E url out_dir fs)|].
    destruct (run_yt_dlp E url out_dir fs) as [[r fs'] evs] eqn:Hrun.
    destruct (run_yt_dlp_inv _ _ _ _ _ _ _ Hrun) as (inner & -> & _ & Hr & Hl).
    split; [exact Hr|]. intros l [[=]|Hin]. apply in_app_iff in Hin as [Hin|[[=]|[]]]. eauto.
  - intros filename Hp out_path.
    split; [intros e; exact (direct_download_head_fault E url out_dir fs filename e Hp)|].
    split; [intros e Hh Hg; exact (direct_download_get_fault E url out_dir fs filename e Hp Hh Hg)|].
    split.
    { intros resp Hh Hg Hs p. split.
      - intros e fs1 t Ho.
        exact (direct_download_open_fault E url out_dir fs filename resp e fs1 t Hp Hh Hg Hs Ho).
      - intros pre e rest fs1 t Hb Hfit Ho.
        exact (direct_download_body_fault E url out_dir fs filename resp pre e rest fs1 t
                 Hp Hh Hg Hs Hb Hfit Ho). }
    intros Hnd0 Hnd1. subst out_path.
    destruct (direct_download E url out_dir fs) as [[r fs'] evs] eqn:Hrun.
    destruct (direct_download_inv _ _ _ _ _ _ _ Hrun)
      as (inner & -> & _ & _ & Hcaught & Hcases).
    assert (Hraise : forall e, r = Raise e -> is_Exception e = false).
    { intros e ->.
      destruct Hcases as [(_ & [[=]|(e' & [= <-] & He)])|(fn & resp & p & _ & _ & _ & _ & _ & Hres)].
      - destruct He as [He|[He|(fn & Hfn & Hs)]]; [assumption|congruence|].
        rewrite Hp in Hfn. injection Hfn as <-.
        destruct Hs as [Hs|(resp & Hg & Hs)]; [congruence|].
        rewrite (Hnd1 resp Hg) in Hs. discriminate.
      - destruct Hres as [([=] & _)|[([=] & _)|(e' & [= <-] & He)]]. assumption. }
    split; [exact Hraise|]. split.
    + intros e [[=]|Hin]. apply in_app_iff in Hin as [Hin|[[=]|[]]].
      destruct (Hcaught e Hin) as [He Hnone]. split; [assumption|].
      destruct Hnone as [Hnone|(e' & -> & He')]; [assumption|].
      rewrite (Hraise e' eq_refl) in He'. discriminate.
    + intros -> q Hq. apply opened_In in Hq. simpl in Hq. rewrite opened_app in Hq.
      destruct Hcases as [(Ho & _)|(fn & resp & p & _ & _ & _ & _ & Ho & Hres)];
        rewrite Ho in Hq; simpl in Hq; [destruct Hq|].
      destruct Hq as [<-|[]].
      destruct Hres as [([=] & _)|[(_ & Hf)|(e & [=] & _)]]. exact Hf.
Qed.

(** C1: in every call of [process_download], [run_yt_dlp] is called first
    and has returned before anything else is tried; [direct_download] is
    called, with the same URL and the same scratch directory, exactly when
    [run_yt_dlp] returned a falsy value, which it does when the tool is
    absent, when it exits with a non-zero code and when it leaves no
    file.  (No attempt is made when the first status message cannot be
    sent.) *)
Theorem C1_fallback_order E u url st w :
  (let '(r, w', evs) := process_download E u url st w in
   let d := mkdtemp_name E in
   (calls evs = [] /\ st = None /\ telegram E (reply_text MSG_downloading None) <> None) \/
   (exists r1 r2,
      calls evs =
        EvEnter RunYtDlp url d :: EvLeave RunYtDlp r1 ::
        (if failed r1 then [EvEnter DirectDownload url d; EvLeave DirectDownload r2] else []))) /\
  (forall out_dir fs,
     (spawn E (yt_dlp_cmd url out_dir) = Raise FileNotFoundError ->
      failed (run_yt_dlp E url out_dir fs).1.1 = true) /\
     (forall proc rc err,
        spawn E (yt_dlp_cmd url out_dir) = Ret proc ->
        p_result proc = Ret (rc, err) -> rc <> 0%Z ->
        failed (run_yt_dlp E url out_dir fs).1.1 = true) /\
     (forall proc err,
        spawn E (yt_dlp_cmd url out_dir) = Ret proc ->
        p_result proc = Ret (0%Z, err) ->
        Disk.is_dir (p_effect proc fs) out_dir = true ->
        Disk.entries out_dir (p_effect proc fs) = [] ->
        failed (run_yt_dlp E url out_dir fs).1.1 = true)).
Proof.
  split; [apply fallback_calls|].
  intros out_dir fs.
  destruct (run_yt_dlp_failures E url out_dir fs) as (H1 & H2 & H3).
  split; [|split].
  - intros Hs. now rewrite (H1 Hs).
  - intros proc rc err Hs Hr Hrc. now rewrite (H2 proc rc err Hs Hr Hrc).
  - intros proc err Hs Hr Hd Hn. now rewrite (H3 proc err Hs Hr Hd Hn).
Qed.

Lemma C1_witness :
  calls (process_download E_offline TelegramUpdate sample_url None sample_world).2 =
    [EvEnter RunYtDlp sample_url sample_dir; EvLeave RunYtDlp (Ret None);
     EvEnter DirectDownload sample_url sample_dir; EvLeave DirectDownload (Ret None)] /\
  calls (process_download E_tool TelegramUpdate sample_url None sample_world).2 =
    [EvEnter RunYtDlp sample_url sample_dir;
     EvLeave RunYtDlp (Ret (Some "/tmp/tmpx1/clip.mp4"))] /\
  failed (run_yt_dlp E_offline sample_url sample_dir sample_disk).1.1 = true /\
  failed (run_yt_dlp E_tool_error sample_url sample_dir sample_disk).1.1 = true /\
  failed (run_yt_dlp E_tool_silent sample_url sample_dir sample_disk).1.1 = true.
Proof.
  split; [vm_compute; reflexivity|]. split; [vm_compute; reflexivity|].
  split; [|split].
  - apply (proj1 (proj2 (C1_fallback_order E_offline TelegramUpdate sample_url None
                           sample_world) sample_dir sample_disk)).
    reflexivity.
  - apply (proj1 (proj2 (proj2 (C1_fallback_order E_tool_error TelegramUpdate sample_url None
                                  sample_world) sample_dir sample_disk))
             {| p_effect := fun fs => fs;
                p_result := Ret (1%Z, Some "ERROR: Unsupported URL") |}
             1%Z (Some "ERROR: Unsupported URL")).
    + reflexivity.
    + reflexivity.
    + discriminate.
  - apply (proj2 (proj2 (proj2 (C1_fallback_order E_tool_silent TelegramUpdate sample_url None
                                  sample_world) sample_dir sample_disk))
             {| p_effect := fun fs => fs; p_result := Ret (0%Z, Some EmptyString) |}
             (Some EmptyString)).
    + reflexivity.
    + reflexivity.
    + vm_compute. reflexivity.
    + vm_compute. reflexivity.
Defined.


Lemma C3_witness :
  exists fs' evs,
    direct_download E_stream90 sample_url sample_dir sample_disk = (Ret None, fs', evs) /\
    (exists before,
       evs = before ++
             [EvRead CHUNK_SIZE; EvLog (LogExceededLimit sample_url);
              EvRemove "/tmp/tmpx1/clip"; EvLeave DirectDownload (Ret None)]) /\
    reasons evs = [TransferExceededLimit] /\
    fs' !! "/tmp/tmpx1/clip" = None /\
    fs' !! sample_dir = Some (Dir 0) /\
    opened evs = ["/tmp/tmpx1/clip"] /\
    reads evs = repeat CHUNK_SIZE 320 ++ [CHUNK_SIZE] /\
    written evs = MAX_DIRECT_DOWNLOAD_BYTES.
Proof.
  destruct (C3_ceiling E_stream90 sample_url sample_dir sample_disk "clip"
              (sample_response 200 [] (repeat (Chunk CHUNK_SIZE) 360))
              (repeat CHUNK_SIZE 320) CHUNK_SIZE (repeat (Chunk CHUNK_SIZE) 39)
              (<["/tmp/tmpx1/clip" := File {| f_size := 0; f_mtime := 1000 |}]> sample_disk)
              [EvOpen "/tmp/tmpx1/clip"])
    as (fs' & evs & Hrun & Hevs & Hreasons & Hgone & Hframe & Hopened & Hreads & Hwritten & _).
  - reflexivity.
  - vm_compute. repeat split.
  - reflexivity.
  - reflexivity.
  - reflexivity.
  - vm_compute. discriminate.
  - vm_compute. reflexivity.
  - vm_compute. reflexivity.
  - exists fs', evs. split; [exact Hrun|]. split.
    { eexists. rewrite Hevs. rewrite !app_assoc, !app_comm_cons. reflexivity. }
    split; [exact Hreasons|]. split; [exact Hgone|]. split.
    { rewrite (Hframe sample_dir); [reflexivity | discriminate]. }
    split; [exact Hopened|]. split; [exact Hreads|]. exact Hwritten.
Defined.

Lemma C4_witness :
  direct_download E_too_large sample_url sample_dir sample_disk =
    (Ret None, sample_disk,
     [EvEnter DirectDownload sample_url sample_dir; EvHead sample_url;
      EvLog (LogFileTooLarge "209715200" sample_url);
      EvLeave DirectDownload (Ret None)]) /\
  (exists rest,
     (direct_download E_offline sample_url sample_dir sample_disk).2 =
       EvEnter DirectDownload sample_url sample_dir :: EvHead sample_url ::
       EvLog (LogHeadFailed sample_url HTTPError) :: EvGet sample_url :: rest) /\
  (exists rest,
     (direct_download E_not_found sample_url sample_dir sample_disk).2 =
       EvEnter DirectDownload sample_url sample_dir :: EvHead sample_url ::
       EvGet sample_url :: rest) /\
  direct_download E_head_fails sample_url sample_dir sample_disk =
    (Ret (Some "/tmp/tmpx1/clip.mp4"),
     <["/tmp/tmpx1/clip.mp4" := File {| f_size := 15; f_mtime := 1000 |}]> sample_disk,
     [EvEnter DirectDownload sample_url sample_dir; EvHead sample_url;
      EvLog (LogHeadFailed sample_url HTTPError); EvGet sample_url;
      EvOpen "/tmp/tmpx1/clip.mp4";
      EvRead 10; EvWrite "/tmp/tmpx1/clip.mp4" 10; EvRead 0;
      EvRead 5; EvWrite "/tmp/tmpx1/clip.mp4" 5;
      EvLeave DirectDownload (Ret (Some "/tmp/tmpx1/clip.mp4"))]).
Proof.
  split; [|split; [|split]].
  - apply (proj1 (C4_probe E_too_large sample_url sample_dir sample_disk "clip" eq_refl)
             (sample_response 200 [("content-length", "209715200")] [])).
    + reflexivity.
    + reflexivity.
    + reflexivity.
    + reflexivity.
    + vm_compute. lia.
    + vm_compute. reflexivity.
  - apply (proj1 (proj2 (C4_probe E_offline sample_url sample_dir sample_disk "clip" eq_refl))).
    + reflexivity.
    + reflexivity.
  - apply (proj1 (proj2 (proj2 (C4_probe E_not_found sample_url sample_dir sample_disk "clip"
                                   eq_refl)))
             (sample_response 404 [] [])).
    + reflexivity.
    + vm_compute. discriminate.
  - apply (proj2 (proj2 (proj2 (C4_probe E_head_fails sample_url sample_dir sample_disk "clip"
                                   eq_refl)))
             (sample_response 200 [("content-type", "video/mp4")]
                [Chunk 10; Chunk 0; Chunk 5])
             [10; 0; 5]%N
             (<["/tmp/tmpx1/clip.mp4" := File {| f_size := 0; f_mtime := 1000 |}]> sample_disk)
             [EvOpen "/tmp/tmpx1/clip.mp4"]).
    + reflexivity.
    + reflexivity.
    + reflexivity.
    + reflexivity.
    + vm_compute. discriminate.
    + vm_compute. reflexivity.
Defined.

Lemma C5_witness :
  let '(r, w', evs) := process_download E_not_found TelegramUpdate sample_url None
                         sample_world in
  ui evs = [EvUI (reply_text MSG_downloading None);
            EvUI (edit_text MSG_failed (Some retry_keyboard))] /\
  r = Ret tt.
Proof.
  pose proof (C5_unified_failure E_not_found TelegramUpdate sample_url None sample_world None)
    as H.
  assert (Hc : In (EvLeave DirectDownload (Ret None))
                 (process_download E_not_found TelegramUpdate sample_url None sample_world).2).
  { apply (List.filter_In is_call). vm_compute. tauto. }
  destruct (process_download E_not_found TelegramUpdate sample_url None sample_world)
    as [[r w'] evs].
  apply H; [exact Hc | reflexivity].
Defined.

Lemma C6_witness :
  headers (sample_response 200
             [("content-type",
               (" video/mp4" ++ PyStr.of_bytes [0xC2; 0xA0]%N ++ "; codecs=avc1")%string)]
             [Chunk 10; Chunk 0; Chunk 5]) !! "content-type" =
    Some (padding [" "] ++ "video/mp4" ++ padding [PyStr.of_bytes [0xC2; 0xA0]%N] ++
          "; codecs=avc1")%string /\
  let '(r, fs', evs) := direct_download E_clip_padded sample_url sample_dir sample_disk in
  r = Ret (Some "/tmp/tmpx1/clip.mp4") /\
  In (EvOpen "/tmp/tmpx1/clip.mp4") evs /\
  forall q, In (EvOpen q) evs \/ r = Ret (Some q) ->
    q = "/tmp/tmpx1/clip.mp4" /\ PyStr.endswith q ".mp4" = true.
Proof.
  assert (Hhdr :
    headers (sample_response 200
               [("content-type",
                 (" video/mp4" ++ PyStr.of_bytes [0xC2; 0xA0]%N ++ "; codecs=avc1")%string)]
               [Chunk 10; Chunk 0; Chunk 5]) !! "content-type" =
      Some (padding [" "] ++ "video/mp4" ++ padding [PyStr.of_bytes [0xC2; 0xA0]%N] ++
            "; codecs=avc1")%string) by (vm_compute; reflexivity).
  split; [exact Hhdr|].
  pose proof (C6_guessed_extension E_clip_padded sample_url sample_dir sample_disk "clip"
                (sample_response 200
                   [("content-type",
                     (" video/mp4" ++ PyStr.of_bytes [0xC2; 0xA0]%N ++ "; codecs=avc1")%string)]
                   [Chunk 10; Chunk 0; Chunk 5])
                eq_refl eq_refl eq_refl) as H.
  assert (Hr : (direct_download E_clip_padded sample_url sample_dir sample_disk).1.1
               = Ret (Some "/tmp/tmpx1/clip.mp4")) by (vm_compute; reflexivity).
  destruct (direct_download E_clip_padded sample_url sample_dir sample_disk) as [[r fs'] evs].
  simpl in Hr. cbv zeta in H. destruct H as [H _].
  assert (Hb1 : blank [" "]) by (constructor; [vm_compute; tauto | constructor]).
  assert (Hb2 : blank [PyStr.of_bytes [0xC2; 0xA0]%N])
    by (constructor; [vm_compute; tauto | constructor]).
  destruct (H [" "] "video/mp4" [PyStr.of_bytes [0xC2; 0xA0]%N] "; codecs=avc1"
              Hhdr Hb1 Hb2 eq_refl (or_intror (ex_intro _ " codecs=avc1" eq_refl)))
    as [Hguess _].
  destruct (Hguess "mp4" ltac:(discriminate) eq_refl eq_refl) as [Hq Hopen].
  split; [exact Hr|]. split.
  - apply (Hopen (<["/tmp/tmpx1/clip.mp4" := File {| f_size := 0; f_mtime := 1000 |}]>
                    sample_disk) [EvOpen "/tmp/tmpx1/clip.mp4"]).
    + vm_compute. repeat split.
    + vm_compute. reflexivity.
    + vm_compute. reflexivity.
  - intros q Hq'. rewrite (Hq q Hq'). split; reflexivity.
Defined.

Lemma C7_witness :
  (run_yt_dlp E_tool sample_url sample_dir sample_disk).1 =
    (Ret (Some "/tmp/tmpx1/clip.mp4"), two_files sample_disk) /\
  (run_yt_dlp E_tool_silent sample_url sample_dir sample_disk).1 =
    (Ret None, sample_disk).
Proof.
  split.
  - destruct (proj2 (C7_latest_output E_tool sample_url sample_dir sample_disk
                       {| p_effect := two_files; p_result := Ret (0%Z, Some EmptyString) |}
                       (Some EmptyString) eq_refl eq_refl eq_refl))
      as (n & Hn & Hrun & Hmax).
    + vm_compute. discriminate.
    + vm_compute. reflexivity.
  - apply (proj1 (C7_latest_output E_tool_silent sample_url sample_dir sample_disk
                    {| p_effect := fun fs => fs; p_result := Ret (0%Z, Some EmptyString) |}
                    (Some EmptyString) eq_refl eq_refl eq_refl)).
    vm_compute. reflexivity.
Defined.


Lemma C9_witness :
  let '(r, fs', evs) := direct_download E_clip sample_url sample_dir sample_disk in
  (written evs <= MAX_DIRECT_DOWNLOAD_BYTES)%N /\
  exists f, fs' !! "/tmp/tmpx1/clip.mp4" = Some (File f) /\
            (f_size f <= MAX_DIRECT_DOWNLOAD_BYTES)%N.
Proof.
  pose proof (C9_bounded_writes E_clip sample_url sample_dir sample_disk) as H.
  assert (Hr : (direct_download E_clip sample_url sample_dir sample_disk).1.1
               = Ret (Some "/tmp/tmpx1/clip.mp4")) by (vm_compute; reflexivity).
  destruct (direct_download E_clip sample_url sample_dir sample_disk) as [[r fs'] evs].
  simpl in Hr. destruct H as [Hpre Hfile]. split.
  - apply (Hpre evs []). symmetry. apply app_nil_r.
  - apply Hfile. exact Hr.
Defined.

Lemma C10_witness :
  run_yt_dlp E_offline sample_url sample_dir sample_disk =
    (Ret None, sample_disk,
     [EvEnter RunYtDlp sample_url sample_dir; EvSpawn (yt_dlp_cmd sample_url sample_dir);
      EvLog LogYtDlpNotFound; EvLeave RunYtDlp (Ret None)]) /\
  direct_download E_stream_fault sample_url sample_dir sample_disk =
    (Ret None, delete "/tmp/tmpx1/clip" sample_disk,
     [EvEnter DirectDownload sample_url sample_dir; EvHead sample_url; EvGet sample_url;
      EvOpen "/tmp/tmpx1/clip"; EvRead 10; EvWrite "/tmp/tmpx1/clip" 10;
      EvLog (LogDirectFailed sample_url HTTPError); EvRemove "/tmp/tmpx1/clip";
      EvLeave DirectDownload (Ret None)]) /\
  direct_download E_offline sample_url sample_dir sample_disk =
    (Ret None, sample_disk,
     [EvEnter DirectDownload sample_url sample_dir; EvHead sample_url;
      EvLog (LogHeadFailed sample_url HTTPError); EvGet sample_url;
      EvLog (LogDirectFailed sample_url HTTPError); EvLeave DirectDownload (Ret None)]) /\
  direct_download E_cancelled sample_url sample_dir sample_disk =
    (Raise CancelledError,
     <["/tmp/tmpx1/clip" := File {| f_size := 10; f_mtime := 1000 |}]> sample_disk,
     [EvEnter DirectDownload sample_url sample_dir; EvHead sample_url; EvGet sample_url;
      EvOpen "/tmp/tmpx1/clip"; EvRead 10; EvWrite "/tmp/tmpx1/clip" 10;
      EvLeave DirectDownload (Raise CancelledError)]) /\
  (direct_download E_offline sample_url sample_dir sample_disk).1.1 = Ret None.
Proof.
  split; [|split; [|split; [|split]]].
  - exact (proj1 (proj1 (C10_caught_Exception E_offline sample_url sample_dir sample_disk))
             FileNotFoundError eq_refl).
  - destruct (proj2 (C10_caught_Exception E_stream_fault sample_url sample_dir sample_disk)
                "clip" eq_refl) as (_ & _ & Hresp & _).
    destruct (Hresp (sample_response 200 [] [Chunk 10; Fault HTTPError; Chunk 5]))
      as [_ Hbody].
    + vm_compute. repeat split.
    + reflexivity.
    + reflexivity.
    + apply (Hbody [10]%N HTTPError [Chunk 5]
               (<["/tmp/tmpx1/clip" := File {| f_size := 0; f_mtime := 1000 |}]> sample_disk)
               [EvOpen "/tmp/tmpx1/clip"]).
      * reflexivity.
      * vm_compute. discriminate.
      * vm_compute. reflexivity.
  - destruct (proj2 (C10_caught_Exception E_offline sample_url sample_dir sample_disk)
                "clip" eq_refl) as (_ & Hget & _).
    apply (Hget HTTPError).
    + vm_compute. reflexivity.
    + reflexivity.
  - destruct (proj2 (C10_caught_Exception E_cancelled sample_url sample_dir sample_disk)
                "clip" eq_refl) as (_ & _ & Hresp & _).
    destruct (Hresp (sample_response 200 [] [Chunk 10; Fault CancelledError]))
      as [_ Hbody].
    + vm_compute. repeat split.
    + reflexivity.
    + reflexivity.
    + apply (Hbody [10]%N CancelledError []
               (<["/tmp/tmpx1/clip" := File {| f_size := 0; f_mtime := 1000 |}]> sample_disk)
               [EvOpen "/tmp/tmpx1/clip"]).
      * reflexivity.
      * vm_compute. discriminate.
      * vm_compute. reflexivity.
  - destruct (proj2 (C10_caught_Exception E_offline sample_url sample_dir sample_disk)
                "clip" eq_refl) as (_ & _ & _ & Hd).
    assert (Hl : In (EvLog (LogDirectFailed sample_url HTTPError))
                   (direct_download E_offline sample_url sample_dir sample_disk).2)
      by (vm_compute; tauto).
    destruct (direct_download E_offline sample_url sample_dir sample_disk) as [[r fs'] evs].
    destruct Hd as (_ & Hcaught & _);
      [vm_compute; reflexivity | intros resp Hresp; discriminate Hresp |].
    apply (Hcaught HTTPError Hl).
Defined.

(** ** Counterexamples *)


Lemma C5_counterexample :
  let run1 := process_download E_too_large TelegramUpdate sample_url (Some tt) sample_world in
  let run2 := process_download E_not_found TelegramUpdate sample_url (Some tt) sample_world in
  reasons run1.2 = [ToolUnavailable; RemoteTooLarge] /\
  reasons run2.2 = [ToolUnavailable; RemoteErrorStatus] /\
  surface run1 = surface run2 /\
  ~ exists carried, carries_reason carried.
Proof.
  intros run1 run2.
  assert (H1 : reasons run1.2 = [ToolUnavailable; RemoteTooLarge]) by (vm_compute; reflexivity).
  assert (H2 : reasons run2.2 = [ToolUnavailable; RemoteErrorStatus])
    by (vm_compute; reflexivity).
  assert (Hs : surface run1 = surface run2) by (vm_compute; reflexivity).
  split; [exact H1|]. split; [exact H2|]. split; [exact Hs|].
  intros [carried Hc].
  assert (Hin1 : In (EvLeave DirectDownload (Ret None)) run1.2).
  { apply (List.filter_In is_call). vm_compute. tauto. }
  assert (Hin2 : In (EvLeave DirectDownload (Ret None)) run2.2).
  { apply (List.filter_In is_call). vm_compute. tauto. }
  pose proof (Hc E_too_large TelegramUpdate sample_url (Some tt) sample_world Hin1) as Hc1.
  pose proof (Hc E_not_found TelegramUpdate sample_url (Some tt) sample_world Hin2) as Hc2.
  fold run1 in Hc1. fold run2 in Hc2.
  unfold final_reason in Hc1, Hc2. rewrite H1 in Hc1. rewrite H2 in Hc2.
  rewrite Hs in Hc1. rewrite Hc1 in Hc2. discriminate Hc2.
Qed.

Lemma C10_counterexample :
  (run_yt_dlp E_cancelled sample_url sample_dir sample_disk).1.1 = Raise CancelledError /\
  (direct_download E_cancelled sample_url sample_dir sample_disk).1.1 = Raise CancelledError.
Proof. split; vm_compute; reflexivity. Qed.

(** [pick_filename_from_url] is called before the [try] of
    [direct_download]: a [ValueError] of [urlparse] is not caught there,
    and leaves [process_download] as well. *)
Lemma direct_download_bad_url :
  (direct_download E_bad_url sample_url sample_dir sample_disk).1.1 = Raise ValueError /\
  (process_download E_bad_url TelegramUpdate sample_url (Some tt) sample_world).1.1
    = Raise ValueError.
Proof. split; vm_compute; reflexivity. Qed.

Arguments PyText.isspace : simpl never.
Arguments PyText.among : simpl never.

(** ** Stripping *)

Section Stripping.
Import PyText.

Lemma lstrip_suffix s : exists a, s = a ++ lstrip s.
Proof.
  induction s as [|c s [a IH]]; [now exists []|]. simpl.
  destruct (isspace c); [exists (c :: a); simpl; now rewrite <- IH | now exists []].
Qed.

Lemma lstrip_app pre c x :
  isspace c = false -> lstrip (pre ++ c :: x) = lstrip pre ++ c :: x.
Proof.
  intros Hc. induction pre as [|a pre IH]; simpl; [now rewrite Hc|].
  destruct (isspace a); [exact IH | reflexivity].
Qed.

Lemma rstrip_with_prefix drop s : exists b, s = rstrip_with drop s ++ b.
Proof.
  induction s as [|c s [b IH]]; [now exists []|]. simpl.
  destruct (rstrip_with drop s) as [|x r] eqn:Hr.
  - destruct (drop c); [exists (c :: s); reflexivity|]. exists s. reflexivity.
  - exists b. simpl. now rewrite IH at 1.
Qed.

Lemma rstrip_with_keep drop c s :
  drop c = false -> rstrip_with drop (c :: s) = c :: rstrip_with drop s.
Proof. intros Hc. simpl. destruct (rstrip_with drop s); now rewrite ?Hc. Qed.

Lemma rstrip_with_app drop x c s :
  drop c = false -> rstrip_with drop (x ++ c :: s) = x ++ c :: rstrip_with drop s.
Proof.
  intros Hc. induction x as [|a x IH]; [now apply rstrip_with_keep|].
  simpl. rewrite IH. destruct x; reflexivity.
Qed.

Lemma rstrip_with_all drop s :
  Forall (fun c => drop c = true) s -> rstrip_with drop s = [].
Proof. induction 1 as [|c s Hc _ IH]; simpl; [reflexivity | now rewrite IH, Hc]. Qed.

(** What is left ends in a character that is kept. *)
Lemma rstrip_with_last drop s d :
  rstrip_with drop s <> [] -> drop (List.last (rstrip_with drop s) d) = false.
Proof.
  induction s as [|c s IH]; simpl; [congruence|].
  destruct (rstrip_with drop s) as [|x r] eqn:Hr.
  - destruct (drop c) eqn:Hc; [congruence|]. intros _. exact Hc.
  - intros _. change (List.last (c :: x :: r) d) with (List.last (x :: r) d).
    apply IH. discriminate.
Qed.

Lemma strip_infix s : exists a b, s = a ++ strip s ++ b.
Proof.
  unfold strip. destruct (lstrip_suffix s) as [a Ha].
  destruct (rstrip_with_prefix isspace (lstrip s)) as [b Hb].
  exists a, b. now rewrite <- Hb.
Qed.

End Stripping.

(** ** The URL pattern *)

Lemma among_In set c : PyText.among set c = true -> In c set.
Proof.
  unfold PyText.among. intros H. apply existsb_exists in H as (x & Hx & Heq).
  apply N.eqb_eq in Heq. now subst.
Qed.

Lemma one_of_inv set s r :
  one_of set s = Some r -> exists c, s = c :: r /\ PyText.among set c = true.
Proof.
  destruct s as [|c s]; [discriminate|]. simpl.
  destruct (PyText.among set c) eqn:Hc; [|discriminate].
  intros [= <-]. now exists c.
Qed.

Lemma literal_inv p : forall s r, literal p s = Some r -> s = p ++ r.
Proof.
  induction p as [|a p IH]; intros s r; simpl; [now intros [= ->]|].
  destruct s as [|b s]; [discriminate|].
  destruct (a =? b)%N eqn:Hab; [|discriminate].
  apply N.eqb_eq in Hab. subst b. intros H. now rewrite (IH _ _ H).
Qed.

Lemma literal_app p r : literal p (p ++ r) = Some r.
Proof. induction p as [|a p IH]; simpl; [reflexivity | now rewrite N.eqb_refl]. Qed.

Lemma in_sets_cons set sets s :
  in_sets (set :: sets) s = true ->
  exists c s', s = c :: s' /\ PyText.among set c = true /\ in_sets sets s' = true.
Proof.
  destruct s as [|c s']; [discriminate|]. simpl.
  intros H. apply andb_prop in H as [Hc Hs]. now exists c, s'.
Qed.

Lemma in_sets_nil s : in_sets [] s = true -> s = [].
Proof. destruct s; [reflexivity | discriminate]. Qed.

Ltac sets_inv H :=
  repeat (let c := fresh "c" in let s := fresh "s" in let Hc := fresh "Hc" in
          apply in_sets_cons in H as (c & s & -> & Hc & H));
  apply in_sets_nil in H; subst.

Lemma one_of_cons set c r : PyText.among set c = true -> one_of set (c :: r) = Some r.
Proof. intros H. simpl. now rewrite H. Qed.

(** [scheme] matches what the pattern says, and nothing else. *)
Lemma scheme_app sch rest : is_scheme sch = true -> scheme (sch ++ rest) = Some rest.
Proof.
  unfold is_scheme. intros H. apply orb_prop in H as [H|H]; sets_inv H.
  - apply among_In in Hc3 as [<-|[]]. apply among_In in Hc4 as [<-|[]].
    apply among_In in Hc5 as [<-|[]].
    unfold scheme. simpl app.
    rewrite (one_of_cons _ _ _ Hc), (one_of_cons _ _ _ Hc0), (one_of_cons _ _ _ Hc1),
      (one_of_cons _ _ _ Hc2).
    reflexivity.
  - apply among_In in Hc4 as [<-|[]]. apply among_In in Hc5 as [<-|[]].
    apply among_In in Hc6 as [<-|[]].
    unfold scheme. simpl app.
    rewrite (one_of_cons _ _ _ Hc), (one_of_cons _ _ _ Hc0), (one_of_cons _ _ _ Hc1),
      (one_of_cons _ _ _ Hc2), (one_of_cons _ _ _ Hc3).
    reflexivity.
Qed.

Lemma scheme_inv s rest :
  scheme s = Some rest -> exists sch, s = sch ++ rest /\ is_scheme sch = true.
Proof.
  unfold scheme.
  destruct (one_of ci_h s) as [r1|] eqn:H1; [|discriminate].
  destruct (one_of ci_t r1) as [r2|] eqn:H2; [|discriminate].
  destruct (one_of ci_t r2) as [r3|] eqn:H3; [|discriminate].
  destruct (one_of ci_p r3) as [r4|] eqn:H4; [|discriminate].
  apply one_of_inv in H1 as (c1 & -> & Hc1). apply one_of_inv in H2 as (c2 & -> & Hc2).
  apply one_of_inv in H3 as (c3 & -> & Hc3). apply one_of_inv in H4 as (c4 & -> & Hc4).
  assert (Hshort : literal (PyText.of_ascii "://") r4 = Some rest ->
            exists sch, c1 :: c2 :: c3 :: c4 :: r4 = sch ++ rest /\ is_scheme sch = true).
  { intros H. apply literal_inv in H as ->.
    exists (c1 :: c2 :: c3 :: c4 :: PyText.of_ascii "://"). split; [reflexivity|].
    change (PyText.of_ascii "://") with [0x3A; 0x2F; 0x2F]%N.
    unfold is_scheme. cbn [in_sets]. now rewrite Hc1, Hc2, Hc3, Hc4. }
  destruct (one_of ci_s r4) as [r5|] eqn:H5; [|exact Hshort].
  destruct (literal (PyText.of_ascii "://") r5) as [rest'|] eqn:H6; [|exact Hshort].
  intros [= ->].
  apply one_of_inv in H5 as (c5 & -> & Hc5). apply literal_inv in H6 as ->.
  exists (c1 :: c2 :: c3 :: c4 :: c5 :: PyText.of_ascii "://"). split; [reflexivity|].
  change (PyText.of_ascii "://") with [0x3A; 0x2F; 0x2F]%N.
  unfold is_scheme. cbn [in_sets]. rewrite Hc1, Hc2, Hc3, Hc4, Hc5. apply orb_true_r.
Qed.

Lemma among_nonspace set c :
  PyText.among set c = true ->
  forallb (fun x => negb (PyText.isspace x)) set = true ->
  PyText.isspace c = false.
Proof.
  intros Hc Hall. apply among_In in Hc.
  rewrite forallb_forall in Hall. apply negb_true_iff. now apply Hall.
Qed.

(** A scheme holds a colon and no white space, and ends in a slash. *)
Lemma is_scheme_shape sch :
  is_scheme sch = true ->
  Forall (fun c => PyText.isspace c = false) sch /\
  In 0x3A%N sch /\
  exists front, sch = front ++ [0x2F%N].
Proof.
  unfold is_scheme. intros H. apply orb_prop in H as [H|H]; sets_inv H.
  - split; [|split].
    + repeat constructor; (eapply among_nonspace; [eassumption | reflexivity]).
    + apply among_In in Hc3 as [<-|[]]. simpl. tauto.
    + apply among_In in Hc5 as [<-|[]]. now exists [c; c0; c1; c2; c3; c4].
  - split; [|split].
    + repeat constructor; (eapply among_nonspace; [eassumption | reflexivity]).
    + apply among_In in Hc4 as [<-|[]]. simpl. tauto.
    + apply among_In in Hc6 as [<-|[]]. now exists [c; c0; c1; c2; c3; c4; c5].
Qed.

Lemma nonspace_spec s :
  exists b, s = nonspace s ++ b /\ Forall (fun c => PyText.isspace c = false) (nonspace s).
Proof.
  induction s as [|c s (b & IH & Hf)]; [exists []; split; [reflexivity | constructor]|].
  simpl. destruct (PyText.isspace c) eqn:Hc.
  - exists (c :: s). split; [reflexivity | constructor].
  - exists b. split; [simpl; now rewrite <- IH | now constructor].
Qed.

Lemma nonspace_app run post :
  Forall (fun c => PyText.isspace c = false) run ->
  match post with [] => True | c :: _ => PyText.isspace c = true end ->
  nonspace (run ++ post) = run.
Proof.
  intros Hr Hp. induction Hr as [|c run Hc _ IH]; simpl.
  - destruct post as [|c post]; [reflexivity | simpl; now rewrite Hp].
  - now rewrite Hc, IH.
Qed.

Lemma URL_RE_match_inv s g :
  URL_RE_match s = Some g ->
  exists sch run b,
    s = sch ++ run ++ b /\ g = sch ++ run /\ is_scheme sch = true /\
    run <> [] /\ Forall (fun c => PyText.isspace c = false) run.
Proof.
  unfold URL_RE_match. destruct (scheme s) as [rest|] eqn:Hs; [|discriminate].
  apply scheme_inv in Hs as (sch & -> & Hsch).
  destruct (nonspace_spec rest) as (b & Hb & Hf).
  destruct (nonspace rest) as [|c run] eqn:Hn; [discriminate|].
  intros [= <-]. exists sch, (c :: run), b.
  rewrite length_app, Nat.add_sub, take_app_length.
  split; [now rewrite Hb at 1|]. split; [reflexivity|]. split; [assumption|].
  split; [discriminate | assumption].
Qed.

Lemma URL_RE_search_inv s g :
  URL_RE_search s = Some g ->
  exists a sch run b,
    s = a ++ sch ++ run ++ b /\ g = sch ++ run /\ is_scheme sch = true /\
    run <> [] /\ Forall (fun c => PyText.isspace c = false) run.
Proof.
  induction s as [|c s IH].
  - discriminate.
  - simpl. destruct (URL_RE_match (c :: s)) as [g'|] eqn:Hm.
    + intros [= ->]. apply URL_RE_match_inv in Hm as (sch & run & b & -> & H).
      exists [], sch, run, b. now split.
    + intros H. destruct (IH H) as (a & sch & run & b & -> & H').
      exists (c :: a), sch, run, b. now split.
Qed.

Lemma URL_RE_search_found s g : URL_RE_match s = Some g -> URL_RE_search s = Some g.
Proof. intros H. destruct s; cbn [URL_RE_search]; now rewrite H. Qed.

Lemma URL_RE_search_skip c s :
  PyText.among ci_h c = false -> URL_RE_search (c :: s) = URL_RE_search s.
Proof.
  intros Hc. cbn [URL_RE_search]. unfold URL_RE_match at 1. unfold scheme.
  cbn [one_of]. now rewrite Hc.
Qed.

(** The first match: nothing before it starts with [h] or [H]. *)
Lemma URL_RE_search_app pre sch run post :
  Forall (fun c => PyText.among ci_h c = false) pre ->
  is_scheme sch = true ->
  run <> [] -> Forall (fun c => PyText.isspace c = false) run ->
  match post with [] => True | c :: _ => PyText.isspace c = true end ->
  URL_RE_search (pre ++ sch ++ run ++ post) = Some (sch ++ run).
Proof.
  intros Hpre Hsch Hne Hrun Hpost.
  assert (Hm : URL_RE_match (sch ++ run ++ post) = Some (sch ++ run)).
  { unfold URL_RE_match. rewrite (scheme_app _ _ Hsch), (nonspace_app _ _ Hrun Hpost).
    rewrite length_app, Nat.add_sub, take_app_length.
    destruct run; [congruence | reflexivity]. }
  induction Hpre as [|c pre Hc _ IH].
  - now apply URL_RE_search_found.
  - simpl app. now rewrite (URL_RE_search_skip _ _ Hc).
Qed.

(** ** [handle_message] *)

Lemma tg_run {S} E a (s : S) :
  tg E a s =
  (match telegram E a with Some e => Raise e | None => Ret tt end, s, [EvUI a]).
Proof. unfold tg, bind, emit, raise, ret. now destruct (telegram E a). Qed.

Lemma last_app_nonempty {A} (l k : list A) d : k <> [] -> List.last (l ++ k) d = List.last k d.
Proof.
  intros Hk. induction l as [|x l IH]; [reflexivity|].
  simpl app. destruct (l ++ k) eqn:Hlk; [|exact IH].
  apply app_eq_nil in Hlk as [_ ->]. congruence.
Qed.

(** What [handle_message] takes as the URL: the match without the
    closing punctuation. *)
Lemma url_of_match sch run :
  is_scheme sch = true ->
  Forall (fun c => PyText.isspace c = false) run ->
  let punct := PyText.of_ascii ").,]}" in
  exists rest t,
    PyText.rstrip punct (sch ++ run) = sch ++ rest /\ run = rest ++ t /\
    Forall (fun c => PyText.isspace c = false) rest /\
    PyText.among punct (List.last (sch ++ rest) 0%N) = false.
Proof.
  intros Hsch Hrun punct.
  destruct (is_scheme_shape _ Hsch) as (_ & _ & front & ->).
  destruct (rstrip_with_prefix (PyText.among punct) run) as [t Ht].
  exists (PyText.rstrip_with (PyText.among punct) run), t.
  split; [|split; [exact Ht|split]].
  - unfold PyText.rstrip. rewrite <- !app_assoc. simpl app.
    now rewrite rstrip_with_app.
  - rewrite Ht in Hrun. now apply Forall_app in Hrun as [Hrest _].
  - destruct (PyText.rstrip_with (PyText.among punct) run) as [|x r] eqn:Hr.
    + rewrite app_nil_r, last_last. reflexivity.
    + rewrite last_app_nonempty by discriminate. rewrite <- Hr.
      apply rstrip_with_last. rewrite Hr. discriminate.
Qed.

Lemma handle_message_inv E text w :
  let punct := PyText.of_ascii ").,]}" in
  (exists m,
     In m [MSG_help; MSG_about; MSG_no_url] /\
     handle_message E text w =
       (match telegram E (reply_text m (Some help_keyboard)) with
        | Some e => Raise e
        | None => Ret tt
        end, w, [EvUI (reply_text m (Some help_keyboard))])) \/
  (exists a sch rest b,
     default [] text = a ++ (sch ++ rest) ++ b /\
     is_scheme sch = true /\
     Forall (fun c => PyText.isspace c = false) rest /\
     PyText.among punct (List.last (sch ++ rest) 0%N) = false /\
     handle_message E text w =
       process_download E TelegramUpdate (PyText.encode (sch ++ rest)) None w).
Proof.
  intros punct. unfold handle_message.
  destruct (bool_decide (PyText.strip (default [] text) = TEXT_help)).
  { left. exists MSG_help. split; [simpl; tauto | apply tg_run]. }
  destruct (bool_decide (PyText.strip (default [] text) = TEXT_about)).
  { left. exists MSG_about. split; [simpl; tauto | apply tg_run]. }
  destruct (URL_RE_search (PyText.strip (default [] text))) as [g|] eqn:Hs.
  2: { left. exists MSG_no_url. split; [simpl; tauto | apply tg_run]. }
  right.
  apply URL_RE_search_inv in Hs as (a & sch & run & b & Hmsg & -> & Hsch & _ & Hrun).
  destruct (strip_infix (default [] text)) as (a0 & b0 & Htext).
  destruct (url_of_match sch run Hsch Hrun) as (rest & t & Hurl & -> & Hrest & Hlast).
  exists (a0 ++ a), sch, rest, (t ++ b ++ b0).
  split; [|split; [exact Hsch|split; [exact Hrest|split; [exact Hlast|]]]].
  - rewrite Htext at 1. rewrite Hmsg. now rewrite <- !app_assoc.
  - cbv zeta in Hurl |- *. now rewrite Hurl.
Qed.

(** X13: [handle_message] does one of two things.  Either it answers
    with one reply that carries the help keyboard (the help text, the
    about text or the "no URL" text) and changes nothing; or it runs
    [process_download], with the update itself and no status message, on
    a URL that occurs in the message text, starts with [http://] or
    [https://] in any letter case (a long s counting as [s]), holds no
    white space and does not end in one of [).,]}]. *)
Theorem handle_message_cases E text w :
  let punct := PyText.of_ascii ").,]}" in
  (exists m,
     In m [MSG_help; MSG_about; MSG_no_url] /\
     handle_message E text w =
       (match telegram E (reply_text m (Some help_keyboard)) with
        | Some e => Raise e
        | None => Ret tt
        end, w, [EvUI (reply_text m (Some help_keyboard))])) \/
  (exists a sch rest b,
     default [] text = a ++ (sch ++ rest) ++ b /\
     is_scheme sch = true /\
     Forall (fun c => PyText.isspace c = false) rest /\
     PyText.among punct (List.last (sch ++ rest) 0%N) = false /\
     handle_message E text w =
       process_download E TelegramUpdate (PyText.encode (sch ++ rest)) None w).
Proof. exact (handle_message_inv E text w). Qed.

(** X14: the URL [handle_message] downloads is the first one of the
    message: when nothing before it is an [h] or [H], the text from the
    scheme up to the next white space, without the closing punctuation
    [).,]}] at its end, is what [process_download] is run on. *)
Theorem handle_message_first_url E pre sch body trail post w :
  let punct := PyText.of_ascii ").,]}" in
  Forall (fun c => PyText.among ci_h c = false) pre ->
  is_scheme sch = true ->
  Forall (fun c => PyText.isspace c = false) body ->
  body <> [] -> PyText.among punct (List.last body 0%N) = false ->
  Forall (fun c => PyText.among punct c = true) trail ->
  match post with [] => True | c :: _ => PyText.isspace c = true end ->
  handle_message E (Some (pre ++ sch ++ body ++ trail ++ post)) w =
    process_download E TelegramUpdate (PyText.encode (sch ++ body)) None w.
Proof.
  intros punct Hpre Hsch Hbody Hne Hlast Htrail Hpost.
  destruct (is_scheme_shape _ Hsch) as (Hsp & Hcolon & _).
  (* the last character of the body, and of the closing punctuation *)
  assert (Hbl : exists body' lb, body = body' ++ [lb]).
  { exists (removelast body), (List.last body 0%N). now apply app_removelast_last. }
  destruct Hbl as (body' & lb & ->). clear Hne.
  rewrite last_last in Hlast.
  assert (Hlsp : PyText.isspace lb = false).
  { apply Forall_app in Hbody as [_ Hb]. exact (Forall_inv Hb). }
  assert (Htsp : Forall (fun c => PyText.isspace c = false) trail).
  { eapply Forall_impl; [exact Htrail|]. intros c Hc. simpl in Hc.
    apply (among_nonspace punct); [exact Hc | reflexivity]. }
  (* the stripped message *)
  destruct (lstrip_suffix pre) as [ws Hws].
  destruct (rstrip_with_prefix PyText.isspace post) as [ws' Hws'].
  remember (PyText.lstrip pre) as pre' eqn:Hpre'.
  remember (PyText.rstrip_with PyText.isspace post) as post' eqn:Hpost'.
  assert (Hmsg : PyText.strip (pre ++ sch ++ (body' ++ [lb]) ++ trail ++ post) =
                 pre' ++ sch ++ (body' ++ [lb]) ++ trail ++ post').
  { unfold PyText.strip.
    assert (Hl : PyText.lstrip (pre ++ sch ++ (body' ++ [lb]) ++ trail ++ post) =
                 pre' ++ sch ++ (body' ++ [lb]) ++ trail ++ post).
    { destruct sch as [|c sch]; [discriminate|].
      pose proof (Forall_inv Hsp) as Hc. simpl app. rewrite Hpre'. now apply lstrip_app. }
    rewrite Hl.
    assert (Hend : exists x lx, (body' ++ [lb]) ++ trail = x ++ [lx] /\
                                PyText.isspace lx = false).
    { destruct trail as [|t0 trail].
      - exists body', lb. now rewrite app_nil_r.
      - exists ((body' ++ [lb]) ++ removelast (t0 :: trail)), (List.last (t0 :: trail) 0%N).
        split.
        + rewrite <- (app_assoc (body' ++ [lb])).
          now rewrite <- app_removelast_last by discriminate.
        + rewrite (app_removelast_last 0%N (l := t0 :: trail)) in Htsp by discriminate.
          apply Forall_app in Htsp as [_ Hb]. exact (Forall_inv Hb). }
    destruct Hend as (x & lx & Hx & Hlx).
    replace (pre' ++ sch ++ (body' ++ [lb]) ++ trail ++ post)
      with ((pre' ++ sch ++ x) ++ lx :: post)
      by (rewrite (app_assoc (body' ++ [lb])), Hx; now rewrite <- !app_assoc).
    rewrite rstrip_with_app by assumption. rewrite <- Hpost'.
    rewrite (app_assoc (body' ++ [lb])), Hx. now rewrite <- !app_assoc. }
  assert (Hpre2 : Forall (fun c => PyText.among ci_h c = false) pre').
  { rewrite Hws in Hpre. now apply Forall_app in Hpre as [_ H]. }
  assert (Hpost2 : match post' with [] => True | c :: _ => PyText.isspace c = true end).
  { destruct post' as [|c r]; [exact I|].
    destruct post as [|c0 post0]; [discriminate|].
    simpl in Hws'. injection Hws' as -> _. exact Hpost. }
  assert (Hsearch : URL_RE_search (pre' ++ sch ++ (body' ++ [lb]) ++ trail ++ post') =
                    Some (sch ++ (body' ++ [lb]) ++ trail)).
  { rewrite (app_assoc (body' ++ [lb])).
    apply URL_RE_search_app; try assumption.
    - destruct body'; discriminate.
    - now apply Forall_app. }
  assert (Hcolon' : In 0x3A%N (pre' ++ sch ++ (body' ++ [lb]) ++ trail ++ post')).
  { apply in_or_app. right. apply in_or_app. now left. }
  unfold handle_message. cbv zeta. cbn [from_option id]. rewrite Hmsg.
  rewrite bool_decide_eq_false_2
    by (intros Heq; rewrite Heq in Hcolon'; vm_compute in Hcolon'; intuition discriminate).
  rewrite bool_decide_eq_false_2
    by (intros Heq; rewrite Heq in Hcolon'; vm_compute in Hcolon'; intuition discriminate).
  rewrite Hsearch. cbv beta iota zeta.
  assert (Hurl : PyText.rstrip punct (sch ++ (body' ++ [lb]) ++ trail) = sch ++ body' ++ [lb]).
  { unfold PyText.rstrip.
    replace (sch ++ (body' ++ [lb]) ++ trail) with ((sch ++ body') ++ lb :: trail)
      by (now rewrite <- !app_assoc).
    rewrite rstrip_with_app by assumption.
    rewrite (rstrip_with_all _ _ Htrail). now rewrite <- !app_assoc. }
  subst punct. cbv zeta in Hurl |- *. now rewrite Hurl.
Qed.

Lemma lstrip_all s : Forall (fun c => PyText.isspace c = true) s -> PyText.lstrip s = [].
Proof. induction 1 as [|c s Hc _ IH]; simpl; [reflexivity | now rewrite Hc]. Qed.

(** White space around a text is stripped off. *)
Lemma strip_padded pre c y d post :
  Forall (fun c => PyText.isspace c = true) pre ->
  Forall (fun c => PyText.isspace c = true) post ->
  PyText.isspace c = false -> PyText.isspace d = false ->
  PyText.strip (pre ++ (c :: y ++ [d]) ++ post) = c :: y ++ [d].
Proof.
  intros Hpre Hpost Hc Hd. unfold PyText.strip.
  simpl app. rewrite (lstrip_app pre c _ Hc), (lstrip_all _ Hpre). simpl app.
  replace (c :: (y ++ [d]) ++ post) with ((c :: y) ++ d :: post)
    by (simpl; now rewrite <- app_assoc).
  rewrite (rstrip_with_app _ _ _ _ Hd), (rstrip_with_all _ _ Hpost). reflexivity.
Qed.

(** X15: the label of each button of [get_main_keyboard], sent as a
    message with any white space around it, is answered with the help
    text or the about text and the help keyboard; no download is
    started and nothing changes. *)
Theorem handle_message_menu_texts E pre label post w :
  In (KeyboardButton label) (concat get_main_keyboard) ->
  Forall (fun c => PyText.isspace c = true) pre ->
  Forall (fun c => PyText.isspace c = true) post ->
  exists m,
    In m [MSG_help; MSG_about] /\
    handle_message E (Some (pre ++ label ++ post)) w =
      (match telegram E (reply_text m (Some help_keyboard)) with
       | Some e => Raise e
       | None => Ret tt
       end, w, [EvUI (reply_text m (Some help_keyboard))]).
Proof.
  intros Hin Hpre Hpost. simpl in Hin.
  destruct Hin as [[= <-]|[[= <-]|[]]].
  - exists MSG_help. split; [simpl; tauto|].
    unfold handle_message. cbv zeta. cbn [from_option id].
    change (0x1F4DA :: PyText.of_ascii " Help")%N
      with (0x1F4DA :: [0x20; 0x48; 0x65; 0x6C] ++ [0x70])%N.
    rewrite (strip_padded pre 0x1F4DA [0x20; 0x48; 0x65; 0x6C] 0x70 post
               Hpre Hpost eq_refl eq_refl)%N.
    apply tg_run.
  - exists MSG_about. split; [simpl; tauto|].
    unfold handle_message. cbv zeta. cbn [from_option id].
    change (0x2139 :: 0xFE0F :: PyText.of_ascii " About")%N
      with (0x2139 :: [0xFE0F; 0x20; 0x41; 0x62; 0x6F; 0x75] ++ [0x74])%N.
    rewrite (strip_padded pre 0x2139 [0xFE0F; 0x20; 0x41; 0x62; 0x6F; 0x75] 0x74 post
               Hpre Hpost eq_refl eq_refl)%N.
    apply tg_run.
Qed.

(** ** What [direct_download] does to the disk *)

(** The receiving loop changes nothing but the output file. *)
Lemma receive_frame url p items :
  forall total fs r fs' evs,
    receive url p items total fs = (r, fs', evs) ->
    forall q, q <> p -> fs' !! q = fs !! q.
Proof.
  induction items as [|[n|e] items IH]; intros total fs r fs' evs Hrun q Hq;
    rewrite receive_unfold in Hrun.
  - now injection Hrun as <- <- <-.
  - unfold bind, emit in Hrun.
    destruct (n =? 0)%N.
    + destruct (receive url p items total fs) as [[r1 fs1] t1] eqn:Hrec.
      injection Hrun as <- <- <-. eapply IH; eauto.
    + destruct (MAX_DIRECT_DOWNLOAD_BYTES <? total + n)%N.
      * unfold Disk.exists_, Disk.remove, ret in Hrun.
        destruct (Disk.node_at fs p) as [[f|m]|] eqn:Hn; cbv beta iota in Hrun;
          rewrite ?Hn in Hrun; injection Hrun as <- <- <-;
          rewrite ?lookup_delete_ne by congruence; reflexivity.
      * unfold Disk.write in Hrun.
        destruct (receive url p items (total + n) (alter (Disk.grow n) p fs))
          as [[r1 fs1] t1] eqn:Hrec.
        injection Hrun as <- <- <-.
        rewrite (IH _ _ _ _ _ Hrec q Hq). apply lookup_alter_ne. congruence.
  - now injection Hrun as <- <- <-.
Qed.

Lemma touched_app a b : touched (a ++ b) = touched a ++ touched b.
Proof.
  induction a as [|x a IH]; simpl; [reflexivity|].
  destruct x; rewrite ?IH; reflexivity.
Qed.

Lemma receive_events url p items :
  forall total fs r fs' evs,
    receive url p items total fs = (r, fs', evs) -> Forall (receive_event p) evs.
Proof.
  induction items as [|[n|e] items IH]; intros total fs r fs' evs Hrun;
    rewrite receive_unfold in Hrun.
  - injection Hrun as <- <- <-. constructor.
  - unfold bind, emit in Hrun.
    destruct (n =? 0)%N.
    + destruct (receive url p items total fs) as [[r1 fs1] t1] eqn:Hrec.
      injection Hrun as <- <- <-. constructor; [exact I | eauto].
    + destruct (MAX_DIRECT_DOWNLOAD_BYTES <? total + n)%N.
      * unfold Disk.exists_, Disk.remove, ret in Hrun.
        destruct (Disk.node_at fs p) as [[f|m]|] eqn:Hn; cbv beta iota in Hrun;
          rewrite ?Hn in Hrun; injection Hrun as <- <- <-; repeat constructor.
      * unfold Disk.write in Hrun.
        destruct (receive url p items (total + n) (alter (Disk.grow n) p fs))
          as [[r1 fs1] t1] eqn:Hrec.
        injection Hrun as <- <- <-.
        constructor; [exact I|]. constructor; [reflexivity | eauto].
  - injection Hrun as <- <- <-. constructor.
Qed.

Lemma receive_event_touched p evs q :
  Forall (receive_event p) evs -> In q (touched evs) -> q = p.
Proof.
  induction 1 as [|x evs Hx _ IH]; simpl; [tauto|].
  destruct x; simpl in *; try assumption; try contradiction;
    try (intros [<-|Hin]; [now symmetry | now apply IH]).
Qed.

(** A path whose content [direct_download] changes is one it opened or
    removed, and is the output path, before or after the extension is
    added. *)
Lemma direct_download_changes E url d fs r fs' evs :
  direct_download E url d fs = (r, fs', evs) ->
  forall q,
    fs' !! q = fs !! q \/
    ((In (EvOpen q) evs \/ In (EvRemove q) evs) /\
     exists filename,
       pick_filename_from_url E url = Ret filename /\
       (q = PyPath.join d filename \/
        exists resp, http_get E url = Ret resp /\
          q = with_extension E (PyPath.join d filename) (content_type resp))).
Proof.
  intros H q. unfold direct_download in H. run_inv H.
  all: try (left; reflexivity).
  all: repeat match goal with
       | H : Ret _ = _ |- _ => symmetry in H
       end.
  all: match goal with
       | Hr : receive _ ?p _ _ _ = _ |- _ =>
           destruct (decide (q = p)) as [->|Hne];
           [|left; rewrite ?lookup_delete_ne by congruence;
             rewrite (receive_frame _ _ _ _ _ _ _ _ Hr q Hne);
             rewrite ?lookup_insert_ne by congruence; reflexivity]
       | |- context [delete ?p _] =>
           destruct (decide (q = p)) as [->|Hne];
           [|left; rewrite ?lookup_delete_ne by congruence; reflexivity]
       | |- context [<[?p := _]> _] =>
           destruct (decide (q = p)) as [->|Hne];
           [|left; rewrite ?lookup_insert_ne by congruence; reflexivity]
       end.
  all: right; split;
       [simpl; rewrite ?in_app_iff; simpl; rewrite ?in_app_iff; simpl; tauto|].
  all: eexists; split; [eassumption|];
       first [left; reflexivity | right; eexists; split; [eassumption | reflexivity]].
Qed.

(** The paths [direct_download] opens, writes to or removes. *)
Lemma direct_download_touched E url d fs r fs' evs :
  direct_download E url d fs = (r, fs', evs) ->
  forall q, In q (touched evs) ->
    exists filename,
      pick_filename_from_url E url = Ret filename /\
      (q = PyPath.join d filename \/
       exists resp, http_get E url = Ret resp /\
         q = with_extension E (PyPath.join d filename) (content_type resp)).
Proof.
  intros H q. unfold direct_download in H. run_inv H.
  all: repeat match goal with
       | H : Ret _ = _ |- _ => symmetry in H
       | Hr : receive _ _ _ _ _ = _ |- _ => apply receive_events in Hr
       end.
  all: simpl; rewrite ?touched_app; simpl; rewrite ?touched_app; simpl;
       rewrite ?in_app_iff; simpl; rewrite ?in_app_iff; simpl.
  all: intros Hin;
       repeat match goal with
         | H : _ \/ _ |- _ => destruct H as [H|H]
         | H : False |- _ => destruct H
         | H : In _ (touched ?l), H' : Forall (receive_event _) ?l |- _ =>
             apply (receive_event_touched _ _ _ H') in H
         end; subst.
  all: eexists; split; [eassumption|];
       first [left; reflexivity | right; eexists; split; [eassumption | reflexivity]].
Qed.

(** X2: when the probe lets the transfer start, the [GET] answers below
    400 and the body is made of chunks with a total within the ceiling,
    [direct_download] returns the output path, and the file there holds
    exactly the bytes received, whatever was at that path before; no
    other path has changed. *)
Theorem direct_download_complete E url out_dir fs filename resp sizes fs1 t :
  pick_filename_from_url E url = Ret filename ->
  probe_passes E url ->
  http_get E url = Ret resp ->
  (status_code resp < 400)%Z ->
  body resp = map Chunk sizes ->
  (sum_N sizes <= MAX_DIRECT_DOWNLOAD_BYTES)%N ->
  let p := with_extension E (PyPath.join out_dir filename) (content_type resp) in
  Disk.open_wb (now E) p fs = (Ret tt, fs1, t) ->
  exists evs,
    direct_download E url out_dir fs =
      (Ret (Some p), <[p := File {| f_size := sum_N sizes; f_mtime := now E |}]> fs, evs) /\
    opened evs = [p] /\ reads evs = sizes /\ written evs = sum_N sizes.
Proof.
  intros Hp Hh Hg Hs Hb Hfit p Ho. apply probe_passes_plain in Hh.
  eexists. split.
  - exact (direct_download_transfer E url out_dir fs filename resp sizes fs1 t
             Hp Hh Hg Hs Hb Hfit Ho).
  - destruct (head_log_plain E url) as (_ & Ho1 & Hd1 & Hw1).
    simpl. rewrite ?opened_app, ?reads_app, ?written_app, Ho1, Hd1, Hw1. simpl.
    rewrite ?opened_app, ?reads_app, ?written_app.
    rewrite received_opened, received_reads, received_written. simpl.
    rewrite ?app_nil_r. repeat split; lia.
Qed.



(** ** Paths below the working directory *)

Lemma strip_prefix_app pre s : PyStr.strip_prefix pre (pre ++ s)%string = Some s.
Proof.
  induction pre as [|a pre IH]; [reflexivity|].
  rewrite string_app_cons. simpl. now rewrite Ascii.eqb_refl.
Qed.

Lemma under_below d rest : Disk.under d (d ++ "/" ++ rest)%string = true.
Proof.
  unfold Disk.under, PyStr.startswith.
  rewrite <- string_app_assoc, strip_prefix_app. apply orb_true_r.
Qed.

Lemma join_below d n :
  PyStr.truthy d = true -> PyStr.endswith d "/" = false ->
  PyStr.contains PyPath.slash n = false ->
  PyPath.join d n = (d ++ "/" ++ n)%string.
Proof.
  intros Hd He Hn. unfold PyPath.join.
  now rewrite (startswith_slash n Hn), Hd, He.
Qed.

Lemma with_extension_shape E p ct :
  exists ext, with_extension E p ct = (p ++ ext)%string.
Proof.
  unfold with_extension.
  destruct (negb _ && PyStr.truthy ct);
    [|exists EmptyString; now rewrite string_app_empty_r].
  destruct (PyStr.truthy _ && negb _);
    [eexists; reflexivity | exists EmptyString; now rewrite string_app_empty_r].
Qed.

(** The output path lies below the working directory, with its extension
    or without. *)
Lemma output_path_below E d filename ct :
  PyStr.truthy d = true -> PyStr.endswith d "/" = false ->
  PyStr.contains PyPath.slash filename = false ->
  Disk.under d (PyPath.join d filename) = true /\
  Disk.under d (with_extension E (PyPath.join d filename) ct) = true.
Proof.
  intros Hd He Hn.
  destruct (with_extension_shape E (PyPath.join d filename) ct) as [ext ->].
  rewrite (join_below d filename Hd He Hn). split; [apply under_below|].
  rewrite !string_app_assoc. apply under_below.
Qed.

Lemma direct_download_outside E url d fs r fs' evs :
  direct_download E url d fs = (r, fs', evs) ->
  PyStr.truthy d = true -> PyStr.endswith d "/" = false ->
  (forall q, In q (touched evs) -> Disk.under d q = true) /\
  (forall q, Disk.under d q = false -> fs' !! q = fs !! q).
Proof.
  intros Hrun Hd He.
  pose proof (direct_download_changes _ _ _ _ _ _ _ Hrun) as Hch.
  pose proof (direct_download_touched _ _ _ _ _ _ _ Hrun) as Hto.
  assert (Hbelow : forall q filename,
              pick_filename_from_url E url = Ret filename ->
              (q = PyPath.join d filename \/
               exists resp, http_get E url = Ret resp /\
                 q = with_extension E (PyPath.join d filename) (content_type resp)) ->
              Disk.under d q = true).
  { intros q filename Hp Hq.
    pose proof (pick_filename_no_slash _ _ _ Hp) as Hn.
    destruct Hq as [->|(resp & _ & ->)];
      now apply (output_path_below E d filename). }
  split.
  - intros q Hq. destruct (Hto q Hq) as (filename & Hp & Hc). eauto.
  - intros q Hq. destruct (Hch q) as [Heq|[_ (filename & Hp & Hc)]]; [exact Heq|].
    rewrite (Hbelow q filename Hp Hc) in Hq. discriminate.
Qed.

(** X5: [direct_download] changes the disk only at paths it opened or
    removed; every path it opens, writes to or removes is the output
    path, with or without the guessed extension; and for a working
    directory given by a non-empty name without a trailing slash these
    paths lie below it, so that nothing outside it changes. *)
Theorem direct_download_confined E url out_dir fs :
  let '(r, fs', evs) := direct_download E url out_dir fs in
  (forall q, fs' !! q <> fs !! q -> In (EvOpen q) evs \/ In (EvRemove q) evs) /\
  (forall q, In q (touched evs) ->
     exists filename,
       pick_filename_from_url E url = Ret filename /\
       (q = PyPath.join out_dir filename \/
        exists resp, http_get E url = Ret resp /\
          q = with_extension E (PyPath.join out_dir filename) (content_type resp))) /\
  (PyStr.truthy out_dir = true -> PyStr.endswith out_dir "/" = false ->
   (forall q, In q (touched evs) -> Disk.under out_dir q = true) /\
   (forall q, Disk.under out_dir q = false -> fs' !! q = fs !! q)).
Proof.
  destruct (direct_download E url out_dir fs) as [[r fs'] evs] eqn:Hrun.
  split; [|split].
  - intros q Hq.
    destruct (direct_download_changes _ _ _ _ _ _ _ Hrun q) as [Heq|[Hev _]];
      [contradiction | exact Hev].
  - exact (direct_download_touched _ _ _ _ _ _ _ Hrun).
  - exact (direct_download_outside _ _ _ _ _ _ _ Hrun).
Qed.

(** ** What [run_yt_dlp] does to the disk *)

Lemma spawned_app a b : spawned (a ++ b) = spawned a ++ spawned b.
Proof.
  induction a as [|x a IH]; simpl; [reflexivity|].
  destruct x; rewrite ?IH; reflexivity.
Qed.

Lemma run_yt_dlp_disk E url d fs r fs' evs :
  run_yt_dlp E url d fs = (r, fs', evs) ->
  spawned evs = [yt_dlp_cmd url d] /\ touched evs = [] /\
  ((fs' = fs /\ exists e, spawn E (yt_dlp_cmd url d) = Raise e) \/
   (exists proc, spawn E (yt_dlp_cmd url d) = Ret proc /\ fs' = p_effect proc fs)).
Proof.
  intros H. unfold run_yt_dlp, create_subprocess_exec in H. run_inv H.
  all: pure_inv.
  all: repeat match goal with
       | H : Ret _ = _ |- _ => symmetry in H
       | H : Raise _ = _ |- _ => symmetry in H
       end.
  all: split; [simpl; rewrite ?spawned_app; reflexivity|].
  all: split; [simpl; rewrite ?touched_app; reflexivity|].
  all: first [left; split; [reflexivity|]; eexists; eassumption
             |right; eexists; split; [eassumption | reflexivity]].
Qed.

(** X6: every call of [run_yt_dlp] starts exactly one child process,
    [yt-dlp] with the fixed options, the output template inside the
    working directory and the URL as the last argument; the function
    itself opens, writes and removes no file, so the disk afterwards is
    what the child left. *)
Theorem run_yt_dlp_one_child E url out_dir fs :
  let '(r, fs', evs) := run_yt_dlp E url out_dir fs in
  spawned evs =
    [["yt-dlp"; "--no-playlist"; "-o";
      PyPath.join out_dir "%(title).200s.%(ext)s"; "-f"; "bv*+ba/best"; url]] /\
  touched evs = [] /\
  fs' = match spawn E (yt_dlp_cmd url out_dir) with
        | Ret proc => p_effect proc fs
        | Raise _ => fs
        end.
Proof.
  destruct (run_yt_dlp E url out_dir fs) as [[r fs'] evs] eqn:Hrun.
  destruct (run_yt_dlp_disk _ _ _ _ _ _ _ Hrun) as (Hs & Ht & Hd).
  split; [exact Hs|]. split; [exact Ht|].
  destruct Hd as [(-> & e & ->)|(proc & -> & ->)]; reflexivity.
Qed.

(** X7: what [run_yt_dlp] logs when it fails after the tool was started.
    A working directory that is gone once the tool has exited with code
    0 is logged as "yt-dlp not found"; a working directory that is a
    file, an error stream that does not decode after a non-zero exit,
    and a fault of class [Exception] in [communicate] are logged as
    unexpected errors.  [None] is returned each time. *)
Theorem run_yt_dlp_late_failures E url out_dir fs proc :
  spawn E (yt_dlp_cmd url out_dir) = Ret proc ->
  let fs1 := p_effect proc fs in
  let run_with log :=
    (Ret None, fs1,
     [EvEnter RunYtDlp url out_dir; EvSpawn (yt_dlp_cmd url out_dir);
      EvLog log; EvLeave RunYtDlp (Ret None)]) in
  (forall stderr,
     p_result proc = Ret (0%Z, stderr) -> Disk.node_at fs1 out_dir = None ->
     run_yt_dlp E url out_dir fs = run_with LogYtDlpNotFound) /\
  (forall stderr f,
     p_result proc = Ret (0%Z, stderr) -> Disk.node_at fs1 out_dir = Some (File f) ->
     run_yt_dlp E url out_dir fs = run_with (LogYtDlpUnexpected NotADirectoryError)) /\
  (forall rc,
     p_result proc = Ret (rc, None) -> rc <> 0%Z ->
     run_yt_dlp E url out_dir fs = run_with (LogYtDlpUnexpected UnicodeDecodeError)) /\
  (forall e,
     p_result proc = Raise e -> is_Exception e = true -> is_FileNotFoundError e = false ->
     run_yt_dlp E url out_dir fs = run_with (LogYtDlpUnexpected e)).
Proof.
  intros Hs fs1 run_with. subst run_with. cbv beta.
  split; [|split; [|split]].
  - intros stderr Hr Hn.
    unfold run_yt_dlp, traced, try_except, bind, create_subprocess_exec, emit, of_res,
      communicate, ret, Disk.listdir.
    rewrite Hs. simpl. rewrite Hr. simpl. fold fs1. rewrite Hn. reflexivity.
  - intros stderr f Hr Hn.
    unfold run_yt_dlp, traced, try_except, bind, create_subprocess_exec, emit, of_res,
      communicate, ret, Disk.listdir.
    rewrite Hs. simpl. rewrite Hr. simpl. fold fs1. rewrite Hn. reflexivity.
  - intros rc Hr Hrc.
    unfold run_yt_dlp, traced, try_except, bind, create_subprocess_exec, emit, of_res,
      communicate, ret, decode.
    rewrite Hs. simpl. rewrite Hr. simpl.
    apply Z.eqb_neq in Hrc. rewrite Hrc. reflexivity.
  - intros e Hr He Hf.
    unfold run_yt_dlp, traced, try_except, bind, create_subprocess_exec, emit, of_res,
      communicate, ret.
    rewrite Hs. simpl. rewrite Hr. simpl. rewrite Hf, He. reflexivity.
Qed.

(** ** [process_download] and the disk *)




(** ** [pick_filename_from_url] *)

Lemma name_last_segment dir seg :
  PyStr.truthy seg = true -> seg <> "." ->
  PyStr.contains PyPath.slash seg = false ->
  PyPath.name (dir ++ "/" ++ seg)%string = seg.
Proof.
  intros Ht Hd Hs. unfold PyPath.name.
  change (dir ++ "/" ++ seg)%string with (dir ++ String PyPath.slash seg)%string.
  rewrite split_app_sep, (split_no_sep _ _ Hs), List.filter_app. simpl List.filter.
  assert (Hk : negb (String.eqb seg EmptyString || String.eqb seg ".") = true).
  { destruct seg as [|c seg]; [discriminate|].
    apply negb_true_iff, orb_false_intro; [reflexivity|]. now apply String.eqb_neq. }
  rewrite Hk. apply List.last_last.
Qed.

Lemma name_all_slashes p : PyPath.all_slashes p = true -> PyPath.name p = EmptyString.
Proof.
  intros H. unfold PyPath.name.
  assert (Hf : List.filter
                 (fun c => negb (String.eqb c EmptyString || String.eqb c "."))
                 (PyStr.split PyPath.slash p) = []).
  { induction p as [|c p IH]; [reflexivity|].
    simpl in H. apply andb_prop in H as [Hc Hp].
    simpl. rewrite Hc. simpl. now apply IH. }
  now rewrite Hf.
Qed.

Lemma split_first_free sep s : PyStr.contains sep (PyStr.split_first sep s) = false.
Proof.
  unfold PyStr.split_first.
  destruct (PyStr.split sep s) as [|h t] eqn:Hs; [reflexivity|].
  apply (split_items_no_sep sep s). rewrite Hs. now left.
Qed.

(** X1: the name [pick_filename_from_url] returns is never empty and
    holds no [/], [?] or [#]; the function raises exactly when
    [urlparse] does; for a path that ends in a segment free of these
    characters (and other than [.]) the name is that segment, and for a
    path of slashes only, or an empty one, it is [download]. *)
Theorem pick_filename_from_url_name E url :
  (forall name,
     pick_filename_from_url E url = Ret name ->
     PyStr.truthy name = true /\
     PyStr.contains "/" name = false /\
     PyStr.contains "?" name = false /\
     PyStr.contains "#" name = false) /\
  (forall e, pick_filename_from_url E url = Raise e <-> urlparse_path E url = Raise e) /\
  (forall dir seg,
     urlparse_path E url = Ret (dir ++ "/" ++ seg)%string ->
     PyStr.truthy seg = true -> seg <> "." ->
     PyStr.contains "/" seg = false ->
     PyStr.contains "?" seg = false ->
     PyStr.contains "#" seg = false ->
     pick_filename_from_url E url = Ret seg) /\
  (forall path,
     urlparse_path E url = Ret path -> PyPath.all_slashes path = true ->
     pick_filename_from_url E url = Ret "download").
Proof.
  split; [|split; [|split]].
  - intros name H. pose proof (pick_filename_no_slash _ _ _ H) as Hslash.
    unfold pick_filename_from_url in H.
    destruct (urlparse_path E url) as [path|]; [|discriminate].
    injection H as <-.
    set (n := if PyStr.truthy (PyPath.name path) then PyPath.name path else "download") in *.
    destruct (PyStr.truthy (PyStr.split_first "#" (PyStr.split_first "?" n))) eqn:Ht;
      [|repeat split; reflexivity].
    split; [exact Ht|]. split; [exact Hslash|]. split.
    + apply split_first_no_char, split_first_free.
    + apply split_first_free.
  - intros e. unfold pick_filename_from_url.
    destruct (urlparse_path E url) as [path|e']; [split; discriminate | tauto].
  - intros dir seg Hu Ht Hd Hs Hq Hh. unfold pick_filename_from_url. rewrite Hu.
    rewrite (name_last_segment dir seg Ht Hd Hs), Ht.
    rewrite (split_first_no_sep _ _ Hq), (split_first_no_sep _ _ Hh). now rewrite Ht.
  - intros path Hu Ha. unfold pick_filename_from_url. rewrite Hu.
    rewrite (name_all_slashes _ Ha). reflexivity.
Qed.

(** ** [send_file] *)

Lemma lower_char_dot c : Ascii.eqb (PyStr.lower_char c) "." = Ascii.eqb c ".".
Proof. destruct c as [[] [] [] [] [] [] [] []]; reflexivity. Qed.

Lemma lower_char_slash c : Ascii.eqb (PyStr.lower_char c) "/" = Ascii.eqb c "/".
Proof. destruct c as [[] [] [] [] [] [] [] []]; reflexivity. Qed.

Lemma contains_dot_lower s :
  PyStr.contains PyPath.dot (PyStr.lower s) = PyStr.contains PyPath.dot s.
Proof.
  unfold PyPath.dot. induction s as [|c s IH]; [reflexivity|].
  simpl. now rewrite lower_char_dot, IH.
Qed.

Lemma contains_slash_lower s :
  PyStr.contains PyPath.slash (PyStr.lower s) = PyStr.contains PyPath.slash s.
Proof.
  unfold PyPath.slash. induction s as [|c s IH]; [reflexivity|].
  simpl. now rewrite lower_char_slash, IH.
Qed.

Lemma rfind_dot_none s : PyStr.contains PyPath.dot s = false -> PyPath.rfind_dot s = None.
Proof.
  induction s as [|c s IH]; [reflexivity|]. simpl.
  intros H. apply orb_false_elim in H as [Hc Hs]. now rewrite (IH Hs), Hc.
Qed.

Lemma rfind_dot_app stem e :
  PyStr.contains PyPath.dot e = false ->
  PyPath.rfind_dot (stem ++ String PyPath.dot e)%string = Some (String.length stem).
Proof.
  intros He. induction stem as [|c stem IH]; rewrite ?string_app_cons, ?string_app_nil.
  - simpl. now rewrite (rfind_dot_none _ He).
  - simpl. now rewrite IH.
Qed.

Lemma length_string_app a b :
  String.length (a ++ b)%string = (String.length a + String.length b)%nat.
Proof.
  induction a as [|c a IH]; rewrite ?string_app_cons, ?string_app_nil; simpl; auto.
Qed.

Lemma substring_all b : substring 0 (String.length b) b = b.
Proof. induction b as [|c b IH]; simpl; [reflexivity | now rewrite IH]. Qed.

Lemma substring_app_tail a b :
  substring (String.length a) (String.length b) (a ++ b)%string = b.
Proof.
  induction a as [|c a IH]; rewrite ?string_app_cons, ?string_app_nil; simpl;
    [apply substring_all | exact IH].
Qed.

(** [pathlib]'s suffix of a name made of a stem and an extension. *)
Lemma suffix_app stem e :
  PyStr.truthy stem = true -> PyStr.truthy e = true ->
  PyStr.contains PyPath.dot e = false ->
  PyPath.suffix (stem ++ String PyPath.dot e)%string = String PyPath.dot e.
Proof.
  intros Hs He Hd. unfold PyPath.suffix. rewrite (rfind_dot_app _ _ Hd).
  rewrite length_string_app.
  assert (H1 : (0 <? String.length stem)%nat = true)
    by (destruct stem; [discriminate | reflexivity]).
  assert (H2 : (String.length stem <?
                String.length stem + String.length (String PyPath.dot e) - 1)%nat = true).
  { apply Nat.ltb_lt. destruct e; [discriminate|]. simpl. lia. }
  rewrite H1, H2. simpl andb. cbv iota.
  replace (String.length stem + String.length (String PyPath.dot e) - String.length stem)%nat
    with (String.length (String PyPath.dot e)) by lia.
  apply substring_app_tail.
Qed.

Lemma suffix_no_dot n : PyStr.contains PyPath.dot n = false -> PyPath.suffix n = EmptyString.
Proof. intros H. unfold PyPath.suffix. now rewrite (rfind_dot_none _ H). Qed.

(** An extension that [video_exts] holds once in lower case. *)
Lemma video_ext_shape e :
  In (PyStr.lower e) video_exts ->
  PyStr.contains PyPath.slash e = false /\
  exists e', e = String PyPath.dot e' /\ PyStr.truthy e' = true /\
             PyStr.contains PyPath.dot e' = false.
Proof.
  intros Hin. split.
  - rewrite <- contains_slash_lower.
    unfold video_exts in Hin. simpl in Hin.
    destruct Hin as [<-|[<-|[<-|[<-|[]]]]]; reflexivity.
  - destruct e as [|c e']; [simpl in Hin; intuition discriminate|].
    assert (Hc : PyStr.lower_char c = PyPath.dot /\
                 PyStr.truthy (PyStr.lower e') = true /\
                 PyStr.contains PyPath.dot (PyStr.lower e') = false).
    { simpl in Hin.
      destruct Hin as [H|[H|[H|[H|[]]]]]; injection H as <- <-; repeat split; reflexivity. }
    destruct Hc as (Hc & Ht & Hd).
    assert (c = PyPath.dot).
    { apply Ascii.eqb_eq. unfold PyPath.dot. rewrite <- lower_char_dot.
      now apply Ascii.eqb_eq. }
    subst c. exists e'. split; [reflexivity|]. split.
    + destruct e'; [discriminate | reflexivity].
    + now rewrite <- contains_dot_lower.
Qed.

(** X9: [send_file] sends a file whose name ends in [.mp4], [.mkv],
    [.mov] or [.webm], in any letter case, with [reply_video] when its
    size is at most 49 MiB and with [reply_document] when it is larger;
    a file whose name has no dot is sent with [reply_document].  The
    chat action comes first and the disk is not changed. *)
Theorem send_file_video_or_document E dir fs f :
  telegram E send_chat_action = None ->
  let sent p deliver :=
    send_file E TelegramUpdate p fs =
      (match telegram E deliver with Some x => Raise x | None => Ret tt end, fs,
       [EvUI send_chat_action; EvUI deliver]) in
  (forall stem e,
     PyStr.truthy stem = true -> PyStr.contains "/" stem = false ->
     In (PyStr.lower e) video_exts ->
     let p := (dir ++ "/" ++ stem ++ e)%string in
     Disk.node_at fs p = Some (File f) ->
     sent p (if (f_size f <=? 49 * 1024 * 1024)%N then reply_video p else reply_document p)) /\
  (forall name,
     PyStr.contains "/" name = false -> PyStr.contains "." name = false ->
     let p := (dir ++ "/" ++ name)%string in
     Disk.node_at fs p = Some (File f) ->
     sent p (reply_document p)).
Proof.
  intros Ha sent. subst sent. cbv beta. split.
  - intros stem e Hs Hsl Hin p Hn.
    change (PyStr.contains PyPath.slash stem = false) in Hsl.
    destruct (video_ext_shape e Hin) as (Hes & e' & -> & He' & Hd).
    assert (Hb : PyPath.basename p = (stem ++ String PyPath.dot e')%string).
    { unfold p. rewrite <- string_app_assoc.
      rewrite basename_app by (rewrite contains_app, Hsl, Hes; reflexivity).
      now rewrite basename_slash_end. }
    assert (Hv : existsb (String.eqb (PyStr.lower (PyPath.suffix (PyPath.basename p))))
                   video_exts = true).
    { rewrite Hb, (suffix_app _ _ Hs He' Hd). apply existsb_exists.
      exists (PyStr.lower (String PyPath.dot e')). split; [exact Hin | apply String.eqb_refl]. }
    unfold send_file, effective_chat_id, tg, bind, emit, ret, raise,
      Disk.getsize, Disk.open_rb.
    rewrite Ha, Hn. cbv beta iota. rewrite Hn. cbv beta iota. rewrite Hv. simpl andb.
    destruct (f_size f <=? 49 * 1024 * 1024)%N.
    + destruct (telegram E (reply_video p)); reflexivity.
    + destruct (telegram E (reply_document p)); reflexivity.
  - intros name Hsl Hd p Hn.
    change (PyStr.contains PyPath.slash name = false) in Hsl.
    change (PyStr.contains PyPath.dot name = false) in Hd.
    assert (Hb : PyPath.basename p = name).
    { unfold p. rewrite <- string_app_assoc.
      rewrite basename_app by assumption. now rewrite basename_slash_end. }
    unfold send_file, effective_chat_id, tg, bind, emit, ret, raise,
      Disk.getsize, Disk.open_rb.
    rewrite Ha, Hn. cbv beta iota. rewrite Hn. cbv beta iota.
    rewrite Hb, (suffix_no_dot _ Hd). simpl.
    destruct (telegram E (reply_document p)); reflexivity.
Qed.

(** ** The retry button *)

Lemma inner_event_delivery evs : Forall inner_event evs -> List.filter is_delivery evs = [].
Proof. apply inner_event_filter. intros []; simpl; tauto. Qed.

Lemma inner_event_not_ui evs a : Forall inner_event evs -> ~ In (EvUI a) evs.
Proof.
  intros H Hin. rewrite Forall_forall in H.
  apply (H (EvUI a)). now apply list_elem_of_In.
Qed.

(** [process_download] on the [FakeUpdate] object of the retry path. *)
Lemma process_download_fake E url st w :
  let '(r, w', evs) := process_download E FakeUpdate url st w in
  List.filter is_delivery evs = [] /\
  (r = Ret tt -> In (EvUI (edit_text MSG_failed (Some retry_keyboard))) evs) /\
  (In (EvUI (edit_text MSG_uploading None)) evs ->
   telegram E (edit_text MSG_uploading None) = None -> r = Raise AttributeError).
Proof.
  destruct (process_download E FakeUpdate url st w) as [[r w'] evs] eqn:H.
  unfold process_download in H. run_inv_w H.
  all: repeat match goal with
       | H : run_yt_dlp _ _ _ _ = _ |- _ =>
           apply run_yt_dlp_inv in H as (? & ? & ? & _ & _)
       | H : direct_download _ _ _ _ = _ |- _ =>
           apply direct_download_inv in H as (? & ? & ? & _ & _ & _)
       | H : send_file _ FakeUpdate _ _ = _ |- _ =>
           apply send_file_inv in H as (? & ? & ? & _ & _ & H);
           destruct (H eq_refl) as [? ?]
       end; simplify_eq.
  all: split;
    [simpl; rewrite ?List.filter_app; simpl; rewrite ?List.filter_app; simpl;
     repeat match goal with
       | H : Forall inner_event ?l |- context [List.filter is_delivery ?l] =>
           rewrite (inner_event_delivery l H)
       end; reflexivity|].
  all: split; [intros Hr; try discriminate Hr;
               simpl; rewrite ?in_app_iff; simpl; rewrite ?in_app_iff; simpl; tauto|].
  all: intros Hin Hup; try reflexivity; exfalso.
  all: try congruence.
  all: simpl in Hin; rewrite ?in_app_iff in Hin; simpl in Hin;
       rewrite ?in_app_iff in Hin; simpl in Hin;
       repeat match goal with
         | H : _ \/ _ |- _ => destruct H as [H|H]
         | H : False |- _ => destruct H
         | H : In (EvUI _) ?l, H' : Forall inner_event ?l |- _ =>
             destruct (inner_event_not_ui _ _ H' H)
         end; congruence.
Qed.

(** X10: the retry button never delivers a file.  [handle_callback]
    passes [process_download] an object without [effective_chat], so no
    video and no document is sent in any run; a run that returns
    normally has shown the failure text or the "no previous URL" text;
    and a run that has shown the uploading text ends in
    [AttributeError]. *)
Theorem retry_never_delivers E w :
  let '(r, w', evs) := handle_callback E "retry" w in
  List.filter is_delivery evs = [] /\
  (r = Ret tt ->
   In (EvUI (edit_text MSG_failed (Some retry_keyboard))) evs \/
   In (EvUI (query_edit_message_text MSG_no_previous_url (Some help_keyboard))) evs) /\
  (In (EvUI (edit_text MSG_uploading None)) evs ->
   telegram E (edit_text MSG_uploading None) = None -> r = Raise AttributeError).
Proof.
  destruct (handle_callback E "retry" w) as [[r w'] evs] eqn:H.
  unfold handle_callback in H.
  change (String.eqb "retry" "send_url") with false in H.
  change (String.eqb "retry" "sites") with false in H.
  change (String.eqb "retry" "close") with false in H.
  change (String.eqb "retry" "back_to_help") with false in H.
  change (String.eqb "retry" "help") with false in H.
  change (String.eqb "retry" "retry") with true in H.
  cbv iota in H. run_inv_w H.
  all: try match goal with
       | H : process_download ?E0 FakeUpdate ?url ?st ?w0 = _ |- _ =>
           pose proof (process_download_fake E0 url st w0) as Hpd; rewrite H in Hpd;
           destruct Hpd as (Hnone & Hret & Hup)
       end.
  all: split; [simpl; rewrite ?Hnone; reflexivity|].
  all: split; [intros Hr; try discriminate Hr; simpl; tauto|].
  all: intros Hin Hok; simpl in Hin;
       repeat match goal with
         | H : _ \/ _ |- _ => destruct H as [H|H]
         | H : False |- _ => destruct H
         end; try discriminate; auto.
Qed.

(** ** [handle_callback] and the keyboards *)

(** X11: [handle_callback] acts on exactly the callback data that the
    buttons of the keyboards carry: for each of them it makes a further
    Telegram call after answering the query, and for any other data it
    answers the query and does nothing else. *)
Theorem every_button_is_handled E data w :
  telegram E query_answer = None ->
  let offered :=
    concat (map callback_data_of [help_keyboard; retry_keyboard; main_keyboard; back_keyboard]) in
  let '(r, w', evs) := handle_callback E data w in
  (In data offered -> exists a rest, evs = EvUI query_answer :: EvUI a :: rest) /\
  (~ In data offered -> (r, w', evs) = (Ret tt, w, [EvUI query_answer])).
Proof.
  intros Ha offered.
  destruct (handle_callback E data w) as [[r w'] evs] eqn:H.
  unfold handle_callback in H. split.
  - intros Hin. vm_compute in Hin.
    destruct Hin as [<-|[<-|[<-|[<-|[<-|[<-|[]]]]]]];
      cbn [String.eqb Ascii.eqb Bool.eqb] in H; cbv iota in H;
      run_inv_w H; simpl; eauto.
  - intros Hout.
    assert (Hne : forall d, In d offered -> String.eqb data d = false).
    { intros d Hd. apply String.eqb_neq. intros ->. now apply Hout. }
    rewrite !Hne in H by (vm_compute; tauto).
    run_inv_w H. reflexivity.
Qed.

(** X12: [handle_callback] answers the query first, and stops there
    when answering fails.  For data other than [retry] it makes at most
    one further Telegram call and nothing else: the disk is not touched,
    and [user_data] changes only when [close] has run to its end, which
    empties it. *)
Theorem handle_callback_menus E data w :
  let '(r, w', evs) := handle_callback E data w in
  (exists rest, evs = EvUI query_answer :: rest) /\
  (forall e, telegram E query_answer = Some e ->
     (r, w', evs) = (Raise e, w, [EvUI query_answer])) /\
  (data <> "retry" ->
   disk w' = disk w /\
   (exists acts, evs = map EvUI acts /\ length acts <= 2) /\
   (user_data w' = user_data w \/ user_data w' = ∅) /\
   (user_data w' <> user_data w -> data = "close" /\ r = Ret tt) /\
   (data = "close" -> r = Ret tt -> user_data w' = ∅)).
Proof.
  destruct (handle_callback E data w) as [[r w'] evs] eqn:H.
  unfold handle_callback in H.
  assert (Hclose : String.eqb "close" "send_url" = false /\ String.eqb "close" "sites" = false)
    by (split; reflexivity).
  destruct (String.eqb_spec data "send_url") as [->|?];
    [|destruct (String.eqb_spec data "sites") as [->|?];
      [|destruct (String.eqb_spec data "close") as [->|?];
        [|destruct (String.eqb_spec data "back_to_help") as [->|?];
          [|destruct (String.eqb_spec data "help") as [->|?];
            [|destruct (String.eqb_spec data "retry") as [->|?]]]]]].
  all: run_inv_w H.
  all: (split; [eexists; reflexivity|]).
  all: (split; [intros e0 He0; congruence|]).
  all: intros Hd; try congruence.
  all: (split; [reflexivity|]).
  all: (split; [first [exists [query_answer]; split; [reflexivity | simpl; lia]
                      |eexists [query_answer; _]; split; [reflexivity | simpl; lia]]|]).
  all: simpl; (split; [tauto|]).
  all: split; [intros Hu; try congruence; auto|].
  all: first [solve [auto] | intros Hc Hr; congruence | intros Hc Hr; discriminate].
Qed.

(** ** From the message to the command line *)

Lemma receive_event_spawned p evs : Forall (receive_event p) evs -> spawned evs = [].
Proof.
  induction 1 as [|x evs Hx _ IH]; [reflexivity|].
  destruct x; simpl in *; try assumption. contradiction.
Qed.

Lemma direct_download_no_child E url d fs r fs' evs :
  direct_download E url d fs = (r, fs', evs) -> spawned evs = [].
Proof.
  intros H. unfold direct_download in H. run_inv H.
  all: repeat match goal with
       | Hr : receive _ _ _ _ _ = _ |- _ =>
           apply receive_events, receive_event_spawned in Hr
       end.
  all: simpl; rewrite ?spawned_app; simpl; rewrite ?spawned_app; simpl;
       repeat match goal with H : spawned _ = [] |- _ => rewrite H end; reflexivity.
Qed.

Lemma spawned_map_ui acts : spawned (map EvUI acts) = [].
Proof. induction acts; simpl; auto. Qed.

(** The child processes of a call of [process_download]. *)
Lemma process_download_children E u url st w :
  let evs := (process_download E u url st w).2 in
  spawned evs = [] \/ spawned evs = [yt_dlp_cmd url (mkdtemp_name E)].
Proof.
  destruct (process_download E u url st w) as [[r w'] evs] eqn:H. simpl.
  unfold process_download in H. run_inv_w H.
  all: try (left; reflexivity).
  all: right.
  all: repeat match goal with
       | H : run_yt_dlp _ _ _ _ = _ |- _ =>
           apply run_yt_dlp_disk in H as (H & _ & _)
       | H : direct_download _ _ _ _ = _ |- _ =>
           apply direct_download_no_child in H
       | H : send_file _ _ _ _ = _ |- _ =>
           apply send_file_inv in H as (_ & ? & -> & _)
       end.
  all: simpl; rewrite ?spawned_app; simpl; rewrite ?spawned_app; simpl;
       rewrite ?spawned_map_ui;
       repeat match goal with H : spawned _ = _ |- _ => rewrite H end;
       rewrite ?app_nil_r; reflexivity.
Qed.

(** X16: a child process that [handle_message] starts is [yt-dlp] with
    the fixed options and, as its last argument, a URL that starts with
    [h] or [H]: no text of a message reaches the tool as an option. *)
Theorem handle_message_no_option E text w cmd :
  In cmd (spawned (handle_message E text w).2) ->
  exists url tail,
    cmd = ["yt-dlp"; "--no-playlist"; "-o";
           PyPath.join (mkdtemp_name E) "%(title).200s.%(ext)s"; "-f"; "bv*+ba/best"; url] /\
    (url = String "h" tail \/ url = String "H" tail).
Proof.
  destruct (handle_message_inv E text w)
    as [(m & _ & ->)|(a & sch & rest & b & _ & Hsch & _ & _ & ->)].
  - simpl. tauto.
  - intros Hin.
    destruct (process_download_children E TelegramUpdate
                (PyText.encode (sch ++ rest)) None w) as [Hs|Hs];
      simpl in Hs; rewrite Hs in Hin; [destruct Hin|].
    destruct Hin as [<-|[]].
    unfold is_scheme in Hsch. apply orb_prop in Hsch as [H|H];
      apply in_sets_cons in H as (c & s & -> & Hc & _);
      apply among_In in Hc as [<-|[<-|[]]];
      eexists; eexists; (split; [reflexivity|]); simpl; auto.
Qed.

(** ** The further properties at work *)

Lemma X1_witness :
  pick_filename_from_url E_offline sample_url = Ret "clip" /\
  PyStr.contains "/" "clip" = false.
Proof.
  assert (H : pick_filename_from_url E_offline sample_url = Ret "clip").
  { apply (proj1 (proj2 (proj2 (pick_filename_from_url_name E_offline sample_url)))
             EmptyString "clip").
    - reflexivity.
    - reflexivity.
    - discriminate.
    - reflexivity.
    - reflexivity.
    - reflexivity. }
  split; [exact H|].
  apply (proj1 (pick_filename_from_url_name E_offline sample_url) "clip" H).
Defined.

Lemma X2_witness :
  exists evs,
    direct_download E_clip_padded sample_url sample_dir leftover_disk =
      (Ret (Some "/tmp/tmpx1/clip.mp4"),
       <["/tmp/tmpx1/clip.mp4" := File {| f_size := 15; f_mtime := 1000 |}]> leftover_disk,
       evs) /\
    opened evs = ["/tmp/tmpx1/clip.mp4"] /\ reads evs = [10; 0; 5]%N /\ written evs = 15%N.
Proof.
  eapply (direct_download_complete E_clip_padded sample_url sample_dir leftover_disk "clip"
            (sample_response 200
               [("content-type",
                 (" video/mp4" ++ PyStr.of_bytes [0xC2; 0xA0]%N ++ "; codecs=avc1")%string)]
               [Chunk 10; Chunk 0; Chunk 5])
            [10; 0; 5]%N).
  - reflexivity.
  - vm_compute. repeat split.
  - reflexivity.
  - reflexivity.
  - reflexivity.
  - vm_compute. discriminate.
  - vm_compute. reflexivity.
Defined.



Lemma X5_witness :
  let '(r, fs', evs) := direct_download E_clip_padded sample_url sample_dir sample_disk in
  Disk.under sample_dir "/tmp/tmpx1/clip.mp4" = true /\
  fs' !! "/tmp" = sample_disk !! "/tmp".
Proof.
  pose proof (direct_download_confined E_clip_padded sample_url sample_dir sample_disk) as H.
  assert (Ht : In "/tmp/tmpx1/clip.mp4"
                 (touched (direct_download E_clip_padded sample_url sample_dir sample_disk).2))
    by (vm_compute; tauto).
  destruct (direct_download E_clip_padded sample_url sample_dir sample_disk) as [[r fs'] evs].
  destruct H as (_ & _ & H). destruct (H eq_refl eq_refl) as [Hunder Hout].
  split; [apply Hunder, Ht | apply Hout; reflexivity].
Defined.

Lemma X7_witness :
  (run_yt_dlp E_tool_gone sample_url sample_dir sample_disk).2 =
    [EvEnter RunYtDlp sample_url sample_dir; EvSpawn (yt_dlp_cmd sample_url sample_dir);
     EvLog LogYtDlpNotFound; EvLeave RunYtDlp (Ret None)] /\
  (run_yt_dlp E_tool_garbled sample_url sample_dir sample_disk).2 =
    [EvEnter RunYtDlp sample_url sample_dir; EvSpawn (yt_dlp_cmd sample_url sample_dir);
     EvLog (LogYtDlpUnexpected UnicodeDecodeError); EvLeave RunYtDlp (Ret None)].
Proof.
  split.
  - rewrite (proj1 (run_yt_dlp_late_failures E_tool_gone sample_url sample_dir sample_disk
                      _ eq_refl) (Some EmptyString)); [reflexivity | reflexivity |].
    vm_compute. reflexivity.
  - rewrite (proj1 (proj2 (proj2 (run_yt_dlp_late_failures E_tool_garbled sample_url
                                    sample_dir sample_disk _ eq_refl))) 1%Z);
      [reflexivity | reflexivity | discriminate].
Defined.


Lemma X9_witness :
  send_file E_offline TelegramUpdate "/tmp/tmpx1/CLIP.MP4" video_disk =
    (Ret tt, video_disk,
     [EvUI send_chat_action; EvUI (reply_video "/tmp/tmpx1/CLIP.MP4")]) /\
  send_file E_offline TelegramUpdate "/tmp/tmpx1/clip" leftover_disk =
    (Ret tt, leftover_disk,
     [EvUI send_chat_action; EvUI (reply_document "/tmp/tmpx1/clip")]).
Proof.
  split.
  - apply (proj1 (send_file_video_or_document E_offline "/tmp/tmpx1" video_disk
                    {| f_size := 700; f_mtime := 5 |} eq_refl) "CLIP" ".MP4").
    + reflexivity.
    + reflexivity.
    + vm_compute. tauto.
    + vm_compute. reflexivity.
  - apply (proj2 (send_file_video_or_document E_offline "/tmp/tmpx1" leftover_disk
                    {| f_size := 300; f_mtime := 3 |} eq_refl) "clip").
    + reflexivity.
    + reflexivity.
    + vm_compute. reflexivity.
Defined.

Lemma X10_witness :
  (handle_callback E_clip "retry" recorded_world).1.1 = Raise AttributeError.
Proof.
  pose proof (retry_never_delivers E_clip recorded_world) as H.
  assert (Hin : In (EvUI (edit_text MSG_uploading None))
                  (handle_callback E_clip "retry" recorded_world).2)
    by (vm_compute; tauto).
  destruct (handle_callback E_clip "retry" recorded_world) as [[r w'] evs].
  destruct H as (_ & _ & H). exact (H Hin eq_refl).
Defined.

Lemma X11_witness :
  (exists a rest, (handle_callback E_offline "back_to_help" sample_world).2 =
                  EvUI query_answer :: EvUI a :: rest) /\
  handle_callback E_offline "cancel" sample_world =
    (Ret tt, sample_world, [EvUI query_answer]).
Proof.
  split.
  - pose proof (every_button_is_handled E_offline "back_to_help" sample_world eq_refl) as H.
    destruct (handle_callback E_offline "back_to_help" sample_world) as [[r w'] evs].
    apply (proj1 H). vm_compute. tauto.
  - pose proof (every_button_is_handled E_offline "cancel" sample_world eq_refl) as H.
    destruct (handle_callback E_offline "cancel" sample_world) as [[r w'] evs].
    apply (proj2 H). vm_compute. intuition discriminate.
Defined.

Lemma X12_witness :
  let '(r, w', evs) := handle_callback E_offline "close" recorded_world in
  disk w' = disk recorded_world /\ user_data w' = ∅.
Proof.
  pose proof (handle_callback_menus E_offline "close" recorded_world) as H.
  assert (Hr : (handle_callback E_offline "close" recorded_world).1.1 = Ret tt)
    by (vm_compute; reflexivity).
  destruct (handle_callback E_offline "close" recorded_world) as [[r w'] evs].
  destruct H as (_ & _ & H).
  destruct (H ltac:(discriminate)) as (Hd & _ & _ & _ & Hc).
  split; [exact Hd | exact (Hc eq_refl Hr)].
Defined.

Lemma X14_witness :
  handle_message E_clip (Some sample_text) sample_world =
  process_download E_clip TelegramUpdate sample_url None sample_world.
Proof.
  apply (handle_message_first_url E_clip
           (PyText.of_ascii "  see (") (PyText.of_ascii "https://")
           (PyText.of_ascii "example.org/clip") (PyText.of_ascii ").")
           (PyText.of_ascii " now") sample_world).
  - vm_compute. repeat constructor.
  - reflexivity.
  - vm_compute. repeat constructor.
  - discriminate.
  - reflexivity.
  - vm_compute. repeat constructor.
  - reflexivity.
Defined.

Lemma X15_witness :
  exists m,
    In m [MSG_help; MSG_about] /\
    handle_message E_offline (Some ([0xA0; 0x20] ++ TEXT_about ++ [0x0A])%N) sample_world =
      (match telegram E_offline (reply_text m (Some help_keyboard)) with
       | Some e => Raise e
       | None => Ret tt
       end, sample_world, [EvUI (reply_text m (Some help_keyboard))]).
Proof.
  apply (handle_message_menu_texts E_offline [0xA0; 0x20]%N TEXT_about [0x0A]%N sample_world).
  - vm_compute. tauto.
  - repeat constructor.
  - repeat constructor.
Defined.

Lemma X16_witness :
  exists url tail,
    yt_dlp_cmd sample_url sample_dir =
      ["yt-dlp"; "--no-playlist"; "-o";
       PyPath.join (mkdtemp_name E_clip) "%(title).200s.%(ext)s"; "-f"; "bv*+ba/best"; url] /\
    (url = String "h" tail \/ url = String "H" tail).
Proof.
  apply (handle_message_no_option E_clip (Some sample_text) sample_world).
  vm_compute. tauto.
Defined.
